(** * check_cisco_uc_perf: threshold ranges, counter cache and probe runs

    A shallow embedding of [check_cisco_uc_perf.go] (releases 0.3 and 0.8).
    Go strings are byte strings and are modelled by [string]; [float64] is
    IEEE binary64, modelled by [spec_float] with precision 53 and maximal
    exponent 1024; [int] and [int64] values are modelled by [Z]: the
    program compares them and takes the difference of two clock readings,
    nothing that wraps around. *)

From Stdlib Require Import ZArith Bool Ascii String List Lia SpecFloat DecimalString.
From stdpp Require Import base option list gmap strings.

Local Open Scope Z_scope.

(** ** Package [strings] *)

(** [strings.Split(s, sep)]; every call site passes a one-byte separator. *)
Fixpoint strings_Split (s : string) (sep : ascii) : list string :=
  match s with
  | EmptyString => [EmptyString]
  | String c s' =>
      if Ascii.eqb c sep then EmptyString :: strings_Split s' sep
      else match strings_Split s' sep with
           | h :: t => String c h :: t
           | [] => [String c EmptyString]
           end
  end.

(** [strings.HasPrefix(s, prefix)]. *)
Fixpoint strings_HasPrefix (s prefix : string) {struct prefix} : bool :=
  match prefix, s with
  | EmptyString, _ => true
  | String p prefix', String c s' => Ascii.eqb c p && strings_HasPrefix s' prefix'
  | String _ _, EmptyString => false
  end.

(** [s[n:]]: the string without its first [n] bytes. *)
Fixpoint string_drop (n : nat) (s : string) : string :=
  match n, s with
  | O, _ => s
  | S n', String _ s' => string_drop n' s'
  | S _, EmptyString => EmptyString
  end.

(** [s[:n]]: the first [n] bytes of the string. *)
Fixpoint string_take (n : nat) (s : string) : string :=
  match n, s with
  | O, _ => EmptyString
  | S n', String c s' => String c (string_take n' s')
  | S _, EmptyString => EmptyString
  end.

(** [strings.HasSuffix(s, suffix)]:
    [len(s) >= len(suffix) && s[len(s)-len(suffix):] == suffix]. *)
Definition strings_HasSuffix (s suffix : string) : bool :=
  (String.length suffix <=? String.length s)%nat
  && String.eqb (string_drop (String.length s - String.length suffix) s) suffix.

(** [strings.TrimPrefix(s, prefix)]. *)
Definition strings_TrimPrefix (s prefix : string) : string :=
  if strings_HasPrefix s prefix then string_drop (String.length prefix) s else s.

(** [strings.Replace(s, old, new, -1)]; every call site passes a one-byte
    [old], so the occurrences cannot overlap. *)
Fixpoint strings_Replace (s : string) (old : ascii) (new : string) : string :=
  match s with
  | EmptyString => EmptyString
  | String c s' =>
      (if Ascii.eqb c old then new else String c EmptyString)
        +:+ strings_Replace s' old new
  end.

(** [strings.Index(s, substr)] for a one-byte [substr]; [-1] when absent. *)
Fixpoint strings_Index (s : string) (c : ascii) : Z :=
  match s with
  | EmptyString => -1
  | String a s' =>
      if Ascii.eqb a c then 0
      else let i := strings_Index s' c in if i <? 0 then -1 else i + 1
  end.

(** [strings.Repeat(s, count)] for a non-negative count. *)
Fixpoint strings_Repeat (s : string) (count : nat) : string :=
  match count with
  | O => EmptyString
  | S n => s +:+ strings_Repeat s n
  end.

(** Concatenation of the pieces of a format, as [fmt.Sprintf] does for the
    verbs [%s], [%v] and [%d] once each argument is rendered. *)
Fixpoint concat_strings (l : list string) : string :=
  match l with
  | [] => EmptyString
  | s :: l' => s +:+ concat_strings l'
  end.

(** ** Package [regexp] *)

(** The two patterns of the program use literals, [.], a character class and
    the operators [*], [+] and concatenation. Go matches runes; every byte
    the patterns name is ASCII and the bytes of a multi-byte rune are all
    above 127, so matching byte by byte accepts the same strings. *)
Inductive regex : Type :=
  | ReVoid : regex
  | ReEps : regex
  | ReLit : ascii -> regex
  | ReDot : regex
  | ReClass : list (ascii * ascii) -> regex
  | ReCat : regex -> regex -> regex
  | ReAlt : regex -> regex -> regex
  | ReStar : regex -> regex.

Definition RePlus (r : regex) : regex := ReCat r (ReStar r).

Definition byte_le (a b : ascii) : bool := (nat_of_ascii a <=? nat_of_ascii b)%nat.

Definition in_ranges (c : ascii) (l : list (ascii * ascii)) : bool :=
  existsb (fun r => byte_le (fst r) c && byte_le c (snd r)) l.

(** One input byte against a one-byte pattern; [.] excludes the newline. *)
Definition re_accepts_byte (r : regex) (c : ascii) : bool :=
  match r with
  | ReLit a => Ascii.eqb c a
  | ReDot => negb (Ascii.eqb c "010"%char)
  | ReClass l => in_ranges c l
  | _ => false
  end.

Fixpoint re_nullable (r : regex) : bool :=
  match r with
  | ReVoid => false
  | ReEps => true
  | ReLit _ | ReDot | ReClass _ => false
  | ReCat r1 r2 => re_nullable r1 && re_nullable r2
  | ReAlt r1 r2 => re_nullable r1 || re_nullable r2
  | ReStar _ => true
  end.

Fixpoint re_deriv (c : ascii) (r : regex) : regex :=
  match r with
  | ReVoid | ReEps => ReVoid
  | ReLit _ | ReDot | ReClass _ => if re_accepts_byte r c then ReEps else ReVoid
  | ReCat r1 r2 =>
      if re_nullable r1
      then ReAlt (ReCat (re_deriv c r1) r2) (re_deriv c r2)
      else ReCat (re_deriv c r1) r2
  | ReAlt r1 r2 => ReAlt (re_deriv c r1) (re_deriv c r2)
  | ReStar r1 => ReCat (re_deriv c r1) (ReStar r1)
  end.

(** [regexp.MatchString("^" + r, s)]: the pattern is anchored at the start
    of [s] only, so it matches when some prefix of [s] is in the language
    of [r]. *)
Fixpoint regexp_MatchString_anchored (r : regex) (s : string) : bool :=
  re_nullable r
  || match s with
     | EmptyString => false
     | String c s' => regexp_MatchString_anchored (re_deriv c r) s'
     end.

(** The language of a pattern, for the correctness of the matcher. *)
Inductive re_lang : regex -> string -> Prop :=
  | RL_eps : re_lang ReEps EmptyString
  | RL_lit a : re_lang (ReLit a) (String a EmptyString)
  | RL_dot c : c <> "010"%char -> re_lang ReDot (String c EmptyString)
  | RL_class l c : in_ranges c l = true -> re_lang (ReClass l) (String c EmptyString)
  | RL_cat r1 r2 s1 s2 :
      re_lang r1 s1 -> re_lang r2 s2 -> re_lang (ReCat r1 r2) (s1 +:+ s2)
  | RL_alt_l r1 r2 s : re_lang r1 s -> re_lang (ReAlt r1 r2) s
  | RL_alt_r r1 r2 s : re_lang r2 s -> re_lang (ReAlt r1 r2) s
  | RL_star_nil r : re_lang (ReStar r) EmptyString
  | RL_star_cons r s1 s2 :
      re_lang r s1 -> re_lang (ReStar r) s2 -> re_lang (ReStar r) (s1 +:+ s2).

(** [^\\\\.*\\.*\\.*] as written in [isFullQualified]. *)
Definition re_fullQualified : regex :=
  ReCat (ReLit "\"%char) (ReCat (ReLit "\"%char)
    (ReCat (ReStar ReDot) (ReCat (ReLit "\"%char)
      (ReCat (ReStar ReDot) (ReCat (ReLit "\"%char) (ReStar ReDot)))))).

(** [^[0-9.]+:[0-9.]+] as written in [generateAlert]. *)
Definition re_digits_dots : regex :=
  RePlus (ReClass [("0"%char, "9"%char); ("."%char, "."%char)]).

Definition re_numberRange : regex :=
  ReCat re_digits_dots (ReCat (ReLit ":"%char) re_digits_dots).

(** ** [float64] *)

Definition float64 : Type := spec_float.

Definition f64_prec : Z := 53.
Definition f64_emax : Z := 1024.

Definition f64_zero : float64 := S754_zero false.

(** The comparison operators of Go on [float64]; each is false as soon as
    an operand is NaN. *)
Definition f64_lt (a b : float64) : bool := SFltb a b.
Definition f64_gt (a b : float64) : bool := SFltb b a.
Definition f64_le (a b : float64) : bool := SFleb a b.
Definition f64_ge (a b : float64) : bool := SFleb b a.

(** The binary64 number nearest to [(-1)^neg * m * 10^e] (ties to even);
    an infinity when that number is out of range. *)
Definition f64_of_decimal (neg : bool) (m : Z) (e : Z) : float64 :=
  match m with
  | Zpos p =>
      if 0 <=? e then binary_round f64_prec f64_emax neg (p * Z.to_pos (10 ^ e))%positive 0
      else
        let '(q, e', l) := SFdiv_core_binary f64_prec f64_emax (Zpos p) 0 (10 ^ (- e)) 0 in
        binary_round_aux f64_prec f64_emax neg q e' l
  | _ => S754_zero neg
  end.

(** The binary64 number nearest to [(-1)^neg * m * 2^e]. *)
Definition f64_of_binary (neg : bool) (m : Z) (e : Z) : float64 :=
  match m with
  | Zpos p => binary_round f64_prec f64_emax neg p e
  | _ => S754_zero neg
  end.

Definition f64_is_inf (f : float64) : bool :=
  match f with S754_infinity _ => true | _ => false end.

(** ** Package [strconv]: [ParseFloat(s, 64)]

    Follows [strconv/atof.go] ([special], [readFloat], [underscoreOK],
    [atof64], [ParseFloat]) of Go 1.13 and later. [readFloat] keeps 19
    digits of the mantissa and a truncation flag, and [atof64] reads the
    digits again where that is not enough, so that the result is the
    correctly rounded value of the whole numeral: the model keeps every
    digit and rounds once. *)

Inductive NumError : Type := ErrSyntax | ErrRange.

(** [lower(c)] is [c | ('x' - 'X')]: bit 5 set. *)
Definition lower (c : ascii) : ascii :=
  match c with
  | Ascii b0 b1 b2 b3 b4 _ b6 b7 => Ascii b0 b1 b2 b3 b4 true b6 b7
  end.

Definition is_digit (c : ascii) : bool := byte_le "0" c && byte_le c "9".

Definition is_hex_letter (c : ascii) : bool :=
  byte_le "a" (lower c) && byte_le (lower c) "f".

Definition digit_val (c : ascii) : Z := Z.of_nat (nat_of_ascii c) - 48.

Definition hex_letter_val (c : ascii) : Z := Z.of_nat (nat_of_ascii (lower c)) - 97 + 10.

(** [commonPrefixLenIgnoreCase(s, prefix)], [prefix] in lower case. *)
Fixpoint commonPrefixLenIgnoreCase (s prefix : string) : nat :=
  match s, prefix with
  | String c s', String p prefix' =>
      let c' := if byte_le "A" c && byte_le c "Z" then lower c else c in
      if Ascii.eqb c' p then S (commonPrefixLenIgnoreCase s' prefix') else O
  | _, _ => O
  end.

(** [special(s)]: the value and the number of bytes read, when [s] starts
    with an infinity or a NaN. *)
Definition special_inf (neg : bool) (nsign : nat) (s : string) : option (float64 * nat) :=
  let n := commonPrefixLenIgnoreCase s "infinity" in
  let n := if (3 <? n)%nat && (n <? 8)%nat then 3%nat else n in
  if (n =? 3)%nat || (n =? 8)%nat then Some (S754_infinity neg, (nsign + n)%nat) else None.

Definition special (s : string) : option (float64 * nat) :=
  match s with
  | EmptyString => None
  | String c s' =>
      if Ascii.eqb c "+" then special_inf false 1 s'
      else if Ascii.eqb c "-" then special_inf true 1 s'
      else if Ascii.eqb c "i" || Ascii.eqb c "I" then special_inf false 0 s
      else if Ascii.eqb c "n" || Ascii.eqb c "N" then
        if (commonPrefixLenIgnoreCase s "nan" =? 3)%nat then Some (S754_nan, 3%nat) else None
      else None
  end.

(** What the last byte seen by [underscoreOK] was. *)
Inductive saw_kind : Type := SawStart | SawDigit | SawUnderscore | SawOther.

Fixpoint underscoreOK_loop (hex : bool) (saw : saw_kind) (s : string) : bool :=
  match s with
  | EmptyString => match saw with SawUnderscore => false | _ => true end
  | String c s' =>
      if is_digit c || (hex && is_hex_letter c) then underscoreOK_loop hex SawDigit s'
      else if Ascii.eqb c "_" then
        match saw with
        | SawDigit => underscoreOK_loop hex SawUnderscore s'
        | _ => false
        end
      else
        match saw with
        | SawUnderscore => false
        | _ => underscoreOK_loop hex SawOther s'
        end
  end.

Definition underscoreOK (s : string) : bool :=
  let s :=
    match s with
    | String c s' => if Ascii.eqb c "-" || Ascii.eqb c "+" then s' else s
    | EmptyString => s
    end in
  match s with
  | String z (String b s') =>
      if Ascii.eqb z "0"
         && (Ascii.eqb (lower b) "b" || Ascii.eqb (lower b) "o" || Ascii.eqb (lower b) "x")
      then underscoreOK_loop (Ascii.eqb (lower b) "x") SawDigit s'
      else underscoreOK_loop false SawStart s
  | _ => underscoreOK_loop false SawStart s
  end.

(** The variables of the digit loop of [readFloat]. *)
Record rf_state : Type := mk_rf_state {
  rf_mantissa : Z;
  rf_nd : Z;
  rf_dp : Z;
  rf_sawdot : bool;
  rf_sawdigits : bool;
  rf_underscores : bool
}.

Definition rf_init : rf_state := mk_rf_state 0 0 0 false false false.

(** The digit loop of [readFloat]: the state at the first byte that is not
    part of the mantissa, and the input from that byte on. *)
Fixpoint rf_digits (hex : bool) (st : rf_state) (s : string) : rf_state * string :=
  match s with
  | EmptyString => (st, s)
  | String c s' =>
      let '(mk_rf_state m nd dp sawdot sawdigits us) := st in
      if Ascii.eqb c "_" then rf_digits hex (mk_rf_state m nd dp sawdot sawdigits true) s'
      else if Ascii.eqb c "." then
        if sawdot then (st, s)
        else rf_digits hex (mk_rf_state m nd nd true sawdigits us) s'
      else if is_digit c then
        if Ascii.eqb c "0" && (nd =? 0)
        then rf_digits hex (mk_rf_state m nd (dp - 1) sawdot true us) s'
        else rf_digits hex
               (mk_rf_state (m * (if hex then 16 else 10) + digit_val c) (nd + 1) dp sawdot true us) s'
      else if hex && is_hex_letter c then
        rf_digits hex (mk_rf_state (m * 16 + hex_letter_val c) (nd + 1) dp sawdot true us) s'
      else (st, s)
  end.

(** The digits of the exponent: [e] stops growing once it reaches 10000. *)
Fixpoint rf_exp_digits (e : Z) (us : bool) (s : string) : Z * bool * string :=
  match s with
  | EmptyString => (e, us, s)
  | String c s' =>
      if is_digit c then rf_exp_digits (if e <? 10000 then e * 10 + digit_val c else e) us s'
      else if Ascii.eqb c "_" then rf_exp_digits e true s'
      else (e, us, s)
  end.

(** What [readFloat] returns when [ok]: sign, base, mantissa, exponent
    (decimal, or binary for a hexadecimal numeral) and the input left. *)
Record rf_result : Type := mk_rf_result {
  rf_neg : bool;
  rf_hex : bool;
  rf_mant : Z;
  rf_exp : Z;
  rf_rest : string
}.

(** The exponent part, read after the mantissa: the shift of the decimal
    point, whether an underscore was seen, and the input left. *)
Definition rf_exponent (hex : bool) (us : bool) (s : string) : option (Z * bool * string) :=
  match s with
  | String c s1 =>
      if Ascii.eqb (lower c) (if hex then "p" else "e")%char then
        match s1 with
        | EmptyString => None
        | String c1 s2 =>
            let '(esign, s3) :=
              if Ascii.eqb c1 "+" then (1, s2)
              else if Ascii.eqb c1 "-" then (-1, s2)
              else (1, s1) in
            match s3 with
            | String d _ =>
                if is_digit d then
                  let '(e, us', rest) := rf_exp_digits 0 us s3 in
                  Some (e * esign, us', rest)
                else None
            | EmptyString => None
            end
        end
      else if hex then None else Some (0, us, s)
  | EmptyString => if hex then None else Some (0, us, s)
  end.

Definition readFloat (s : string) : option rf_result :=
  let '(neg, s1) :=
    match s with
    | String c s' =>
        if Ascii.eqb c "+" then (false, s')
        else if Ascii.eqb c "-" then (true, s')
        else (false, s)
    | EmptyString => (false, s)
    end in
  let '(hex, s2) :=
    match s1 with
    | String z (String x (String c s')) =>
        if Ascii.eqb z "0" && Ascii.eqb (lower x) "x" then (true, String c s') else (false, s1)
    | _ => (false, s1)
    end in
  let '(st, s3) := rf_digits hex rf_init s2 in
  if negb (rf_sawdigits st) then None
  else
    let dp := if rf_sawdot st then rf_dp st else rf_nd st in
    let dp := if hex then dp * 4 else dp in
    let ndMant := if hex then rf_nd st * 4 else rf_nd st in
    match rf_exponent hex (rf_underscores st) s3 with
    | None => None
    | Some (e, us, rest) =>
        let dp := dp + e in
        let exp := if rf_mantissa st =? 0 then 0 else dp - ndMant in
        let read := string_take (String.length s - String.length rest) s in
        if us && negb (underscoreOK read) then None
        else Some (mk_rf_result neg hex (rf_mantissa st) exp rest)
    end.

(** [atof64(s)]: value, number of bytes read, error. *)
Definition atof64 (s : string) : float64 * nat * option NumError :=
  match special s with
  | Some (f, n) => (f, n, None)
  | None =>
      match readFloat s with
      | None => (f64_zero, O, Some ErrSyntax)
      | Some r =>
          let f :=
            if rf_hex r then f64_of_binary (rf_neg r) (rf_mant r) (rf_exp r)
            else f64_of_decimal (rf_neg r) (rf_mant r) (rf_exp r) in
          let n := (String.length s - String.length (rf_rest r))%nat in
          (f, n, if f64_is_inf f then Some ErrRange else None)
      end
  end.

(** [strconv.ParseFloat(s, 64)]: a numeral followed by anything else is a
    syntax error, and every syntax error comes with the value 0. *)
Definition strconv_ParseFloat (s : string) : float64 * option NumError :=
  let '(f, n, err) := atof64 s in
  if negb (n =? String.length s)%nat
     && match err with Some ErrSyntax => false | _ => true end
  then (f64_zero, Some ErrSyntax)
  else (f, err).

(** ** Threshold ranges

    [generateAlert], [getNagiosReturnVal], [returnValText] and
    [isFullQualified] are the same in the two releases. *)

(** [r[i]]: [None] stands for the run-time panic of an index out of range. *)
Definition index_string (r : list string) (i : nat) : option string := r !! i.

(** [generateAlert(value, thresholdRange)]. The error of every
    [strconv.ParseFloat] is dropped ([_]), its value is used as it is. *)
Definition generateAlert (value : float64) (thresholdRange : string) : option bool :=
  let r := strings_Split thresholdRange ":" in
  let matched := regexp_MatchString_anchored re_numberRange thresholdRange in
  if (length r =? 1)%nat then
    let float64_threshold := fst (strconv_ParseFloat thresholdRange) in
    Some (f64_lt value f64_zero || f64_gt value float64_threshold)
  else if strings_HasSuffix thresholdRange ":" then
    r0 ← index_string r 0;
    let float64_threshold := fst (strconv_ParseFloat r0) in
    Some (f64_lt value float64_threshold)
  else if strings_HasPrefix thresholdRange "~" then
    r1 ← index_string r 1;
    let float64_threshold := fst (strconv_ParseFloat r1) in
    Some (f64_gt value float64_threshold)
  else if matched then
    r0 ← index_string r 0;
    let float64_threshold1 := fst (strconv_ParseFloat r0) in
    r1 ← index_string r 1;
    let float64_threshold2 := fst (strconv_ParseFloat r1) in
    Some (f64_lt value float64_threshold1 || f64_gt value float64_threshold2)
  else if strings_HasPrefix thresholdRange "@" then
    r0 ← index_string r 0;
    let float64_threshold1 := fst (strconv_ParseFloat (strings_TrimPrefix r0 "@")) in
    r1 ← index_string r 1;
    let float64_threshold2 := fst (strconv_ParseFloat r1) in
    Some (f64_ge value float64_threshold1 && f64_le value float64_threshold2)
  else Some true.

(** [getNagiosReturnVal(value, warningThresholdRange, criticalThresholdRange)]. *)
Definition getNagiosReturnVal (value : float64)
    (warningThresholdRange criticalThresholdRange : string) : option Z :=
  w ← generateAlert value warningThresholdRange;
  let r := if (w : bool) then 1 else 0 in
  c ← generateAlert value criticalThresholdRange;
  Some (if (c : bool) then 2 else r).

Definition returnValText (returnVal : Z) : string :=
  match returnVal with
  | 0 => "OK"
  | 1 => "WARNING"
  | 2 => "CRITICAL"
  | 3 => "UNKNOWN"
  | _ => EmptyString
  end.

(** [isFullQualified(counterName)]. The pattern is a constant that
    compiles, so the branch on the error of [regexp.Compile] is never
    taken. *)
Definition isFullQualified (counterName : string) : bool :=
  if regexp_MatchString_anchored re_fullQualified counterName then true else false.

(** The value a decimal literal of the examples denotes. *)
Definition f64_lit (s : string) : float64 := fst (strconv_ParseFloat s).

(** ** Package [html] *)

(** [html.EscapeString(s)]: the five characters [&], ['], [<], [>] and
    the double quote are replaced. *)
Definition html_escape_byte (c : ascii) : string :=
  if Ascii.eqb c "&" then "&amp;"
  else if Ascii.eqb c "'" then "&#39;"
  else if Ascii.eqb c "<" then "&lt;"
  else if Ascii.eqb c ">" then "&gt;"
  else if Ascii.eqb c "034"%char then "&#34;"
  else String c EmptyString.

Fixpoint html_EscapeString (s : string) : string :=
  match s with
  | EmptyString => EmptyString
  | String c s' => html_escape_byte c +:+ html_EscapeString s'
  end.

(** ** The process and its surroundings *)

(** Where the standard logger writes. *)
Inductive Dest : Type := Stderr | Stdout | LogFile.

(** An argument of a log call. The text of a log line (time stamp, [%+v]
    of a structure, text of an error) is not rendered: the call is
    recorded with its format and arguments. *)
Inductive LogArg : Type :=
  | LS : string -> LogArg
  | LZ : Z -> LogArg
  | LB : bool -> LogArg
  | LOpaque : LogArg.

(** What a run emits, in order. *)
Inductive Event : Type :=
  | EvPrint : string -> Event                       (* fmt.Printf, on standard output *)
  | EvLog : Dest -> string -> list LogArg -> Event. (* log.Printf *)

(** A file: its bytes and its modification time (Unix seconds). *)
Record File : Type := mk_File {
  file_data : string;
  file_mtime : Z
}.

Record State : Type := mk_State {
  st_files : gmap string File;   (* the file system *)
  st_clock : Z;                  (* time.Now().Unix() *)
  st_trace : list Event;         (* output so far, oldest first *)
  st_log_dest : Dest;            (* log.SetOutput *)
  st_usePersistData : bool;      (* package variables written by release 0.8 *)
  st_returnVal : Z;
  st_multipeNodes : bool
}.

(** How a computation ends: with a value, by [os.Exit(code)], or by a
    run-time panic (index out of range, nil dereference). *)
Inductive Result (A : Type) : Type :=
  | Ret : A -> Result A
  | Exit : Z -> Result A
  | Panic : Result A.
Arguments Ret {A} _.
Arguments Exit {A} _.
Arguments Panic {A}.

Definition M (A : Type) : Type := State -> Result A * State.

Definition ret {A} (a : A) : M A := fun st => (Ret a, st).

Definition bind {A B} (m : M A) (k : A -> M B) : M B :=
  fun st =>
    match m st with
    | (Ret a, st') => k a st'
    | (Exit c, st') => (Exit c, st')
    | (Panic, st') => (Panic, st')
    end.

Notation "'do' x <- m ; k" := (bind m (fun x => k))
  (at level 10, x pattern, m at level 100, k at level 200).
Notation "m ;; k" := (bind m (fun _ => k))
  (at level 100, k at level 200, right associativity).

Definition os_Exit {A} (code : Z) : M A := fun st => (Exit code, st).

Definition panic {A} : M A := fun st => (Panic, st).

(** An [option] whose [None] is a panic. *)
Definition or_panic {A} (o : option A) : M A :=
  match o with Some a => ret a | None => panic end.

Definition get : M State := fun st => (Ret st, st).

Definition emit (e : Event) : M unit :=
  fun st =>
    (Ret tt, mk_State (st_files st) (st_clock st) (st_trace st ++ [e]) (st_log_dest st)
               (st_usePersistData st) (st_returnVal st) (st_multipeNodes st)).

Definition fmt_Printf (s : string) : M unit := emit (EvPrint s).

Definition log_Printf (format : string) (a : list LogArg) : M unit :=
  do st <- get; emit (EvLog (st_log_dest st) format a).

Definition log_SetOutput (d : Dest) : M unit :=
  fun st =>
    (Ret tt, mk_State (st_files st) (st_clock st) (st_trace st) d
               (st_usePersistData st) (st_returnVal st) (st_multipeNodes st)).

Definition set_usePersistData (b : bool) : M unit :=
  fun st =>
    (Ret tt, mk_State (st_files st) (st_clock st) (st_trace st) (st_log_dest st)
               b (st_returnVal st) (st_multipeNodes st)).

Definition set_returnVal (r : Z) : M unit :=
  fun st =>
    (Ret tt, mk_State (st_files st) (st_clock st) (st_trace st) (st_log_dest st)
               (st_usePersistData st) r (st_multipeNodes st)).

Definition set_multipeNodes (b : bool) : M unit :=
  fun st =>
    (Ret tt, mk_State (st_files st) (st_clock st) (st_trace st) (st_log_dest st)
               (st_usePersistData st) (st_returnVal st) b).

Definition write_file (filename data : string) : M unit :=
  fun st =>
    (Ret tt, mk_State (<[filename := mk_File data (st_clock st)]> (st_files st))
               (st_clock st) (st_trace st) (st_log_dest st)
               (st_usePersistData st) (st_returnVal st) (st_multipeNodes st)).

(** The same state [d] seconds later: between two steps of a run, or
    between two runs, only the clock moves. *)
Definition later (d : Z) (st : State) : State :=
  mk_State (st_files st) (st_clock st + d) (st_trace st) (st_log_dest st)
    (st_usePersistData st) (st_returnVal st) (st_multipeNodes st).

(** [for _, v := range l { body v }]. *)
Fixpoint for_each {A} (l : list A) (body : A -> M unit) : M unit :=
  match l with
  | [] => ret tt
  | v :: l' => body v ;; for_each l' body
  end.

(** The bytes written to standard output by [fmt.Printf], in order. *)
Definition printed (t : list Event) : list string :=
  omap (fun e => match e with EvPrint s => Some s | _ => None end) t.

(** The exit status of the process for the way [main] ended. *)
Definition exit_status {A} (r : Result A) : Z :=
  match r with
  | Ret _ => 0
  | Exit c => c
  | Panic => 2
  end.

(** The command-line flags after [flag.Parse()]; release 0.3 has no [-M],
    [-m], [-A], [-L] and [-C] and does not read those fields. *)
Record Flags : Type := mk_Flags {
  ipAddr : string;
  nodeIpAddr : string;
  nodesIpAddrs : string;
  username : string;
  password : string;
  objectInstance : string;
  counterName : string;
  debug : Z;
  warningThreshold : string;
  criticalThreshold : string;
  showVersion : bool;
  showCounters : bool;
  maxCacheAge : Z;
  apiVersion : string;
  logFileName : string;
  cacheFilePath : string
}.

(** The body of a request, before [xml.Marshal]. *)
Inductive SoapRequest : Type :=
  | Req_PerfmonListCounter (Host : string)
  | Req_PerfmonCollectCounterData (Host Object : string).

(** What is handed to [client.Do]. *)
Record HttpRequest : Type := mk_HttpRequest {
  req_url : string;
  req_SOAPAction : string;
  req_username : string;
  req_password : string;
  req_body : string
}.

(** The collaborators of the program: the operating system, the packages
    [encoding/json] and [encoding/xml], and the remote service. [E] is the
    type of the counter envelope and [L] of the list envelope of a
    release. Decoders fill a structure they are given and report success,
    as [Unmarshal] does through its pointer argument. Opening the log file
    and writing a cache file are modelled by whether they succeed; a failed
    write leaves the files as they were. *)
Record World (E L : Type) : Type := mk_World {
  os_Getuid : Z;
  os_TempDir : string;
  os_Args0_base : string;                      (* path.Base(os.Args[0]) *)
  os_OpenFile_ok : string -> bool;
  ioutil_WriteFile_ok : string -> bool;
  ioutil_ReadFile_ok : string -> bool;
  json_Marshal : E -> option string;
  json_Unmarshal : string -> E -> E * bool;
  xml_Marshal : SoapRequest -> string;
  xml_Unmarshal : string -> E -> E * bool;
  xml_Unmarshal_list : string -> L -> L * bool;
  http_Do : HttpRequest -> option string       (* None: transport error *)
}.
Arguments os_Getuid {E L} _.
Arguments os_TempDir {E L} _.
Arguments os_Args0_base {E L} _.
Arguments os_OpenFile_ok {E L} _ _.
Arguments ioutil_WriteFile_ok {E L} _ _.
Arguments ioutil_ReadFile_ok {E L} _ _.
Arguments json_Marshal {E L} _ _.
Arguments json_Unmarshal {E L} _ _ _.
Arguments xml_Marshal {E L} _ _.
Arguments xml_Unmarshal {E L} _ _ _.
Arguments xml_Unmarshal_list {E L} _ _ _.
Arguments http_Do {E L} _ _.

(** [%d] of an integer. *)
Definition Z_to_string (z : Z) : string := NilZero.string_of_int (Z.to_int z).

Definition nl : string := String "010"%char EmptyString.
Definition tab : string := String "009"%char EmptyString.

(** [debugPrintf(level, format, a...)]. *)
Definition debugPrintf (fl : Flags) (level : Z) (format : string) (a : list LogArg) : M unit :=
  if (level =? 1) || (level <=? debug fl) then log_Printf format a else ret tt.

(** The object of [-o] without its instance names:
    [objectInstance[:pos]] up to the first parenthesis. *)
Definition object_of (objectInstance : string) : string :=
  let pos := strings_Index objectInstance "(" in
  if negb (pos =? -1) then string_take (Z.to_nat pos) objectInstance else objectInstance.

(** [fmt.Sprintf("\\\\%s\\%s\\%s", node, object, counter)]. *)
Definition sprintf_fullCounterName (node object counter : string) : string :=
  concat_strings ["\\"; node; "\"; object; "\"; counter].

(** The three steps that turn the formatted line into the printed one. *)
Definition escape_output (nagiosOutput : string) : string :=
  let nagiosOutput := html_EscapeString nagiosOutput in
  let nagiosOutput := strings_Replace nagiosOutput "%" "Percent" in
  strings_Replace nagiosOutput "\" "\\".

(** [fmt.Sprintf("%s - %s,%s,%s=%s|%s=%s;%s;%s;;", ...)]. *)
Definition sprintf_nagiosOutput
    (statusStr outputPrefix objectInstance counterName value warning critical : string) : string :=
  concat_strings [statusStr; " - "; outputPrefix; ","; objectInstance; ","; counterName; "=";
                  value; "|"; counterName; "="; value; ";"; warning; ";"; critical; ";;"].

(** [xml.Name]. *)
Record xml_Name : Type := mk_xml_Name {
  Space : string;
  Local : string
}.

(** The request envelope around the marshalled body. *)
Definition dq : string := String "034"%char EmptyString.

Definition xml_header : string :=
  concat_strings
    ["<?xml version="; dq; "1.0"; dq; " encoding="; dq; "utf-8"; dq; " ?>";
     "<soapenv:Envelope xmlns:soapenv="; dq; "http://schemas.xmlsoap.org/soap/envelope/"; dq;
     " xmlns:soap="; dq; "http://schemas.cisco.com/ast/soap"; dq; ">";
     "<soapenv:Header/><soapenv:Body>"].

Definition xml_footer : string := "</soapenv:Body></soapenv:Envelope>".

(** ** Release 0.8 *)

Module V08.

Definition outputPrefix : string := "UC Perfmon".
Definition version : string := "0.8".
Definition chacheFilePrefix : string := "check_cisco_uc_perf_".

(** The structure [{Text; Type}] of [Name], [Value], [CStatus] and
    [MultiInstance]. *)
Record TypedText : Type := mk_TypedText {
  Text : string;
  Type_ : string
}.

(** An element of the inner [ArrayOfCounterInfo]. *)
Record CounterInfo : Type := mk_CounterInfo {
  ci_Text : string;
  ci_Type : string;
  ci_Name : TypedText;
  ci_Value : TypedText;
  ci_CStatus : TypedText
}.

Record ArrayOfCounterInfo : Type := mk_ArrayOfCounterInfo {
  aci_Text : string;
  aci_ArrayType : string;
  aci_Type : string;
  aci_Ns2 : string;
  aci_Soapenc : string;
  aci_ArrayOfCounterInfo : list CounterInfo
}.

Record PerfmonCollectCounterDataResponse : Type := mk_PerfmonCollectCounterDataResponse {
  pcr_Text : string;
  pcr_EncodingStyle : string;
  pcr_Ns1 : string;
  pcr_ArrayOfCounterInfo : ArrayOfCounterInfo
}.

Record CounterBody : Type := mk_CounterBody {
  cb_Text : string;
  cb_PerfmonCollectCounterDataResponse : PerfmonCollectCounterDataResponse
}.

Record CounterEnvelope : Type := mk_CounterEnvelope {
  ce_XMLName : xml_Name;
  ce_Text : string;
  ce_Soapenv : string;
  ce_Xsd : string;
  ce_Xsi : string;
  ce_Body : CounterBody
}.

(** An element of the inner [ArrayOfCounter]. *)
Record CounterEntry : Type := mk_CounterEntry {
  cn_Text : string;
  cn_Type : string;
  cn_Name : TypedText
}.

Record ArrayOfCounter : Type := mk_ArrayOfCounter {
  ac_Text : string;
  ac_ArrayType : string;
  ac_Type : string;
  ac_ArrayOfCounter : list CounterEntry
}.

(** An element of the inner [ArrayOfObjectInfo]. *)
Record ObjectInfo : Type := mk_ObjectInfo {
  oi_Text : string;
  oi_Type : string;
  oi_Name : TypedText;
  oi_MultiInstance : TypedText;
  oi_ArrayOfCounter : ArrayOfCounter
}.

Record ArrayOfObjectInfo : Type := mk_ArrayOfObjectInfo {
  aoi_Text : string;
  aoi_ArrayType : string;
  aoi_Type : string;
  aoi_Ns2 : string;
  aoi_Soapenc : string;
  aoi_ArrayOfObjectInfo : list ObjectInfo
}.

Record PerfmonListCounterResponse : Type := mk_PerfmonListCounterResponse {
  plr_Text : string;
  plr_EncodingStyle : string;
  plr_Ns1 : string;
  plr_ArrayOfObjectInfo : ArrayOfObjectInfo
}.

Record ListCounterBody : Type := mk_ListCounterBody {
  lb_Text : string;
  lb_PerfmonListCounterResponse : PerfmonListCounterResponse
}.

Record ListCounterEnvelope : Type := mk_ListCounterEnvelope {
  le_XMLName : xml_Name;
  le_Text : string;
  le_Soapenv : string;
  le_Xsd : string;
  le_Xsi : string;
  le_Body : ListCounterBody
}.

(** [new(CounterEnvelope)] and [new(ListCounterEnvelope)]: zero values. *)
Definition zero_TypedText : TypedText := mk_TypedText EmptyString EmptyString.

Definition new_CounterEnvelope : CounterEnvelope :=
  mk_CounterEnvelope (mk_xml_Name EmptyString EmptyString)
    EmptyString EmptyString EmptyString EmptyString
    (mk_CounterBody EmptyString
       (mk_PerfmonCollectCounterDataResponse EmptyString EmptyString EmptyString
          (mk_ArrayOfCounterInfo EmptyString EmptyString EmptyString EmptyString EmptyString []))).

Definition new_ListCounterEnvelope : ListCounterEnvelope :=
  mk_ListCounterEnvelope (mk_xml_Name EmptyString EmptyString)
    EmptyString EmptyString EmptyString EmptyString
    (mk_ListCounterBody EmptyString
       (mk_PerfmonListCounterResponse EmptyString EmptyString EmptyString
          (mk_ArrayOfObjectInfo EmptyString EmptyString EmptyString EmptyString EmptyString []))).

(** [counterEnvelope.Body.PerfmonCollectCounterDataResponse.ArrayOfCounterInfo.ArrayOfCounterInfo]. *)
Definition counters (e : CounterEnvelope) : list CounterInfo :=
  aci_ArrayOfCounterInfo (pcr_ArrayOfCounterInfo (cb_PerfmonCollectCounterDataResponse (ce_Body e))).

(** [listCounterEnvelope.Body.PerfmonListCounterResponse.ArrayOfObjectInfo.ArrayOfObjectInfo]. *)
Definition objects (e : ListCounterEnvelope) : list ObjectInfo :=
  aoi_ArrayOfObjectInfo (plr_ArrayOfObjectInfo (lb_PerfmonListCounterResponse (le_Body e))).

Section Program.

Variable W : World CounterEnvelope ListCounterEnvelope.
Variable fl : Flags.

(** The file name computed in [saveStruct]. *)
Definition saveStruct_filename (ipAddr object : string) : string :=
  let objectUnderscore := strings_Replace object " " "_" in
  concat_strings [cacheFilePath fl; chacheFilePrefix; Z_to_string (os_Getuid W); "_";
                  ipAddr; "_"; objectUnderscore].

(** [saveStruct(ipAddr, object, o)]. *)
Definition saveStruct (ipAddr object : string) (o : CounterEnvelope) : M bool :=
  match json_Marshal W o with
  | None => debugPrintf fl 1 "error: %s" [LOpaque] ;; ret false
  | Some itemJson =>
      let filename := saveStruct_filename ipAddr object in
      if ioutil_WriteFile_ok W filename
      then write_file filename itemJson ;; ret true
      else debugPrintf fl 1 "error: %s" [LOpaque] ;; ret false
  end.

(** The file name computed in [loadStruct]. *)
Definition loadStruct_filename (ipAddr object : string) : string :=
  let objectUnderscore := strings_Replace object " " "_" in
  concat_strings [cacheFilePath fl; chacheFilePrefix; Z_to_string (os_Getuid W); "_";
                  ipAddr; "_"; objectUnderscore].

(** [loadStruct(ipAddr, object, ageInSeconds, o)]: the result, and the
    structure [o] points to after the call. *)
Definition loadStruct (ipAddr object : string) (ageInSeconds : Z) (o : CounterEnvelope)
    : M (bool * CounterEnvelope) :=
  let filename := loadStruct_filename ipAddr object in
  do st <- get;
  match st_files st !! filename with
  | None => ret (false, o)
  | Some fs =>
      debugPrintf fl 3 ("Filename: %s Diff: %d" +:+ nl)
        [LS filename; LZ (st_clock st - file_mtime fs)] ;;
      if st_clock st - file_mtime fs >? ageInSeconds then ret (false, o)
      else if negb (ioutil_ReadFile_ok W filename) then
        debugPrintf fl 1 "error: %s" [LOpaque] ;; ret (false, o)
      else
        let '(o', ok) := json_Unmarshal W (file_data fs) o in
        if ok then ret (true, o')
        else debugPrintf fl 1 "error: %s" [LOpaque] ;; ret (false, o')
  end.

(** The block of [queryHost] under [if !usePersistData || showCounters]:
    one exchange with the service. In list mode it prints the catalog and
    exits; otherwise it returns the decoded envelope after saving it (the
    result of [saveStruct] is not looked at). *)
Definition queryHost_fetch (ipAddr nodeIpAddr object : string) : M CounterEnvelope :=
  let req_data :=
    if showCounters fl then Req_PerfmonListCounter nodeIpAddr
    else Req_PerfmonCollectCounterData nodeIpAddr object in
  let xml_data := xml_Marshal W req_data in
  let xml_all := concat_strings [xml_header; xml_data; xml_footer] in
  debugPrintf fl 3 ("XML SOAP request: %s" +:+ nl) [LS xml_all] ;;
  let url := "https://" +:+ ipAddr +:+ ":8443/perfmonservice/services/PerfmonPort" in
  debugPrintf fl 3 ("URL: %s" +:+ nl) [LS url] ;;
  debugPrintf fl 3 ("username: %s, password: %s" +:+ nl) [LS (username fl); LS (password fl)] ;;
  match http_Do W (mk_HttpRequest url ("CUCM:DB ver=" +:+ apiVersion fl)
                     (username fl) (password fl) xml_all) with
  | None =>
      debugPrintf fl 1 ("HTTPS request error: %s %#v" +:+ nl) [LOpaque; LOpaque] ;;
      os_Exit 3
  | Some body =>
      debugPrintf fl 3 ("XML SOAP response: %s" +:+ nl) [LS body] ;;
      if showCounters fl then
        let '(listCounterEnvelope, ok) := xml_Unmarshal_list W body new_ListCounterEnvelope in
        if negb ok then
          debugPrintf fl 1 ("ListCounterEnvelope XML unmarshal error: %s" +:+ nl) [LOpaque] ;;
          os_Exit 3
        else
          debugPrintf fl 3 ("PerfmonListCounterData: %+v" +:+ nl) [LOpaque] ;;
          fmt_Printf (Z_to_string (Z.of_nat (length (objects listCounterEnvelope)))
                        +:+ " items" +:+ nl) ;;
          for_each (objects listCounterEnvelope) (fun v =>
            fmt_Printf (Text (oi_Name v) +:+ nl) ;;
            for_each (ac_ArrayOfCounter (oi_ArrayOfCounter v)) (fun c =>
              fmt_Printf (tab +:+ Text (cn_Name c) +:+ nl))) ;;
          os_Exit 0
      else
        let '(counterEnvelope, ok) := xml_Unmarshal W body new_CounterEnvelope in
        if negb ok then
          debugPrintf fl 1 ("XML unmarshal error: %s" +:+ nl) [LOpaque] ;;
          os_Exit 3
        else
          saveStruct nodeIpAddr object counterEnvelope ;;
          ret counterEnvelope
  end.

(** The name looked up: the counter name as given when it is fully
    qualified, built from node, [-o] argument and counter otherwise. *)
Definition lookup_fullCounterName (nodeIpAddr counterName objectInstance : string) : string :=
  if isFullQualified counterName then counterName
  else sprintf_fullCounterName nodeIpAddr objectInstance counterName.

(** The body of the loop of [queryHost] over the counters, for one [v]. *)
Definition queryHost_match (counterName objectInstance fullCounterName : string)
    (v : CounterInfo) : M unit :=
  if String.eqb (Text (ci_Name v)) fullCounterName then
    let '(value, err) := strconv_ParseFloat (Text (ci_Value v)) in
    match err with
    | Some _ =>
        debugPrintf fl 1 ("Counter value string to float64 convert error: %s" +:+ nl) [LOpaque] ;;
        os_Exit 3
    | None =>
        do returnVal <-
          or_panic (getNagiosReturnVal value (warningThreshold fl) (criticalThreshold fl));
        set_returnVal returnVal ;;
        debugPrintf fl 3 ("returnVal: %d" +:+ nl) [LZ returnVal] ;;
        let statusStr := returnValText returnVal in
        let nagiosOutput :=
          sprintf_nagiosOutput statusStr outputPrefix objectInstance counterName
            (Text (ci_Value v)) (warningThreshold fl) (criticalThreshold fl) in
        let nagiosOutput := html_EscapeString nagiosOutput in
        let nagiosOutput := strings_Replace nagiosOutput "%" "Percent" in
        let nagiosOutput := strings_Replace nagiosOutput "\" "\\" in
        fmt_Printf (nagiosOutput +:+ nl) ;;
        os_Exit returnVal
    end
  else ret tt.

(** The block of [queryHost] under [if len(counterName) > 0]. *)
Definition queryHost_lookup (nodeIpAddr counterName objectInstance : string)
    (counterEnvelope : CounterEnvelope) : M unit :=
  if (0 <? String.length counterName)%nat then
    let fullCounterName := lookup_fullCounterName nodeIpAddr counterName objectInstance in
    debugPrintf fl 3 ("fullCounterName: >>%s<<" +:+ nl) [LS fullCounterName] ;;
    debugPrintf fl 3 ("envelope.Body.perfmonCollectCounterDataResponse: %+v" +:+ nl) [LOpaque] ;;
    for_each (counters counterEnvelope)
      (queryHost_match counterName objectInstance fullCounterName) ;;
    let returnVal := 3 in
    let statusStr := returnValText returnVal in
    do st <- get;
    if st_multipeNodes st then
      debugPrintf fl 3 ("%s - Counter not found: %s" +:+ nl) [LS statusStr; LS fullCounterName]
    else
      fmt_Printf (concat_strings [statusStr; " - Counter not found: "; fullCounterName; nl]) ;;
      os_Exit returnVal
  else ret tt.

(** The start of [queryHost]: the cache is consulted; the envelope it
    leaves and [usePersistData]. *)
Definition queryHost_cache (ipAddr nodeIpAddr object counterName objectInstance : string)
    : M CounterEnvelope :=
  debugPrintf fl 3 ("queryHost CUCM IP address: %s Node IP address: %s" +:+ nl)
    [LS ipAddr; LS nodeIpAddr] ;;
  debugPrintf fl 3 ("queryHost perfmon object: %s Counter name: %s" +:+ nl)
    [LS object; LS counterName] ;;
  debugPrintf fl 3 ("queryHost counter instance name: %s max cache age: %d" +:+ nl)
    [LS objectInstance; LZ (maxCacheAge fl)] ;;
  do (loaded, counterEnvelope) <-
    loadStruct nodeIpAddr object (maxCacheAge fl) new_CounterEnvelope;
  (if negb loaded then
     debugPrintf fl 3 ("No persistence file found or persistence file too old" +:+ nl) [] ;;
     set_usePersistData false
   else
     debugPrintf fl 3 ("Persistence file found: %+v" +:+ nl) [LOpaque] ;;
     let fullCounterName :=
       if isFullQualified counterName then counterName
       else sprintf_fullCounterName nodeIpAddr object counterName in
     for_each (counters counterEnvelope) (fun v =>
       if String.eqb (Text (ci_Name v)) fullCounterName
       then debugPrintf fl 3 ("Name: %s Value: %s" +:+ nl)
              [LS (Text (ci_Name v)); LS (Text (ci_Value v))]
       else ret tt) ;;
     set_usePersistData true) ;;
  ret counterEnvelope.

(** [queryHost] up to the lookup: the envelope the lookup reads, from the
    cache or from the service. *)
Definition queryHost_acquire (ipAddr nodeIpAddr object counterName objectInstance : string)
    : M CounterEnvelope :=
  do counterEnvelope <- queryHost_cache ipAddr nodeIpAddr object counterName objectInstance;
  do st <- get;
  debugPrintf fl 3 ("use persistence: %v" +:+ nl) [LB (st_usePersistData st)] ;;
  if negb (st_usePersistData st) || showCounters fl
  then queryHost_fetch ipAddr nodeIpAddr object
  else ret counterEnvelope.

(** [queryHost(ipAddr, nodeIpAddr, object, counterName, objectInstance)]. *)
Definition queryHost (ipAddr nodeIpAddr object counterName objectInstance : string) : M unit :=
  do counterEnvelope <-
    queryHost_acquire ipAddr nodeIpAddr object counterName objectInstance;
  queryHost_lookup nodeIpAddr counterName objectInstance counterEnvelope.

(** [main()] up to the statement [if multipeNodes], after
    [flag.Parse()]: the object and the list of nodes. *)
Definition main_setup : M (string * list string) :=
  if negb (os_OpenFile_ok W (logFileName fl)) then
    debugPrintf fl 1 (concat_strings ["Can't open log file: "; logFileName fl; nl]) [] ;;
    os_Exit 3
  else
    set_returnVal 3 ;;
    set_multipeNodes false ;;
    set_usePersistData false ;;
    if showVersion fl then
      fmt_Printf (concat_strings [os_Args0_base W; " version: "; version; nl]) ;;
      os_Exit 0
    else
      log_SetOutput Stdout ;;
      let object := object_of (objectInstance fl) in
      let nodes := strings_Split (nodesIpAddrs fl) "," in
      (if (1 <? length nodes)%nat then
         set_multipeNodes true ;;
         debugPrintf fl 3 ("multiple nodes: %v" +:+ nl) [LOpaque]
       else ret tt) ;;
      do st <- get;
      debugPrintf fl 3 ("use multipe nodes: %v" +:+ nl) [LB (st_multipeNodes st)] ;;
      ret (object, nodes).

(** [main()]. The loop over the nodes assigns each node to the package
    variable [nodeIpAddr]; nothing reads it but the call of [queryHost],
    which gets it as an argument. *)
Definition main : M unit :=
  do (object, nodes) <- main_setup;
  do st <- get;
  if st_multipeNodes st then
    for_each nodes (fun nodeIpAddr =>
      queryHost (ipAddr fl) nodeIpAddr object (counterName fl) (objectInstance fl))
  else
    queryHost (ipAddr fl) (nodeIpAddr fl) object (counterName fl) (objectInstance fl).

End Program.

End V08.

(** ** Release 0.3 *)

Module V03.

Definition outputPrefix : string := "CUCM Perfmon".
Definition version : string := "0.3".
Definition tmpSubdir : string := "/check_cucm_perf_cache/check_cucm_perf_".
Definition maxCacheAge : Z := 180.

Record Item : Type := mk_Item {
  it_XMLName : xml_Name;
  Name : string;
  Value : string;
  CStatus : string
}.

Record PerfmonCollectCounterDataResponse : Type := mk_PerfmonCollectCounterDataResponse {
  pcr_XMLName : xml_Name;
  pcr_Item : list Item
}.

(** A pointer field is an [option]: [None] is [nil]. *)
Record SoapBody : Type := mk_SoapBody {
  sb_XMLName : xml_Name;
  PerfmonCollectCounterData : option PerfmonCollectCounterDataResponse
}.

Record Envelope : Type := mk_Envelope {
  env_XMLName : xml_Name;
  Soap : option SoapBody
}.

Record ListCounterItem : Type := mk_ListCounterItem {
  lci_XMLName : xml_Name;
  lci_Name : string
}.

Record ListCounterObjectItem : Type := mk_ListCounterObjectItem {
  lco_XMLName : xml_Name;
  lco_Name : string;
  lco_MultiInstance : string;
  lco_Item : list ListCounterItem
}.

Record PerfmonListCounterResponse : Type := mk_PerfmonListCounterResponse {
  plr_XMLName : xml_Name;
  plr_Item : list ListCounterObjectItem
}.

Record ListCounterSoapBody : Type := mk_ListCounterSoapBody {
  lsb_XMLName : xml_Name;
  PerfmonListCounterData : option PerfmonListCounterResponse
}.

Record ListCounterEnvelope : Type := mk_ListCounterEnvelope {
  lenv_XMLName : xml_Name;
  lenv_Soap : option ListCounterSoapBody
}.

Definition new_Envelope : Envelope :=
  mk_Envelope (mk_xml_Name EmptyString EmptyString) None.

Definition new_ListCounterEnvelope : ListCounterEnvelope :=
  mk_ListCounterEnvelope (mk_xml_Name EmptyString EmptyString) None.

(** [envelope.Soap.PerfmonCollectCounterData.Item]; [None] when one of
    the two pointers is [nil], where the program panics. *)
Definition items (e : Envelope) : option (list Item) :=
  match Soap e with
  | Some b =>
      match PerfmonCollectCounterData b with
      | Some r => Some (pcr_Item r)
      | None => None
      end
  | None => None
  end.

(** [envelope.Soap.PerfmonListCounterData.Item]. *)
Definition list_items (e : ListCounterEnvelope) : option (list ListCounterObjectItem) :=
  match lenv_Soap e with
  | Some b =>
      match PerfmonListCounterData b with
      | Some r => Some (plr_Item r)
      | None => None
      end
  | None => None
  end.

Section Program.

Variable W : World Envelope ListCounterEnvelope.
Variable fl : Flags.

(** [saveStruct(ipAddr, object, o)]. *)
Definition saveStruct (ipAddr object : string) (o : Envelope) : M bool :=
  match json_Marshal W o with
  | None => debugPrintf fl 1 "error: %s" [LOpaque] ;; ret false
  | Some itemJson =>
      let filename :=
        concat_strings [os_TempDir W; tmpSubdir; Z_to_string (os_Getuid W); "_";
                        ipAddr; "_"; object] in
      if ioutil_WriteFile_ok W filename
      then write_file filename itemJson ;; ret true
      else debugPrintf fl 1 "error: %s" [LOpaque] ;; ret false
  end.

(** [loadStruct(ipAddr, object, ageInSeconds, o)]. *)
Definition loadStruct (ipAddr object : string) (ageInSeconds : Z) (o : Envelope)
    : M (bool * Envelope) :=
  let filename :=
    concat_strings [os_TempDir W; tmpSubdir; Z_to_string (os_Getuid W); "_";
                    ipAddr; "_"; object] in
  do st <- get;
  match st_files st !! filename with
  | None => ret (false, o)
  | Some fs =>
      debugPrintf fl 3 ("Filename: %s Diff: %d" +:+ nl)
        [LS filename; LZ (st_clock st - file_mtime fs)] ;;
      if st_clock st - file_mtime fs >? ageInSeconds then ret (false, o)
      else if negb (ioutil_ReadFile_ok W filename) then
        debugPrintf fl 1 "error: %s" [LOpaque] ;; ret (false, o)
      else
        let '(o', ok) := json_Unmarshal W (file_data fs) o in
        if ok then ret (true, o')
        else debugPrintf fl 1 "error: %s" [LOpaque] ;; ret (false, o')
  end.

(** The block of [main] under [if !usePersistData || showCounters]. The
    response is decoded into the envelope the cache step left. *)
Definition main_fetch (object : string) (envelope : Envelope) : M Envelope :=
  let req_data :=
    if showCounters fl then Req_PerfmonListCounter (nodeIpAddr fl)
    else Req_PerfmonCollectCounterData (nodeIpAddr fl) object in
  let xml_data := xml_Marshal W req_data in
  let xml_all := concat_strings [xml_header; xml_data; xml_footer] in
  debugPrintf fl 4 ("XMP SOAP request: %s" +:+ nl) [LS xml_all] ;;
  let url := "https://" +:+ ipAddr fl +:+ ":8443/perfmonservice/services/PerfmonPort" in
  debugPrintf fl 3 ("URL: %s" +:+ nl) [LS url] ;;
  match http_Do W (mk_HttpRequest url "CUCM:DB ver=9.0" (username fl) (password fl) xml_all) with
  | None =>
      debugPrintf fl 1 ("HTTPS request error: %s" +:+ nl) [LOpaque] ;;
      os_Exit 3
  | Some body =>
      debugPrintf fl 4 ("XMP SOAP response: %s" +:+ nl) [LS body] ;;
      if showCounters fl then
        let '(envelope, ok) := xml_Unmarshal_list W body new_ListCounterEnvelope in
        if negb ok then
          debugPrintf fl 1 ("ListCounterEnvelope XML unmarshal error: %s" +:+ nl) [LOpaque] ;;
          os_Exit 3
        else
          do l <- or_panic (list_items envelope);
          fmt_Printf (Z_to_string (Z.of_nat (length l)) +:+ " items" +:+ nl) ;;
          for_each l (fun v =>
            fmt_Printf (lco_Name v +:+ nl) ;;
            for_each (lco_Item v) (fun c => fmt_Printf (tab +:+ lci_Name c +:+ nl))) ;;
          os_Exit 0
      else
        let '(envelope, ok) := xml_Unmarshal W body envelope in
        if negb ok then
          debugPrintf fl 1 ("XML unmarshal error: %s" +:+ nl) [LOpaque] ;;
          os_Exit 3
        else
          saveStruct (nodeIpAddr fl) object envelope ;;
          ret envelope
  end.

(** The body of the loop of [main] over the counters, for one [v]. *)
Definition main_match (fullCounterName : string) (v : Item) : M unit :=
  if String.eqb (Name v) fullCounterName then
    let '(value, err) := strconv_ParseFloat (Value v) in
    match err with
    | Some _ =>
        debugPrintf fl 1 ("Counter value string to float64 convert error: %s" +:+ nl) [LOpaque] ;;
        os_Exit 3
    | None =>
        do returnVal <-
          or_panic (getNagiosReturnVal value (warningThreshold fl) (criticalThreshold fl));
        debugPrintf fl 3 ("returnVal: %d" +:+ nl) [LZ returnVal] ;;
        let statusStr := returnValText returnVal in
        let nagiosOutput :=
          sprintf_nagiosOutput statusStr outputPrefix (objectInstance fl) (counterName fl)
            (Value v) (warningThreshold fl) (criticalThreshold fl) in
        let nagiosOutput := html_EscapeString nagiosOutput in
        let nagiosOutput := strings_Replace nagiosOutput "%" "Percent" in
        let nagiosOutput := strings_Replace nagiosOutput "\" "\\" in
        fmt_Printf (nagiosOutput +:+ nl) ;;
        os_Exit returnVal
    end
  else ret tt.

(** The first loop of the [else] block: the length of the longest name. *)
Definition longest_name (l : list Item) : nat :=
  fold_left (fun max_len v =>
               if (max_len <? String.length (Name v))%nat then String.length (Name v) else max_len)
            l O.

(** One line of the second loop of the [else] block. *)
Definition snapshot_line (max_len : nat) (v : Item) : string :=
  let space := strings_Repeat " " (max_len + 3 - String.length (Name v)) in
  concat_strings ["Name: "; Name v; space; "Value: "; Value v; nl].

(** The last statement of [main]: [if len(counterName) > 0 {...} else {...}]. *)
Definition main_lookup (envelope : Envelope) : M unit :=
  if (0 <? String.length (counterName fl))%nat then
    let fullCounterName :=
      if isFullQualified (counterName fl) then counterName fl
      else sprintf_fullCounterName (nodeIpAddr fl) (objectInstance fl) (counterName fl) in
    debugPrintf fl 3 ("fullCounterName: >>%s<<" +:+ nl) [LS fullCounterName] ;;
    do l <- or_panic (items envelope);
    for_each l (main_match fullCounterName) ;;
    let returnVal := 3 in
    let statusStr := returnValText returnVal in
    fmt_Printf (concat_strings [statusStr; " - Counter not found: "; fullCounterName; nl]) ;;
    os_Exit returnVal
  else
    do l <- or_panic (items envelope);
    let max_len := longest_name l in
    for_each l (fun v => fmt_Printf (snapshot_line max_len v)).

(** [main()] up to its last statement: the envelope the lookup reads. The
    log file is opened before [flag.Parse()], when [debug] still has its
    default 0, so the level-2 message of a failure is not logged. *)
Definition main_acquire : M Envelope :=
  if negb (os_OpenFile_ok W "/var/log/check_cucm_perf.log") then
    (if (2 =? 1) || (2 <=? 0) then log_Printf ("Can't open log file" +:+ nl) [] else ret tt) ;;
    os_Exit 3
  else if showVersion fl then
    fmt_Printf (concat_strings [os_Args0_base W; " version: "; version; nl]) ;;
    os_Exit 0
  else
    log_SetOutput LogFile ;;
    let object := object_of (objectInstance fl) in
    debugPrintf fl 3 ("CUCM IP address: %s Node IP address: %s" +:+ nl)
      [LS (ipAddr fl); LS (nodeIpAddr fl)] ;;
    debugPrintf fl 3 ("Perfmon object: %s Counter name: %s" +:+ nl)
      [LS object; LS (counterName fl)] ;;
    debugPrintf fl 3 ("Counter instance name: %s max cache age: %d" +:+ nl)
      [LS (objectInstance fl); LZ maxCacheAge] ;;
    do (loaded, envelope) <- loadStruct (nodeIpAddr fl) object maxCacheAge new_Envelope;
    do usePersistData <-
      (if negb loaded then
         debugPrintf fl 3 ("No persistence file found or persistence file too old" +:+ nl) [] ;;
         ret false
       else
         debugPrintf fl 3 ("Persistence file found: %+v" +:+ nl) [LOpaque] ;;
         let fullCounterName :=
           if isFullQualified (counterName fl) then counterName fl
           else sprintf_fullCounterName (nodeIpAddr fl) object (counterName fl) in
         do l <- or_panic (items envelope);
         for_each l (fun v =>
           if String.eqb (Name v) fullCounterName
           then debugPrintf fl 3 ("Name: %s Value: %s" +:+ nl) [LS (Name v); LS (Value v)]
           else ret tt) ;;
         ret true);
    debugPrintf fl 3 ("use persistence: %v" +:+ nl) [LB usePersistData] ;;
    if negb usePersistData || showCounters fl
    then main_fetch object envelope
    else ret envelope.

(** [main()]. *)
Definition main : M unit :=
  do envelope <- main_acquire;
  main_lookup envelope.

End Program.

End V03.

(** ** Sample surroundings

    Two nodes that serve the object [Memory], for the runs the statements
    below are checked on. The sample service answers the two collect
    requests; the sample decoders know the two answers and the cache files
    of the two snapshots. *)

Module Sample.

(** The flags with their defaults ([flag.StringVar] and the like). *)
Definition default_Flags : Flags :=
  mk_Flags EmptyString EmptyString EmptyString EmptyString EmptyString "Memory" EmptyString 0
    "1" "1" false false 180 "9.0" "/var/log/check_cisco_uc_perf.log"
    "/tmp/check_cisco_uc_perf/".

(** The state of a process at its start, at Unix time 1000, with an empty
    cache directory. *)
Definition start : State := mk_State ∅ 1000 [] Stderr false 0 false.

Definition sample_xml_Marshal (r : SoapRequest) : string :=
  match r with
  | Req_PerfmonListCounter h =>
      concat_strings ["<soap:perfmonListCounter><soap:Host>"; h;
                      "</soap:Host></soap:perfmonListCounter>"]
  | Req_PerfmonCollectCounterData h o =>
      concat_strings ["<soap:perfmonCollectCounterData><soap:Host>"; h;
                      "</soap:Host><soap:Object>"; o;
                      "</soap:Object></soap:perfmonCollectCounterData>"]
  end.

Definition collect_request (node : string) : string :=
  concat_strings [xml_header; sample_xml_Marshal (Req_PerfmonCollectCounterData node "Memory");
                  xml_footer].

Definition sample_http_Do (r : HttpRequest) : option string :=
  if String.eqb (req_body r) (collect_request "10.0.0.1") then Some "response of 10.0.0.1"
  else if String.eqb (req_body r) (collect_request "10.0.0.2") then Some "response of 10.0.0.2"
  else None.

Module S08.

Import V08.

Definition counter (name value : string) : CounterInfo :=
  mk_CounterInfo EmptyString "ns2:CounterInfoType"
    (mk_TypedText name "ns2:CounterNameType")
    (mk_TypedText value "xsd:long")
    (mk_TypedText "1" "xsd:unsignedInt").

Definition envelope (l : list CounterInfo) : CounterEnvelope :=
  mk_CounterEnvelope (mk_xml_Name "http://schemas.xmlsoap.org/soap/envelope/" "Envelope")
    EmptyString EmptyString EmptyString EmptyString
    (mk_CounterBody EmptyString
       (mk_PerfmonCollectCounterDataResponse EmptyString EmptyString EmptyString
          (mk_ArrayOfCounterInfo EmptyString EmptyString EmptyString EmptyString EmptyString l))).

Definition snapshot1 : CounterEnvelope :=
  envelope [counter "\\10.0.0.1\Memory\% Mem Used" "37";
            counter "\\10.0.0.1\Memory\UsedMB" "512"].

Definition snapshot2 : CounterEnvelope :=
  envelope [counter "\\10.0.0.2\Memory\% Mem Used" "81";
            counter "\\10.0.0.2\Memory\UsedMB" "900"].

(** The text the sample encoder writes for a snapshot. *)
Definition json_text (e : CounterEnvelope) : string :=
  concat_strings
    (map (fun v => concat_strings [Text (ci_Name v); "="; Text (ci_Value v); ";"]) (counters e)).

Definition sample_json_Unmarshal (data : string) (o : CounterEnvelope) : CounterEnvelope * bool :=
  if String.eqb data (json_text snapshot1) then (snapshot1, true)
  else if String.eqb data (json_text snapshot2) then (snapshot2, true)
  else (o, false).

Definition sample_xml_Unmarshal (body : string) (o : CounterEnvelope) : CounterEnvelope * bool :=
  if String.eqb body "response of 10.0.0.1" then (snapshot1, true)
  else if String.eqb body "response of 10.0.0.2" then (snapshot2, true)
  else (o, false).

Definition world : World CounterEnvelope ListCounterEnvelope :=
  mk_World CounterEnvelope ListCounterEnvelope
    1001 "/tmp" "check_cisco_uc_perf"
    (fun _ => true) (fun _ => true) (fun _ => true)
    (fun e => Some (json_text e)) sample_json_Unmarshal
    sample_xml_Marshal sample_xml_Unmarshal
    (fun _ o => (o, false))
    sample_http_Do.

(** [-H 10.0.0.1 -N node -M nodes -n counter -w warning -c critical]. *)
Definition flags (node nodes counter warning critical : string) : Flags :=
  mk_Flags "10.0.0.1" node nodes EmptyString EmptyString "Memory" counter 0
    warning critical false false 180 "9.0" "/var/log/check_cisco_uc_perf.log"
    "/tmp/check_cisco_uc_perf/".

End S08.

Module S03.

Import V03.

Definition item (name value : string) : Item :=
  mk_Item (mk_xml_Name EmptyString "item") name value "1".

Definition envelope (l : list Item) : Envelope :=
  mk_Envelope (mk_xml_Name "http://schemas.xmlsoap.org/soap/envelope/" "Envelope")
    (Some (mk_SoapBody (mk_xml_Name "http://schemas.xmlsoap.org/soap/envelope/" "Body")
       (Some (mk_PerfmonCollectCounterDataResponse
                (mk_xml_Name "http://schemas.cisco.com/ast/soap" "perfmonCollectCounterDataResponse")
                l)))).

Definition snapshot1 : Envelope :=
  envelope [item "\\10.0.0.1\Memory\UsedMB" "512";
            item "\\10.0.0.1\Memory\% Mem Used" "37"].

Definition json_text (e : Envelope) : string :=
  match items e with
  | Some l => concat_strings (map (fun v => concat_strings [Name v; "="; Value v; ";"]) l)
  | None => "null"
  end.

Definition sample_json_Unmarshal (data : string) (o : Envelope) : Envelope * bool :=
  if String.eqb data (json_text snapshot1) then (snapshot1, true) else (o, false).

Definition sample_xml_Unmarshal (body : string) (o : Envelope) : Envelope * bool :=
  if String.eqb body "response of 10.0.0.1" then (snapshot1, true) else (o, false).

Definition world : World Envelope ListCounterEnvelope :=
  mk_World Envelope ListCounterEnvelope
    1001 "/tmp" "check_cucm_perf"
    (fun _ => true) (fun _ => true) (fun _ => true)
    (fun e => Some (json_text e)) sample_json_Unmarshal
    sample_xml_Marshal sample_xml_Unmarshal
    (fun _ o => (o, false))
    sample_http_Do.

Definition flags (node counter warning critical : string) : Flags :=
  mk_Flags "10.0.0.1" node EmptyString EmptyString EmptyString "Memory" counter 0
    warning critical false false 180 "9.0" EmptyString EmptyString.

End S03.

End Sample.

(** ** Predicates of the statements *)

(** [byte_free c s]: the byte [c] does not occur in [s]. *)
Fixpoint byte_free (c : ascii) (s : string) : bool :=
  match s with
  | EmptyString => true
  | String a s' => negb (Ascii.eqb a c) && byte_free c s'
  end.

(** The last byte of a string. *)
Fixpoint last_byte (s : string) : option ascii :=
  match s with
  | EmptyString => None
  | String c EmptyString => Some c
  | String _ s' => last_byte s'
  end.

(** Every byte of [s] satisfies [p]. *)
Fixpoint all_bytes (p : ascii -> bool) (s : string) : bool :=
  match s with
  | EmptyString => true
  | String c s' => p c && all_bytes p s'
  end.

(** A byte of the class [[0-9.]]. *)
Definition digit_or_dot (c : ascii) : bool :=
  in_ranges c [("0"%char, "9"%char); ("."%char, "."%char)].

(** A bound as the pattern of [generateAlert] reads it: one or more bytes
    of [[0-9.]]. *)
Definition digits_dots (s : string) : bool :=
  match s with
  | EmptyString => false
  | String _ _ => all_bytes digit_or_dot s
  end.


(** The bound a piece of a range stands for in [generateAlert]: the value
    of [strconv.ParseFloat], whatever its error. *)
Definition bound (s : string) : float64 := fst (strconv_ParseFloat s).

(** Whether a range fires for a value: [generateAlert] returns [true]. *)
Definition fires (value : float64) (thresholdRange : string) : bool :=
  bool_decide (generateAlert value thresholdRange = Some true).

(** The start of a lower bound that belongs to none of the forms with a
    colon: not [~], not [@], no byte of [[0-9.]]. *)
Definition no_form_start (s : string) : bool :=
  match s with
  | EmptyString => true
  | String c _ => negb (Ascii.eqb c "~") && negb (Ascii.eqb c "@") && negb (digit_or_dot c)
  end.

(** The state after the events [es] are emitted. *)
Definition add_events (st : State) (es : list Event) : State :=
  mk_State (st_files st) (st_clock st) (st_trace st ++ es) (st_log_dest st)
    (st_usePersistData st) (st_returnVal st) (st_multipeNodes st).

(** No counter of the list has the name [full]. *)
Definition no_counter_named (full : string) (l : list V08.CounterInfo) : Prop :=
  Forall (fun v => V08.Text (V08.ci_Name v) <> full) l.

(** The message of a counter that is not found. *)
Definition not_found_message (full : string) : string :=
  "UNKNOWN - Counter not found: " +:+ full +:+ nl.

(** A computation that leaves the package variable [multipeNodes] as it
    finds it, however it ends. *)
Definition keeps_mode {A} (m : M A) : Prop :=
  forall st r st', m st = (r, st') -> st_multipeNodes st' = st_multipeNodes st.

(** The printed form of one byte of the status line, in the words of the
    claim: the characters special to HTML are escaped, a percent sign
    becomes the word [Percent], a backslash is doubled. *)
Definition escape_byte (c : ascii) : string :=
  if Ascii.eqb c "&" then "&amp;"
  else if Ascii.eqb c "'" then "&#39;"
  else if Ascii.eqb c "<" then "&lt;"
  else if Ascii.eqb c ">" then "&gt;"
  else if Ascii.eqb c "034"%char then "&#34;"
  else if Ascii.eqb c "%" then "Percent"
  else if Ascii.eqb c "\" then "\\"
  else String c EmptyString.

Fixpoint escape_bytes (s : string) : string :=
  match s with
  | EmptyString => EmptyString
  | String c s' => escape_byte c +:+ escape_bytes s'
  end.

(** The status line before it is escaped. *)
Definition status_line (status prefix objectInstance counter value warning critical : string)
    : string :=
  status +:+ " - " +:+ prefix +:+ "," +:+ objectInstance +:+ "," +:+ counter +:+ "=" +:+ value
    +:+ "|" +:+ counter +:+ "=" +:+ value +:+ ";" +:+ warning +:+ ";" +:+ critical +:+ ";;".



(** The name a counter is padded to in the listing of release 0.3. *)
Definition padded_name (width : nat) (v : V03.Item) : string :=
  V03.Name v +:+ strings_Repeat " " (width + 3 - String.length (V03.Name v)).



(** ** Predicates of the further properties *)

(** Not a number. *)
Definition is_nan (f : float64) : bool :=
  match f with S754_nan => true | _ => false end.

(** A computation that leaves a component [f] of the state as it finds
    it, however it ends. *)
Definition preserves {A B} (f : State -> B) (m : M A) : Prop :=
  forall st r st', m st = (r, st') -> f st' = f st.

(** A computation that never returns to its caller: it exits or panics. *)
Definition never_returns {A} (m : M A) : Prop :=
  forall st a st', m st <> (Ret a, st').


(** A computation that has printed nothing with [fmt.Printf] when it
    returns to its caller. *)
Definition returns_silent {A} (m : M A) : Prop :=
  forall st a st', m st = (Ret a, st') -> printed (st_trace st') = printed (st_trace st).

(** The same surroundings with another remote service. *)
Definition with_http_Do {E L} (f : HttpRequest -> option string) (W : World E L) : World E L :=
  mk_World E L (os_Getuid W) (os_TempDir W) (os_Args0_base W) (os_OpenFile_ok W)
    (ioutil_WriteFile_ok W) (ioutil_ReadFile_ok W) (json_Marshal W) (json_Unmarshal W)
    (xml_Marshal W) (xml_Unmarshal W) (xml_Unmarshal_list W) f.

(** The request [queryHost] hands to [client.Do] for a body [r]. *)
Definition perfmon_request {E L} (W : World E L) (fl : Flags) (ip : string) (r : SoapRequest)
    : HttpRequest :=
  mk_HttpRequest ("https://" +:+ ip +:+ ":8443/perfmonservice/services/PerfmonPort")
    ("CUCM:DB ver=" +:+ apiVersion fl) (username fl) (password fl)
    (concat_strings [xml_header; xml_Marshal W r; xml_footer]).


(** No item of the list has the name [full] (release 0.3). *)
Definition no_item_named (full : string) (l : list V03.Item) : Prop :=
  Forall (fun v => V03.Name v <> full) l.

(** The state with the package variable [usePersistData] set. *)
Definition with_usePersistData (b : bool) (st : State) : State :=
  mk_State (st_files st) (st_clock st) (st_trace st) (st_log_dest st)
    b (st_returnVal st) (st_multipeNodes st).

(** What a load returns, read off the files and the clock: the file of
    the key must be there, not older than the maximal age, readable and
    decodable. *)
Definition load_result (W : World V08.CounterEnvelope V08.ListCounterEnvelope) (fl : Flags)
    (ip object : string) (age : Z) (o : V08.CounterEnvelope) (st : State)
    : bool * V08.CounterEnvelope :=
  match st_files st !! V08.loadStruct_filename W fl ip object with
  | None => (false, o)
  | Some fs =>
      if st_clock st - file_mtime fs >? age then (false, o)
      else if negb (ioutil_ReadFile_ok W (V08.loadStruct_filename W fl ip object)) then (false, o)
      else let '(o', ok) := json_Unmarshal W (file_data fs) o in (ok, o')
  end.




(** An event that is not a log call to another destination than [d]. *)
Definition event_to (d : Dest) (e : Event) : Prop :=
  match e with EvLog d' _ _ => d' = d | EvPrint _ => True end.

(** A computation that, started with the logger set to [d], leaves it so
    and sends every log call to [d]. *)
Definition logs_to {A} (d : Dest) (m : M A) : Prop :=
  forall st r st',
    st_log_dest st = d -> m st = (r, st') ->
    st_log_dest st' = d
    /\ exists es, st_trace st' = st_trace st ++ es /\ Forall (event_to d) es.

(** * Properties *)

(** ** Strings *)

Lemma app_String (c : ascii) (s t : string) : String c s +:+ t = String c (s +:+ t).
Proof. reflexivity. Qed.

Lemma app_empty_l (s : string) : EmptyString +:+ s = s.
Proof. reflexivity. Qed.

Lemma app_empty_r (s : string) : s +:+ EmptyString = s.
Proof. induction s as [|c s IH]; [reflexivity|]. rewrite app_String, IH. reflexivity. Qed.

Lemma app_assoc_string (s t u : string) : (s +:+ t) +:+ u = s +:+ (t +:+ u).
Proof. induction s as [|c s IH]; [reflexivity|]. rewrite !app_String, IH. reflexivity. Qed.

Lemma length_app_string (s t : string) :
  String.length (s +:+ t) = (String.length s + String.length t)%nat.
Proof. induction s as [|c s IH]; [reflexivity|]. rewrite app_String. simpl. rewrite IH. reflexivity. Qed.

Lemma byte_free_app (c : ascii) (s t : string) :
  byte_free c (s +:+ t) = byte_free c s && byte_free c t.
Proof.
  induction s as [|a s IH]; [reflexivity|].
  rewrite app_String. simpl. rewrite IH, andb_assoc. reflexivity.
Qed.

Lemma Split_cons (s : string) (sep : ascii) : exists h t, strings_Split s sep = h :: t.
Proof.
  induction s as [|c s IH]; simpl; [eauto|].
  destruct (Ascii.eqb c sep); [eauto|].
  destruct IH as (h & t & ->). eauto.
Qed.

Lemma Split_free (s : string) (sep : ascii) :
  byte_free sep s = true -> strings_Split s sep = [s].
Proof.
  induction s as [|c s IH]; simpl; [reflexivity|].
  intros [Hc Hs]%andb_prop. apply negb_true_iff in Hc. rewrite Hc, (IH Hs). reflexivity.
Qed.

Lemma Split_app (s t : string) (sep : ascii) :
  byte_free sep s = true ->
  strings_Split (s +:+ String sep t) sep = s :: strings_Split t sep.
Proof.
  induction s as [|c s IH]; intros H.
  - rewrite app_empty_l. simpl. rewrite Ascii.eqb_refl. reflexivity.
  - simpl in H. apply andb_prop in H as [Hc Hs]. apply negb_true_iff in Hc.
    rewrite app_String. simpl. rewrite Hc, (IH Hs). reflexivity.
Qed.

Lemma last_byte_app (s t : string) : t <> EmptyString -> last_byte (s +:+ t) = last_byte t.
Proof.
  intros Ht. induction s as [|c s IH]; [reflexivity|].
  rewrite app_String. simpl. rewrite IH.
  destruct (s +:+ t) eqn:E; [|reflexivity].
  destruct s; [rewrite app_empty_l in E; contradiction | discriminate].
Qed.

Lemma string_drop_all_but_one (s : string) :
  s <> EmptyString ->
  Some (string_drop (String.length s - 1) s)
  = option_map (fun c => String c EmptyString) (last_byte s).
Proof.
  induction s as [|c s IH]; [contradiction|]. intros _.
  destruct s as [|d s]; [reflexivity|].
  replace (String.length (String c (String d s)) - 1)%nat
    with (S (String.length (String d s) - 1)) by (simpl; lia).
  change (last_byte (String c (String d s))) with (last_byte (String d s)).
  change (string_drop (S (String.length (String d s) - 1)) (String c (String d s)))
    with (string_drop (String.length (String d s) - 1) (String d s)).
  apply IH. discriminate.
Qed.

Lemma HasSuffix_byte (s : string) (c : ascii) :
  strings_HasSuffix s (String c EmptyString) = bool_decide (last_byte s = Some c).
Proof.
  unfold strings_HasSuffix. destruct s as [|a s]; [reflexivity|].
  assert (Hne : String a s <> EmptyString) by discriminate.
  pose proof (string_drop_all_but_one _ Hne) as H.
  change (String.length (String c EmptyString)) with 1%nat.
  destruct (last_byte (String a s)) as [l|] eqn:El; cbn [option_map] in H; [|discriminate].
  assert (H' : string_drop (String.length (String a s) - 1) (String a s) = String l EmptyString)
    by congruence.
  rewrite H'. change (1 <=? String.length (String a s))%nat with true.
  rewrite andb_true_l. cbn [String.eqb].
  destruct (Ascii.eqb_spec l c) as [->|Hn].
  - rewrite bool_decide_eq_true_2; reflexivity.
  - rewrite bool_decide_eq_false_2; [reflexivity|congruence].
Qed.

Lemma byte_free_last (c : ascii) (s : string) :
  byte_free c s = true -> last_byte s <> Some c.
Proof.
  induction s as [|a s IH]; simpl; [discriminate|].
  intros [Ha Hs]%andb_prop. apply negb_true_iff in Ha.
  destruct s; [|exact (IH Hs)].
  intros [= ->]. rewrite Ascii.eqb_refl in Ha. discriminate.
Qed.

(** ** The matcher against the language of a pattern *)

Lemma re_lang_cat_inv (r1 r2 : regex) (s : string) :
  re_lang (ReCat r1 r2) s ->
  exists s1 s2, s = s1 +:+ s2 /\ re_lang r1 s1 /\ re_lang r2 s2.
Proof. inversion 1; subst; eauto. Qed.

Lemma re_lang_alt_inv (r1 r2 : regex) (s : string) :
  re_lang (ReAlt r1 r2) s -> re_lang r1 s \/ re_lang r2 s.
Proof. inversion 1; subst; eauto. Qed.

Lemma re_lang_byte (r : regex) (c : ascii) :
  match r with ReLit _ | ReDot | ReClass _ => True | _ => False end ->
  re_accepts_byte r c = true -> re_lang r (String c EmptyString).
Proof.
  intros Hr H. destruct r; try contradiction; simpl in H.
  - apply Ascii.eqb_eq in H as ->. constructor.
  - constructor. apply negb_true_iff, Ascii.eqb_neq in H. assumption.
  - constructor. assumption.
Qed.

Lemma app_eq_empty (s t : string) : s +:+ t = EmptyString -> s = EmptyString /\ t = EmptyString.
Proof. destruct s; [rewrite app_empty_l; auto | rewrite app_String; discriminate]. Qed.

Lemma re_nullable_lang (r : regex) : re_nullable r = true <-> re_lang r EmptyString.
Proof.
  induction r; simpl; split; intros H; try discriminate; try (now constructor);
    try (inversion H; fail).
  - apply andb_prop in H as [H1 H2]. change EmptyString with (EmptyString +:+ EmptyString).
    constructor; [apply IHr1 | apply IHr2]; assumption.
  - apply re_lang_cat_inv in H as (s1 & s2 & E & H1 & H2).
    symmetry in E. apply app_eq_empty in E as [-> ->].
    apply andb_true_intro. split; [apply IHr1 | apply IHr2]; assumption.
  - apply orb_prop in H as [H|H]; [apply RL_alt_l, IHr1 | apply RL_alt_r, IHr2]; assumption.
  - apply orb_true_intro. apply re_lang_alt_inv in H as [H|H];
      [left; apply IHr1 | right; apply IHr2]; assumption.
Qed.

Lemma re_deriv_sound (r : regex) (c : ascii) (s : string) :
  re_lang (re_deriv c r) s -> re_lang r (String c s).
Proof.
  revert s. induction r; intros s H; simpl in H; try (inversion H; fail).
  - destruct (Ascii.eqb c a) eqn:E; inversion H; subst.
    apply Ascii.eqb_eq in E as ->. constructor.
  - destruct (negb (Ascii.eqb c "010")) eqn:E; inversion H; subst.
    apply re_lang_byte; [exact I | exact E].
  - destruct (in_ranges c l) eqn:E; inversion H; subst. constructor. exact E.
  - destruct (re_nullable r1) eqn:N.
    + apply re_lang_alt_inv in H as [H|H].
      * apply re_lang_cat_inv in H as (s1 & s2 & -> & H1 & H2).
        rewrite <- app_String. constructor; auto.
      * change (String c s) with (EmptyString +:+ String c s).
        constructor; [apply re_nullable_lang; exact N | auto].
    + apply re_lang_cat_inv in H as (s1 & s2 & -> & H1 & H2).
      rewrite <- app_String. constructor; auto.
  - apply re_lang_alt_inv in H as [H|H]; [apply RL_alt_l | apply RL_alt_r]; auto.
  - apply re_lang_cat_inv in H as (s1 & s2 & -> & H1 & H2).
    rewrite <- app_String. apply RL_star_cons; auto.
Qed.

Lemma re_deriv_complete (r : regex) (s : string) :
  re_lang r s -> forall c s', s = String c s' -> re_lang (re_deriv c r) s'.
Proof.
  induction 1 as [ |a|a Ha|l a Ha|r1 r2 s1 s2 H1 IH1 H2 IH2|r1 r2 s H IH|r1 r2 s H IH
                 |r|r s1 s2 H1 IH1 H2 IH2]; intros c s' E; simpl; try discriminate.
  - injection E as -> <-. rewrite Ascii.eqb_refl. constructor.
  - injection E as -> <-. apply Ascii.eqb_neq in Ha. rewrite Ha. constructor.
  - injection E as -> <-. rewrite Ha. constructor.
  - destruct s1 as [|a s1].
    + rewrite app_empty_l in E.
      assert (N : re_nullable r1 = true) by (apply re_nullable_lang; exact H1).
      rewrite N. apply RL_alt_r. auto.
    + rewrite app_String in E. injection E as -> <-.
      assert (re_lang (ReCat (re_deriv c r1) r2) (s1 +:+ s2)) by (constructor; auto).
      destruct (re_nullable r1); [apply RL_alt_l|]; assumption.
  - apply RL_alt_l. auto.
  - apply RL_alt_r. auto.
  - destruct s1 as [|a s1].
    + rewrite app_empty_l in E. apply (IH2 _ _ E).
    + rewrite app_String in E. injection E as -> <-. constructor; auto.
Qed.

(** The anchored matcher answers whether a prefix of the input belongs to
    the language of the pattern. *)
Lemma MatchString_anchored_spec (r : regex) (s : string) :
  regexp_MatchString_anchored r s = true
  <-> exists p rest, s = p +:+ rest /\ re_lang r p.
Proof.
  revert r. induction s as [|c s IH]; intros r; simpl.
  - rewrite orb_false_r. split.
    + intros N. exists EmptyString, EmptyString. split; [reflexivity|].
      apply re_nullable_lang. exact N.
    + intros (p & rest & E & H). symmetry in E. apply app_eq_empty in E as [-> ->].
      apply re_nullable_lang. exact H.
  - split.
    + intros [N|H]%orb_prop.
      * exists EmptyString, (String c s). split; [reflexivity|]. apply re_nullable_lang. exact N.
      * apply IH in H as (p & rest & -> & H). exists (String c p), rest.
        split; [reflexivity|]. apply re_deriv_sound. exact H.
    + intros (p & rest & E & H). apply orb_true_intro. destruct p as [|a p].
      * left. apply re_nullable_lang. exact H.
      * right. rewrite app_String in E. injection E as -> ->. apply IH.
        exists p, rest. split; [reflexivity|]. apply (re_deriv_complete _ _ H). reflexivity.
Qed.

(** ** The two patterns of the program *)

Lemma star_class_lang (l : list (ascii * ascii)) (s : string) :
  all_bytes (fun c => in_ranges c l) s = true -> re_lang (ReStar (ReClass l)) s.
Proof.
  induction s as [|c s IH]; simpl; [constructor|].
  intros [Hc Hs]%andb_prop. change (String c s) with (String c EmptyString +:+ s).
  apply RL_star_cons; [constructor; exact Hc | auto].
Qed.

Lemma digits_dots_lang (s : string) : digits_dots s = true -> re_lang re_digits_dots s.
Proof.
  destruct s as [|c s]; [discriminate|]. simpl.
  intros [Hc Hs]%andb_prop. change (String c s) with (String c EmptyString +:+ s).
  constructor; [constructor; exact Hc | apply star_class_lang; exact Hs].
Qed.

Lemma digits_dots_lang_first (s : string) :
  re_lang re_digits_dots s -> exists c s', s = String c s' /\ digit_or_dot c = true.
Proof.
  intros (s1 & s2 & -> & H1 & _)%re_lang_cat_inv.
  inversion H1; subst. rewrite app_String. eauto.
Qed.

Lemma numberRange_matches (N M : string) :
  digits_dots N = true -> digits_dots M = true ->
  regexp_MatchString_anchored re_numberRange (N +:+ ":" +:+ M) = true.
Proof.
  intros HN HM. apply MatchString_anchored_spec.
  exists (N +:+ ":" +:+ M), EmptyString. split; [rewrite !app_assoc_string, app_empty_r; reflexivity|].
  constructor; [apply digits_dots_lang; exact HN|].
  constructor; [constructor | apply digits_dots_lang; exact HM].
Qed.

Lemma numberRange_first (s : string) :
  regexp_MatchString_anchored re_numberRange s = true ->
  exists c s', s = String c s' /\ digit_or_dot c = true.
Proof.
  intros (p & rest & -> & H)%MatchString_anchored_spec.
  apply re_lang_cat_inv in H as (s1 & s2 & -> & H1 & _).
  apply digits_dots_lang_first in H1 as (c & s' & -> & Hc).
  rewrite !app_String. eauto.
Qed.

Lemma digits_dots_free_colon (s : string) : digits_dots s = true -> byte_free ":" s = true.
Proof.
  intros H. assert (A : all_bytes digit_or_dot s = true) by (destruct s; [discriminate|exact H]).
  clear H. induction s as [|c s IH]; [reflexivity|]. simpl in *.
  apply andb_prop in A as [Hc Hs]. rewrite (IH Hs), andb_true_r.
  apply negb_true_iff, Ascii.eqb_neq. intros ->. discriminate.
Qed.





Lemma star_dot_lang (s : string) :
  re_lang (ReStar ReDot) s <-> byte_free "010" s = true.
Proof.
  split.
  - intros H. remember (ReStar ReDot) as r eqn:Er. revert Er.
    induction H; intros Er; try discriminate; [reflexivity|].
    injection Er as ->. rewrite byte_free_app. apply andb_true_intro. split; [|auto].
    inversion H; subst. simpl. rewrite andb_true_r. apply negb_true_iff, Ascii.eqb_neq. assumption.
  - induction s as [|c s IH]; simpl; [constructor|].
    intros [Hc Hs]%andb_prop. change (String c s) with (String c EmptyString +:+ s).
    apply RL_star_cons; [|auto]. constructor. apply negb_true_iff, Ascii.eqb_neq in Hc. exact Hc.
Qed.

(** The qualification test, read off the pattern: two backslashes, and
    two more backslashes further on, with no newline before the last of
    them. *)
Lemma isFullQualified_spec (s : string) :
  isFullQualified s = true
  <-> exists a b rest,
        s = "\\" +:+ a +:+ "\" +:+ b +:+ "\" +:+ rest
        /\ byte_free "010" a = true /\ byte_free "010" b = true.
Proof.
  unfold isFullQualified.
  destruct (regexp_MatchString_anchored re_fullQualified s) eqn:E.
  - split; [intros _|reflexivity].
    apply MatchString_anchored_spec in E as (p & rest & -> & H).
    apply re_lang_cat_inv in H as (x1 & p1 & -> & Hx1 & H).
    apply re_lang_cat_inv in H as (x2 & p2 & -> & Hx2 & H).
    apply re_lang_cat_inv in H as (a & p3 & -> & Ha & H).
    apply re_lang_cat_inv in H as (x3 & p4 & -> & Hx3 & H).
    apply re_lang_cat_inv in H as (b & p5 & -> & Hb & H).
    apply re_lang_cat_inv in H as (x4 & c & -> & Hx4 & Hc).
    inversion Hx1; inversion Hx2; inversion Hx3; inversion Hx4; subst.
    exists a, b, (c +:+ rest). split; [|split; apply star_dot_lang; assumption].
    rewrite !app_assoc_string. reflexivity.
  - split; [discriminate|]. intros (a & b & rest & -> & Ha & Hb).
    rewrite <- E. apply MatchString_anchored_spec.
    exists ("\\" +:+ a +:+ "\" +:+ b +:+ "\"), rest.
    split; [rewrite !app_assoc_string; reflexivity|].
    change "\\" with ("\" +:+ "\" +:+ EmptyString). rewrite !app_assoc_string, app_empty_l.
    repeat (constructor; [first [constructor | apply star_dot_lang; assumption]|]).
    change "\" with ("\" +:+ EmptyString) at 1.
    constructor; [constructor | constructor].
Qed.

(** ** What [strconv.ParseFloat] accepts *)
















(** A syntax error comes with the value 0. *)
Lemma ParseFloat_syntax_zero (s : string) (f : float64) :
  strconv_ParseFloat s = (f, Some ErrSyntax) -> f = f64_zero.
Proof.
  unfold strconv_ParseFloat, atof64.
  destruct (special s) as [[f0 n]|]; cbn beta iota zeta.
  - destruct (n =? String.length s)%nat; simpl; congruence.
  - destruct (readFloat s) as [r|]; cbn beta iota zeta.
    + destruct (_ =? String.length s)%nat; destruct (f64_is_inf _); simpl; congruence.
    + rewrite andb_false_r. congruence.
Qed.

(** ** The forms of a threshold range *)

Lemma HasPrefix_String (c a : ascii) (s : string) :
  strings_HasPrefix (String c s) (String a EmptyString) = Ascii.eqb c a.
Proof. simpl. apply andb_true_r. Qed.

Lemma HasSuffix_colon_app (s t : string) :
  t <> EmptyString -> byte_free ":" t = true -> strings_HasSuffix (s +:+ t) ":" = false.
Proof.
  intros Ht Hf. rewrite HasSuffix_byte, (last_byte_app _ _ Ht).
  apply bool_decide_eq_false_2, byte_free_last, Hf.
Qed.

Lemma digits_dots_nonempty (s : string) : digits_dots s = true -> s <> EmptyString.
Proof. intros H ->. discriminate. Qed.

Lemma generateAlert_plain (v : float64) (X : string) :
  byte_free ":" X = true ->
  generateAlert v X = Some (f64_lt v f64_zero || f64_gt v (bound X)).
Proof. intros H. unfold generateAlert. rewrite (Split_free _ _ H). reflexivity. Qed.

Lemma Split_two (X Y : string) :
  byte_free ":" X = true -> byte_free ":" Y = true ->
  strings_Split (X +:+ ":" +:+ Y) ":" = [X; Y].
Proof.
  intros HX HY. change (":" +:+ Y) with (String ":" Y).
  rewrite (Split_app _ _ _ HX), (Split_free _ _ HY). reflexivity.
Qed.

Lemma generateAlert_lower (v : float64) (X : string) :
  byte_free ":" X = true ->
  generateAlert v (X +:+ ":") = Some (f64_lt v (bound X)).
Proof.
  intros H. unfold generateAlert.
  change (X +:+ ":") with (X +:+ ":" +:+ EmptyString).
  rewrite (Split_two X EmptyString H eq_refl). cbn [length Nat.eqb].
  change (X +:+ ":" +:+ EmptyString) with (X +:+ ":").
  rewrite HasSuffix_byte, (last_byte_app X ":") by discriminate.
  reflexivity.
Qed.

Lemma generateAlert_upper (v : float64) (Y : string) :
  Y <> EmptyString -> byte_free ":" Y = true ->
  generateAlert v ("~:" +:+ Y) = Some (f64_gt v (bound Y)).
Proof.
  intros HY H. unfold generateAlert.
  change ("~:" +:+ Y) with ("~" +:+ ":" +:+ Y).
  rewrite (Split_two "~" Y eq_refl H). cbn [length Nat.eqb].
  rewrite <- app_assoc_string, (HasSuffix_colon_app _ _ HY H).
  reflexivity.
Qed.

Lemma generateAlert_range (v : float64) (X Y : string) :
  digits_dots X = true -> digits_dots Y = true ->
  generateAlert v (X +:+ ":" +:+ Y) = Some (f64_lt v (bound X) || f64_gt v (bound Y)).
Proof.
  intros HX HY. unfold generateAlert.
  rewrite (Split_two _ _ (digits_dots_free_colon _ HX) (digits_dots_free_colon _ HY)). cbn [length Nat.eqb].
  rewrite (numberRange_matches _ _ HX HY).
  rewrite <- app_assoc_string,
    (HasSuffix_colon_app _ _ (digits_dots_nonempty _ HY) (digits_dots_free_colon _ HY)).
  rewrite app_assoc_string.
  destruct X as [|c X]; [discriminate|]. rewrite app_String, HasPrefix_String.
  replace (Ascii.eqb c "~") with false; [reflexivity|].
  symmetry. apply Ascii.eqb_neq. intros ->. discriminate.
Qed.

Lemma generateAlert_inverted (v : float64) (X Y : string) :
  byte_free ":" X = true -> Y <> EmptyString -> byte_free ":" Y = true ->
  generateAlert v ("@" +:+ X +:+ ":" +:+ Y)
  = Some (f64_ge v (bound X) && f64_le v (bound Y)).
Proof.
  intros HX HY H. unfold generateAlert.
  assert (HX' : byte_free ":" ("@" +:+ X) = true) by (rewrite byte_free_app, HX; reflexivity).
  rewrite <- (app_assoc_string "@" X), (Split_two _ _ HX' H). cbn [length Nat.eqb].
  rewrite <- (app_assoc_string ("@" +:+ X)), (HasSuffix_colon_app _ _ HY H).
  rewrite !app_assoc_string. change ("@" +:+ X +:+ ":" +:+ Y) with (String "@" (X +:+ ":" +:+ Y)).
  rewrite !HasPrefix_String.
  destruct (regexp_MatchString_anchored re_numberRange _) eqn:E.
  - apply numberRange_first in E as (c & s' & [= <- _] & Hc). discriminate.
  - reflexivity.
Qed.



(** No index of [generateAlert] is out of range. *)
Lemma generateAlert_total (v : float64) (s : string) : exists b, generateAlert v s = Some b.
Proof.
  unfold generateAlert. destruct (Split_cons s ":") as (h & t & ->).
  destruct t as [|h' t]; [eauto|]. cbn [length Nat.eqb index_string].
  repeat match goal with
         | |- context [if ?b then _ else _] => destruct b
         end; simpl; eauto.
Qed.

(** ** Threshold ranges: the claims *)

Lemma generateAlert_no_form (v : float64) (X Y : string) :
  no_form_start X = true -> byte_free ":" X = true ->
  Y <> EmptyString -> byte_free ":" Y = true ->
  generateAlert v (X +:+ ":" +:+ Y) = Some true.
Proof.
  intros HS HX HY H. unfold generateAlert.
  rewrite (Split_two _ _ HX H). cbn [length Nat.eqb].
  rewrite <- app_assoc_string, (HasSuffix_colon_app _ _ HY H), app_assoc_string.
  assert (E : regexp_MatchString_anchored re_numberRange (X +:+ ":" +:+ Y) = false).
  { destruct (regexp_MatchString_anchored _ _) eqn:E; [|reflexivity].
    apply numberRange_first in E as (c & s' & E & Hc).
    destruct X as [|a X]; [injection E as <- _; discriminate|].
    rewrite app_String in E. injection E as -> _. simpl in HS. rewrite Hc in HS.
    rewrite andb_false_r in HS. discriminate. }
  rewrite E. destruct X as [|a X]; [reflexivity|].
  rewrite app_String, !HasPrefix_String. simpl in HS.
  apply andb_prop in HS as [[H1 H2]%andb_prop _].
  apply negb_true_iff in H1, H2. rewrite H1, H2. reflexivity.
Qed.




Lemma getNagiosReturnVal_fires (v : float64) (warning critical : string) :
  getNagiosReturnVal v warning critical
  = Some (if fires v critical then 2 else if fires v warning then 1 else 0).
Proof.
  unfold getNagiosReturnVal, fires.
  destruct (generateAlert_total v warning) as [bw ->].
  destruct (generateAlert_total v critical) as [bc ->].
  destruct bw, bc; reflexivity.
Qed.

(** C2. [getNagiosReturnVal] returns 2 when the critical range fires,
    else 1 when the warning range fires, else 0; with warning [10] and
    critical [20] it returns 2 at 25, 1 at 15 and 0 at 5. *)
Theorem getNagiosReturnVal_precedence :
  (forall (v : float64) (warning critical : string),
     getNagiosReturnVal v warning critical
     = Some (if fires v critical then 2 else if fires v warning then 1 else 0))
  /\ getNagiosReturnVal (f64_lit "25") "10" "20" = Some 2
  /\ getNagiosReturnVal (f64_lit "15") "10" "20" = Some 1
  /\ getNagiosReturnVal (f64_lit "5") "10" "20" = Some 0.
Proof.
  split; [exact getNagiosReturnVal_fires | repeat split; vm_compute; reflexivity].
Qed.

(** C4, the claim as it stands fails: the plain range [abc] does not parse,
    and at the value 0 it does not alert. *)
Lemma generateAlert_malformed_not_always :
  snd (strconv_ParseFloat "abc") = Some ErrSyntax
  /\ generateAlert (f64_lit "0") "abc" = Some false.
Proof. split; vm_compute; reflexivity. Qed.

(** C4, amended. [generateAlert] never aborts. A bound that does not parse
    is read as 0, and the rule of the form the string has is applied with
    that 0: the plain range [X] alerts iff [v < 0] or [v > 0]; [X:] iff
    [v < 0]; [~:Y] iff [v > 0]; [X:Y] written with digits and dots iff
    [v < 0] or [v > 0]; [@X:Y] iff [0 <= v <= 0]. A string with a colon
    that has none of these forms always alerts. *)
Theorem generateAlert_malformed_bound (v : float64) (X Y : string)
    (HX : snd (strconv_ParseFloat X) = Some ErrSyntax)
    (HY : snd (strconv_ParseFloat Y) = Some ErrSyntax)
    (FX : byte_free ":" X = true) (FY : byte_free ":" Y = true)
    (NY : Y <> EmptyString) :
  (forall s, exists b, generateAlert v s = Some b)
  /\ bound X = f64_zero /\ bound Y = f64_zero
  /\ generateAlert v X = Some (f64_lt v f64_zero || f64_gt v f64_zero)
  /\ generateAlert v (X +:+ ":") = Some (f64_lt v f64_zero)
  /\ generateAlert v ("~:" +:+ Y) = Some (f64_gt v f64_zero)
  /\ (digits_dots X = true -> digits_dots Y = true ->
      generateAlert v (X +:+ ":" +:+ Y) = Some (f64_lt v f64_zero || f64_gt v f64_zero))
  /\ generateAlert v ("@" +:+ X +:+ ":" +:+ Y) = Some (f64_ge v f64_zero && f64_le v f64_zero)
  /\ (no_form_start X = true -> generateAlert v (X +:+ ":" +:+ Y) = Some true).
Proof.
  assert (BX : bound X = f64_zero).
  { unfold bound. destruct (strconv_ParseFloat X) as [f e] eqn:E. simpl in HX. subst e.
    apply (ParseFloat_syntax_zero _ _ E). }
  assert (BY : bound Y = f64_zero).
  { unfold bound. destruct (strconv_ParseFloat Y) as [f e] eqn:E. simpl in HY. subst e.
    apply (ParseFloat_syntax_zero _ _ E). }
  split; [intros s; apply generateAlert_total|].
  split; [exact BX|]. split; [exact BY|].
  split; [rewrite <- BX at 2; apply generateAlert_plain; exact FX|].
  split; [rewrite <- BX; apply generateAlert_lower; exact FX|].
  split; [rewrite <- BY; apply generateAlert_upper; assumption|].
  split; [intros DX DY; rewrite <- BX at 1; rewrite <- BY; apply generateAlert_range; assumption|].
  split; [rewrite <- BX at 1; rewrite <- BY; apply generateAlert_inverted; assumption|].
  intros HS. apply generateAlert_no_form; assumption.
Qed.

Lemma generateAlert_malformed_bound_witness :
  generateAlert (f64_lit "5") "abc:" = Some (f64_lt (f64_lit "5") f64_zero)
  /\ generateAlert (f64_lit "5") "abc:x" = Some true.
Proof.
  destruct (generateAlert_malformed_bound (f64_lit "5") "abc" "x" eq_refl eq_refl eq_refl eq_refl)
    as (_ & _ & _ & _ & H & _ & _ & _ & H').
  - discriminate.
  - split; [exact H | exact (H' eq_refl)].
Defined.

(** C7. A counter name that matches the pattern is looked up as it is;
    any other one is looked up as [\\node\object\counter], built from the
    node, the object as given with [-o] (instance names included) and the
    counter. The test reads the counter
    name alone: it holds exactly for the strings that start with two
    backslashes and have two more backslashes further on, with no newline
    before the last of them. *)
Theorem fullCounterName_synthesis :
  (forall node counter objectInstance : string,
     V08.lookup_fullCounterName node counter objectInstance
     = if isFullQualified counter then counter
       else "\\" +:+ node +:+ "\" +:+ objectInstance +:+ "\" +:+ counter)
  /\ (forall counter : string,
        isFullQualified counter = true
        <-> exists a b rest,
              counter = "\\" +:+ a +:+ "\" +:+ b +:+ "\" +:+ rest
              /\ byte_free "010" a = true /\ byte_free "010" b = true)
  /\ V08.lookup_fullCounterName "10.0.0.1" "Foo" "Memory" = "\\10.0.0.1\Memory\Foo"
  /\ V08.lookup_fullCounterName "10.0.0.1" "Foo" "Process(tomcat)"
     = "\\10.0.0.1\Process(tomcat)\Foo"
  /\ V08.lookup_fullCounterName "10.0.0.9" "\\10.0.0.1\Memory\Foo" "Processor"
     = "\\10.0.0.1\Memory\Foo".
Proof.
  split; [|split; [exact isFullQualified_spec | repeat split; vm_compute; reflexivity]].
  intros node counter oi. unfold V08.lookup_fullCounterName, sprintf_fullCounterName.
  destruct (isFullQualified counter); [reflexivity|].
  unfold concat_strings. rewrite app_empty_r. reflexivity.
Qed.

(** ** Runs: bind, events and loops *)

Lemma bind_Ret {A B} (m : M A) (k : A -> M B) (st st' : State) (a : A) :
  m st = (Ret a, st') -> bind m k st = k a st'.
Proof. intros H. unfold bind. rewrite H. reflexivity. Qed.

Lemma bind_Exit {A B} (m : M A) (k : A -> M B) (st st' : State) (c : Z) :
  m st = (Exit c, st') -> bind m k st = (Exit c, st').
Proof. intros H. unfold bind. rewrite H. reflexivity. Qed.

Lemma add_events_nil (st : State) : add_events st [] = st.
Proof. destruct st. unfold add_events. simpl. rewrite app_nil_r. reflexivity. Qed.

Lemma add_events_app (st : State) (es es' : list Event) :
  add_events (add_events st es) es' = add_events st (es ++ es').
Proof. unfold add_events. simpl. rewrite app_assoc. reflexivity. Qed.

Lemma printed_app (t t' : list Event) : printed (t ++ t') = printed t ++ printed t'.
Proof. unfold printed. apply omap_app. Qed.

Lemma emit_eq (e : Event) (st : State) : emit e st = (Ret tt, add_events st [e]).
Proof. reflexivity. Qed.

(** A call of [debugPrintf] emits at most one log event and ends. *)
Lemma debugPrintf_eq (fl : Flags) (level : Z) (format : string) (a : list LogArg) (st : State) :
  debugPrintf fl level format a st
  = (Ret tt, add_events st (if (level =? 1) || (level <=? debug fl)
                            then [EvLog (st_log_dest st) format a] else [])).
Proof.
  unfold debugPrintf. destruct ((level =? 1) || (level <=? debug fl)).
  - reflexivity.
  - rewrite add_events_nil. reflexivity.
Qed.

Lemma debugPrintf_quiet (fl : Flags) (level : Z) (format : string) (a : list LogArg) (st : State) :
  exists es, debugPrintf fl level format a st = (Ret tt, add_events st es)
             /\ printed es = []
             /\ (level = 3 -> debug fl < 3 -> es = []).
Proof.
  eexists. split; [apply debugPrintf_eq|]. split.
  - destruct (_ || _); reflexivity.
  - intros -> H. replace (3 <=? debug fl) with false by (symmetry; apply Z.leb_gt; exact H).
    reflexivity.
Qed.

Lemma for_each_Ret {A} (l : list A) (body : A -> M unit) (st : State) :
  Forall (fun v => body v st = (Ret tt, st)) l -> for_each l body st = (Ret tt, st).
Proof.
  induction 1 as [|v l Hv _ IH]; [reflexivity|].
  simpl. rewrite (bind_Ret _ _ _ _ _ Hv). exact IH.
Qed.

(** The loop stops at the first element whose body exits. *)
Lemma for_each_Exit {A} (before after : list A) (v : A) (body : A -> M unit)
    (st sk sf : State) (c : Z) :
  for_each before body st = (Ret tt, sk) -> body v sk = (Exit c, sf) ->
  for_each (before ++ v :: after) body st = (Exit c, sf).
Proof.
  revert st. induction before as [|w before IH]; intros st H Hv; simpl in *.
  - injection H as ->. apply bind_Exit. exact Hv.
  - unfold bind in *. destruct (body w st) as [[[]| |] s1]; try discriminate. apply IH; assumption.
Qed.

(** ** Release 0.8: the lookup *)

Section Lookup08.

Variable W : World V08.CounterEnvelope V08.ListCounterEnvelope.
Variable fl : Flags.

Lemma queryHost_match_other (counter objectInstance full : string) (v : V08.CounterInfo)
    (st : State) :
  V08.Text (V08.ci_Name v) <> full ->
  V08.queryHost_match fl counter objectInstance full v st = (Ret tt, st).
Proof.
  intros H. unfold V08.queryHost_match.
  apply String.eqb_neq in H. rewrite H. reflexivity.
Qed.

Lemma for_each_no_counter (counter objectInstance full : string) (l : list V08.CounterInfo)
    (st : State) :
  no_counter_named full l ->
  for_each l (V08.queryHost_match fl counter objectInstance full) st = (Ret tt, st).
Proof.
  intros H. apply for_each_Ret. eapply Forall_impl; [exact H|].
  intros v Hv. apply queryHost_match_other. exact Hv.
Qed.

(** The lookup of a counter that is not in the envelope: the events it
    emits, and how it ends in each mode. *)
Lemma queryHost_lookup_not_found (node counter objectInstance : string)
    (ce : V08.CounterEnvelope) (st : State) :
  counter <> EmptyString ->
  no_counter_named (V08.lookup_fullCounterName node counter objectInstance) (V08.counters ce) ->
  exists es,
    printed es = [] /\ (debug fl < 3 -> es = [])
    /\ V08.queryHost_lookup fl node counter objectInstance ce st
       = if st_multipeNodes st then (Ret tt, add_events st es)
         else (Exit 3,
               add_events st
                 (es ++ [EvPrint (not_found_message
                                    (V08.lookup_fullCounterName node counter objectInstance))])).
Proof.
  intros Hc Hn. unfold V08.queryHost_lookup.
  destruct counter as [|c0 counter]; [contradiction|].
  change (0 <? String.length (String c0 counter))%nat with true. cbv iota.
  set (full := V08.lookup_fullCounterName node (String c0 counter) objectInstance) in *.
  destruct (debugPrintf_quiet fl 3 ("fullCounterName: >>%s<<" +:+ nl) [LS full] st)
    as (e1 & E1 & P1 & Q1).
  rewrite (bind_Ret _ _ _ _ _ E1).
  destruct (debugPrintf_quiet fl 3
              ("envelope.Body.perfmonCollectCounterDataResponse: %+v" +:+ nl) [LOpaque]
              (add_events st e1)) as (e2 & E2 & P2 & Q2).
  rewrite (bind_Ret _ _ _ _ _ E2), add_events_app.
  rewrite (bind_Ret _ _ _ _ _ (for_each_no_counter _ _ _ _ _ Hn)).
  unfold get at 1. unfold bind at 1. cbv iota beta.
  change (st_multipeNodes (add_events st (e1 ++ e2))) with (st_multipeNodes st).
  destruct (st_multipeNodes st).
  - destruct (debugPrintf_quiet fl 3 ("%s - Counter not found: %s" +:+ nl)
                [LS (returnValText 3); LS full] (add_events st (e1 ++ e2)))
      as (e3 & E3 & P3 & Q3).
    exists ((e1 ++ e2) ++ e3). rewrite E3, add_events_app.
    split; [rewrite !printed_app, P1, P2, P3; reflexivity|].
    split; [|reflexivity]. intros Hd. rewrite Q1, Q2, Q3 by (reflexivity || exact Hd). reflexivity.
  - exists (e1 ++ e2). split; [rewrite printed_app, P1, P2; reflexivity|].
    split; [intros Hd; rewrite Q1, Q2 by (reflexivity || exact Hd); reflexivity|].
    unfold fmt_Printf. rewrite (bind_Ret _ _ _ _ _ (emit_eq _ _)), add_events_app.
    reflexivity.
Qed.

End Lookup08.

(** ** Release 0.8: only [main] writes [multipeNodes] *)

Create HintDb mode discriminated.

Lemma keeps_ret {A} (a : A) : keeps_mode (ret a).
Proof. intros st r st' [= _ <-]. reflexivity. Qed.

Lemma keeps_bind {A B} (m : M A) (k : A -> M B) :
  keeps_mode m -> (forall a, keeps_mode (k a)) -> keeps_mode (bind m k).
Proof.
  intros Hm Hk st r st' H. unfold bind in H.
  destruct (m st) as [[a|c|] s1] eqn:E.
  - rewrite (Hk a _ _ _ H). apply (Hm _ _ _ E).
  - injection H as _ <-. apply (Hm _ _ _ E).
  - injection H as _ <-. apply (Hm _ _ _ E).
Qed.

Lemma keeps_os_Exit {A} (c : Z) : keeps_mode (@os_Exit A c).
Proof. intros st r st' [= _ <-]. reflexivity. Qed.

Lemma keeps_get : keeps_mode get.
Proof. intros st r st' [= _ <-]. reflexivity. Qed.

Lemma keeps_debugPrintf (fl : Flags) (level : Z) (format : string) (a : list LogArg) :
  keeps_mode (debugPrintf fl level format a).
Proof. intros st r st' H. rewrite debugPrintf_eq in H. injection H as _ <-. reflexivity. Qed.

Lemma keeps_fmt_Printf (s : string) : keeps_mode (fmt_Printf s).
Proof. intros st r st' [= _ <-]. reflexivity. Qed.

Lemma keeps_write_file (f d : string) : keeps_mode (write_file f d).
Proof. intros st r st' [= _ <-]. reflexivity. Qed.

Lemma keeps_set_usePersistData (b : bool) : keeps_mode (set_usePersistData b).
Proof. intros st r st' [= _ <-]. reflexivity. Qed.

Lemma keeps_set_returnVal (z : Z) : keeps_mode (set_returnVal z).
Proof. intros st r st' [= _ <-]. reflexivity. Qed.

Lemma keeps_or_panic {A} (o : option A) : keeps_mode (or_panic o).
Proof. destruct o; intros st r st' [= _ <-]; reflexivity. Qed.

Lemma keeps_for_each {A} (l : list A) (body : A -> M unit) :
  (forall v, keeps_mode (body v)) -> keeps_mode (for_each l body).
Proof.
  intros H. induction l as [|v l IH]; simpl; [apply keeps_ret|].
  apply keeps_bind; [apply H | intros _; exact IH].
Qed.

Lemma keeps_if {A} (b : bool) (m1 m2 : M A) :
  keeps_mode m1 -> keeps_mode m2 -> keeps_mode (if b then m1 else m2).
Proof. destruct b; auto. Qed.

#[local] Hint Resolve keeps_ret keeps_os_Exit keeps_get keeps_debugPrintf keeps_fmt_Printf
  keeps_write_file keeps_set_usePersistData keeps_set_returnVal keeps_or_panic : mode.

(** Breaks a computation into the pieces the lemmas above cover. *)
Ltac keeps :=
  repeat first
    [ progress auto with mode
    | apply keeps_bind; [|intros ?]
    | apply keeps_for_each; intros ?
    | apply keeps_if
    | match goal with
      | |- keeps_mode (match ?x with _ => _ end) => destruct x
      | |- keeps_mode (let '(_, _) := ?x in _) => destruct x
      end ].

Section Mode08.

Variable W : World V08.CounterEnvelope V08.ListCounterEnvelope.
Variable fl : Flags.

Lemma keeps_saveStruct (ip object : string) (o : V08.CounterEnvelope) :
  keeps_mode (V08.saveStruct W fl ip object o).
Proof. unfold V08.saveStruct. keeps. Qed.

Lemma keeps_loadStruct (ip object : string) (age : Z) (o : V08.CounterEnvelope) :
  keeps_mode (V08.loadStruct W fl ip object age o).
Proof. unfold V08.loadStruct. keeps. Qed.

Lemma keeps_queryHost_fetch (ip node object : string) :
  keeps_mode (V08.queryHost_fetch W fl ip node object).
Proof. unfold V08.queryHost_fetch. pose proof keeps_saveStruct. keeps. Qed.

Lemma keeps_queryHost_cache (ip node object counter objectInstance : string) :
  keeps_mode (V08.queryHost_cache W fl ip node object counter objectInstance).
Proof. unfold V08.queryHost_cache. pose proof keeps_loadStruct. keeps. Qed.

Lemma keeps_queryHost_acquire (ip node object counter objectInstance : string) :
  keeps_mode (V08.queryHost_acquire W fl ip node object counter objectInstance).
Proof.
  unfold V08.queryHost_acquire.
  pose proof keeps_queryHost_cache. pose proof keeps_queryHost_fetch. keeps.
Qed.

Lemma keeps_queryHost_match (counter objectInstance full : string) (v : V08.CounterInfo) :
  keeps_mode (V08.queryHost_match fl counter objectInstance full v).
Proof. unfold V08.queryHost_match. keeps. Qed.

Lemma keeps_queryHost_lookup (node counter objectInstance : string) (ce : V08.CounterEnvelope) :
  keeps_mode (V08.queryHost_lookup fl node counter objectInstance ce).
Proof. unfold V08.queryHost_lookup. pose proof keeps_queryHost_match. keeps. Qed.

Lemma keeps_queryHost (ip node object counter objectInstance : string) :
  keeps_mode (V08.queryHost W fl ip node object counter objectInstance).
Proof.
  unfold V08.queryHost.
  pose proof keeps_queryHost_acquire. pose proof keeps_queryHost_lookup. keeps.
Qed.

End Mode08.

(** ** The status line *)

Lemma Replace_app (s t : string) (old : ascii) (new : string) :
  strings_Replace (s +:+ t) old new = strings_Replace s old new +:+ strings_Replace t old new.
Proof.
  induction s as [|c s IH]; [reflexivity|].
  rewrite app_String. simpl. rewrite IH, app_assoc_string. reflexivity.
Qed.

Lemma escape_byte_steps (c : ascii) :
  strings_Replace (strings_Replace (html_escape_byte c) "%" "Percent") "\" "\\" = escape_byte c.
Proof.
  unfold html_escape_byte, escape_byte.
  repeat match goal with
         | |- context [if Ascii.eqb c ?a then _ else _] =>
             destruct (Ascii.eqb c a) eqn:?; [reflexivity|]
         end.
  cbn [strings_Replace]. destruct (Ascii.eqb c "%") eqn:Ep; [reflexivity|].
  rewrite app_empty_r. cbn [strings_Replace]. rewrite app_empty_r. reflexivity.
Qed.

(** The three steps of the program amount to one pass over the bytes. *)
Lemma escape_output_bytes (s : string) : escape_output s = escape_bytes s.
Proof.
  unfold escape_output. induction s as [|c s IH]; [reflexivity|].
  simpl. rewrite !Replace_app, IH, escape_byte_steps. reflexivity.
Qed.

Lemma sprintf_nagiosOutput_line (status prefix objectInstance counter value warning critical : string) :
  sprintf_nagiosOutput status prefix objectInstance counter value warning critical
  = status_line status prefix objectInstance counter value warning critical.
Proof.
  unfold sprintf_nagiosOutput, status_line, concat_strings.
  rewrite app_empty_r. reflexivity.
Qed.

Section Output08.

Variable fl : Flags.

(** The body of the loop on a counter that has the name looked up and a
    value that parses: the line is printed and the process exits. *)
Lemma queryHost_match_found (counter objectInstance full : string) (v : V08.CounterInfo)
    (x : float64) (st : State) :
  V08.Text (V08.ci_Name v) = full ->
  strconv_ParseFloat (V08.Text (V08.ci_Value v)) = (x, None) ->
  exists r st',
    getNagiosReturnVal x (warningThreshold fl) (criticalThreshold fl) = Some r
    /\ V08.queryHost_match fl counter objectInstance full v st = (Exit r, st')
    /\ printed (st_trace st')
       = printed (st_trace st)
         ++ [escape_output
               (sprintf_nagiosOutput (returnValText r) V08.outputPrefix objectInstance counter
                  (V08.Text (V08.ci_Value v)) (warningThreshold fl) (criticalThreshold fl))
             +:+ nl].
Proof.
  intros Hn Hp. unfold V08.queryHost_match.
  rewrite Hn, String.eqb_refl, Hp. cbv iota beta.
  rewrite getNagiosReturnVal_fires.
  set (r := if fires x (criticalThreshold fl) then 2
            else if fires x (warningThreshold fl) then 1 else 0).
  exists r. cbn [or_panic].
  erewrite bind_Ret by reflexivity. erewrite bind_Ret by reflexivity.
  rewrite (bind_Ret _ _ _ _ _ (debugPrintf_eq _ _ _ _ _)).
  unfold fmt_Printf. erewrite bind_Ret by apply emit_eq.
  eexists. split; [reflexivity|]. split; [reflexivity|].
  cbn [add_events st_trace]. rewrite !printed_app.
  destruct (_ || _); rewrite ?app_nil_r; reflexivity.
Qed.

(** The lookup when the snapshot has the counter: the loop exits at the
    first sample with the name. *)
Lemma queryHost_lookup_found (node counter objectInstance : string)
    (ce : V08.CounterEnvelope) (before after : list V08.CounterInfo) (v : V08.CounterInfo)
    (x : float64) (st : State) :
  counter <> EmptyString ->
  V08.counters ce = before ++ v :: after ->
  no_counter_named (V08.lookup_fullCounterName node counter objectInstance) before ->
  V08.Text (V08.ci_Name v) = V08.lookup_fullCounterName node counter objectInstance ->
  strconv_ParseFloat (V08.Text (V08.ci_Value v)) = (x, None) ->
  exists r st',
    getNagiosReturnVal x (warningThreshold fl) (criticalThreshold fl) = Some r
    /\ V08.queryHost_lookup fl node counter objectInstance ce st = (Exit r, st')
    /\ printed (st_trace st')
       = printed (st_trace st)
         ++ [escape_output
               (sprintf_nagiosOutput (returnValText r) V08.outputPrefix objectInstance counter
                  (V08.Text (V08.ci_Value v)) (warningThreshold fl) (criticalThreshold fl))
             +:+ nl].
Proof.
  intros Hname Hsplit Hfirst Hmatch Hvalue. unfold V08.queryHost_lookup.
  destruct counter as [|c0 counter]; [contradiction|].
  change (0 <? String.length (String c0 counter))%nat with true. cbv iota.
  set (full := V08.lookup_fullCounterName node (String c0 counter) objectInstance) in *.
  rewrite (bind_Ret _ _ _ _ _ (debugPrintf_eq _ _ _ _ _)).
  rewrite (bind_Ret _ _ _ _ _ (debugPrintf_eq _ _ _ _ _)).
  rewrite add_events_app. set (es := _ ++ _).
  assert (Pes : printed es = []) by (subst es; destruct (_ || _); reflexivity).
  destruct (queryHost_match_found (String c0 counter) objectInstance full v x
              (add_events st es) Hmatch Hvalue) as (r & st' & Hr & Hm & Ht).
  exists r, st'. split; [exact Hr|]. split.
  - apply bind_Exit. rewrite Hsplit.
    apply (for_each_Exit before after v _ _ (add_events st es) st' r); [|exact Hm].
    apply for_each_no_counter. exact Hfirst.
  - rewrite Ht. cbn [add_events st_trace]. rewrite printed_app, Pes, app_nil_r. reflexivity.
Qed.

(** C9. For the first counter of the snapshot that has the name looked
    up, when its value parses: the line printed is
    [<STATUS> - <prefix>,<objectInstance>,<counterName>=<value>|<counterName>=<value>;<warn>;<crit>;;]
    with every byte special to HTML escaped, every percent sign replaced
    by [Percent] and every backslash doubled, and the process exits with
    the status the line names. *)
Theorem status_line_rendering (node counter objectInstance : string)
    (ce : V08.CounterEnvelope) (before after : list V08.CounterInfo) (v : V08.CounterInfo)
    (x : float64) (st : State)
    (Hname : counter <> EmptyString)
    (Hsplit : V08.counters ce = before ++ v :: after)
    (Hfirst : no_counter_named (V08.lookup_fullCounterName node counter objectInstance) before)
    (Hmatch : V08.Text (V08.ci_Name v) = V08.lookup_fullCounterName node counter objectInstance)
    (Hvalue : strconv_ParseFloat (V08.Text (V08.ci_Value v)) = (x, None)) :
  exists r st',
    getNagiosReturnVal x (warningThreshold fl) (criticalThreshold fl) = Some r
    /\ (r = 0 /\ returnValText r = "OK" \/ r = 1 /\ returnValText r = "WARNING"
        \/ r = 2 /\ returnValText r = "CRITICAL")
    /\ V08.queryHost_lookup fl node counter objectInstance ce st = (Exit r, st')
    /\ printed (st_trace st')
       = printed (st_trace st)
         ++ [escape_bytes (status_line (returnValText r) "UC Perfmon" objectInstance counter
                             (V08.Text (V08.ci_Value v)) (warningThreshold fl)
                             (criticalThreshold fl)) +:+ nl].
Proof.
  destruct (queryHost_lookup_found node counter objectInstance ce before after v x st
              Hname Hsplit Hfirst Hmatch Hvalue) as (r & st' & Hr & Hl & Ht).
  exists r, st'. split; [exact Hr|]. split; [|split; [exact Hl|]].
  - rewrite getNagiosReturnVal_fires in Hr. injection Hr as <-.
    destruct (fires x (criticalThreshold fl)); [auto|].
    destruct (fires x (warningThreshold fl)); auto.
  - rewrite Ht, escape_output_bytes, sprintf_nagiosOutput_line. reflexivity.
Qed.

End Output08.

Lemma status_line_rendering_witness :
  printed (st_trace (snd (V08.queryHost_lookup
                            (Sample.S08.flags "10.0.0.1" EmptyString "% Mem Used" "30" "80")
                            "10.0.0.1" "% Mem Used" "Memory" Sample.S08.snapshot1 Sample.start)))
  = ["WARNING - UC Perfmon,Memory,Percent Mem Used=37|Percent Mem Used=37;30;80;;" +:+ nl].
Proof.
  destruct (status_line_rendering (Sample.S08.flags "10.0.0.1" EmptyString "% Mem Used" "30" "80")
              "10.0.0.1" "% Mem Used" "Memory" Sample.S08.snapshot1 []
              [Sample.S08.counter "\\10.0.0.1\Memory\UsedMB" "512"]
              (Sample.S08.counter "\\10.0.0.1\Memory\% Mem Used" "37")
              (f64_lit "37") Sample.start) as (r & st' & Hr & _ & Hl & Ht).
  - discriminate.
  - reflexivity.
  - constructor.
  - reflexivity.
  - reflexivity.
  - rewrite Hl. cbn [snd]. rewrite Ht. injection Hr as <-. reflexivity.
Defined.

(** ** Release 0.8: one target and several targets *)

Section Targets08.

Variable W : World V08.CounterEnvelope V08.ListCounterEnvelope.
Variable fl : Flags.

(** What [main] has settled when it reaches [if multipeNodes]. *)
Lemma main_setup_Ret (st0 st : State) (object : string) (nodes : list string) :
  V08.main_setup W fl st0 = (Ret (object, nodes), st) ->
  object = object_of (objectInstance fl)
  /\ nodes = strings_Split (nodesIpAddrs fl) ","
  /\ st_multipeNodes st = (1 <? length nodes)%nat.
Proof.
  unfold V08.main_setup. intros H.
  destruct (negb (os_OpenFile_ok W (logFileName fl))).
  { rewrite (bind_Ret _ _ _ _ _ (debugPrintf_eq _ _ _ _ _)) in H. discriminate. }
  do 3 (erewrite bind_Ret in H by reflexivity).
  destruct (showVersion fl).
  { erewrite bind_Ret in H by reflexivity. discriminate. }
  erewrite bind_Ret in H by reflexivity.
  destruct (1 <? length (strings_Split (nodesIpAddrs fl) ","))%nat eqn:E.
  - erewrite (bind_Ret (bind _ _)) in H
      by (erewrite bind_Ret by reflexivity; apply debugPrintf_eq).
    erewrite bind_Ret in H by reflexivity.
    rewrite (bind_Ret _ _ _ _ _ (debugPrintf_eq _ _ _ _ _)) in H.
    injection H as <- <- <-. rewrite E. auto.
  - do 2 (erewrite bind_Ret in H by reflexivity).
    rewrite (bind_Ret _ _ _ _ _ (debugPrintf_eq _ _ _ _ _)) in H.
    injection H as <- <- <-. rewrite E. auto.
Qed.

Lemma main_after_setup (st0 st : State) (object : string) (nodes : list string) :
  V08.main_setup W fl st0 = (Ret (object, nodes), st) ->
  V08.main W fl st0
  = if st_multipeNodes st then
      for_each nodes (fun node =>
        V08.queryHost W fl (ipAddr fl) node object (counterName fl) (objectInstance fl)) st
    else V08.queryHost W fl (ipAddr fl) (nodeIpAddr fl) object (counterName fl)
           (objectInstance fl) st.
Proof.
  intros H. unfold V08.main. rewrite (bind_Ret _ _ _ _ _ H).
  unfold bind, get. destruct (st_multipeNodes st); reflexivity.
Qed.

Lemma queryHost_after_acquire (ip node object counter objectInstance : string)
    (st st1 : State) (ce : V08.CounterEnvelope) :
  V08.queryHost_acquire W fl ip node object counter objectInstance st = (Ret ce, st1) ->
  V08.queryHost W fl ip node object counter objectInstance st
  = V08.queryHost_lookup fl node counter objectInstance ce st1
  /\ st_multipeNodes st1 = st_multipeNodes st.
Proof.
  intros H. split; [unfold V08.queryHost; apply (bind_Ret _ _ _ _ _ H)|].
  apply (keeps_queryHost_acquire _ _ _ _ _ _ _ _ _ _ H).
Qed.

(** C6. With one target, a counter name that is asked for and that no
    sample of the snapshot has ends the run at once: the line
    [UNKNOWN - Counter not found: ] followed by the fully-qualified name is
    printed and the process exits with status 3. *)
Theorem single_target_counter_not_found (st0 st st1 : State) (object : string)
    (nodes : list string) (ce : V08.CounterEnvelope)
    (Hsetup : V08.main_setup W fl st0 = (Ret (object, nodes), st))
    (Hsingle : st_multipeNodes st = false)
    (Hname : counterName fl <> EmptyString)
    (Hacquire : V08.queryHost_acquire W fl (ipAddr fl) (nodeIpAddr fl) object (counterName fl)
                  (objectInstance fl) st = (Ret ce, st1))
    (Hnone : no_counter_named
               (V08.lookup_fullCounterName (nodeIpAddr fl) (counterName fl) (objectInstance fl))
               (V08.counters ce)) :
  exists st2,
    V08.main W fl st0 = (Exit 3, st2)
    /\ exit_status (fst (V08.main W fl st0)) = 3
    /\ printed (st_trace st2)
       = printed (st_trace st1)
         ++ [not_found_message
               (V08.lookup_fullCounterName (nodeIpAddr fl) (counterName fl) (objectInstance fl))].
Proof.
  rewrite (main_after_setup _ _ _ _ Hsetup), Hsingle.
  destruct (queryHost_after_acquire _ _ _ _ _ _ _ _ Hacquire) as [-> Hmode].
  destruct (queryHost_lookup_not_found fl (nodeIpAddr fl) _ _ ce st1 Hname Hnone)
    as (es & Pes & _ & ->).
  rewrite Hmode, Hsingle. eexists. split; [reflexivity|]. split; [reflexivity|].
  cbn [add_events st_trace]. rewrite !printed_app, Pes. reflexivity.
Qed.

(** C3, amended. With several targets the nodes are probed in the order
    of the list. The first probe that exits ends the run with its status:
    the nodes after it are not probed. A probe that does not find the
    counter prints nothing with [fmt.Printf] (the message is a log call of
    level 3, absent below that level), does not exit, and the loop goes on
    with the next node. A probe that finds the counter, with a value that
    parses, exits with the status of that node. *)
Theorem multi_target_run (st0 st : State) (object : string) (nodes : list string)
    (Hsetup : V08.main_setup W fl st0 = (Ret (object, nodes), st))
    (Hmulti : st_multipeNodes st = true) :
  let probe := fun node =>
    V08.queryHost W fl (ipAddr fl) node object (counterName fl) (objectInstance fl) in
  (forall before node after sk sf c,
     nodes = before ++ node :: after ->
     for_each before probe st = (Ret tt, sk) ->
     probe node sk = (Exit c, sf) ->
     V08.main W fl st0 = (Exit c, sf) /\ exit_status (fst (V08.main W fl st0)) = c)
  /\ (forall before r sk,
        for_each before probe st = (r, sk) -> st_multipeNodes sk = true)
  /\ (forall node sk s1 ce,
        st_multipeNodes sk = true ->
        counterName fl <> EmptyString ->
        V08.queryHost_acquire W fl (ipAddr fl) node object (counterName fl)
          (objectInstance fl) sk = (Ret ce, s1) ->
        no_counter_named
          (V08.lookup_fullCounterName node (counterName fl) (objectInstance fl))
          (V08.counters ce) ->
        exists es,
          probe node sk = (Ret tt, add_events s1 es)
          /\ printed es = [] /\ (debug fl < 3 -> es = []))
  /\ (forall node sk s1 ce before v after x,
        counterName fl <> EmptyString ->
        V08.queryHost_acquire W fl (ipAddr fl) node object (counterName fl)
          (objectInstance fl) sk = (Ret ce, s1) ->
        V08.counters ce = before ++ v :: after ->
        no_counter_named
          (V08.lookup_fullCounterName node (counterName fl) (objectInstance fl)) before ->
        V08.Text (V08.ci_Name v)
        = V08.lookup_fullCounterName node (counterName fl) (objectInstance fl) ->
        strconv_ParseFloat (V08.Text (V08.ci_Value v)) = (x, None) ->
        exists r sf,
          getNagiosReturnVal x (warningThreshold fl) (criticalThreshold fl) = Some r
          /\ probe node sk = (Exit r, sf)).
Proof.
  intros probe. split; [|split; [|split]].
  - intros before node after sk sf c -> Hb Hn.
    rewrite (main_after_setup _ _ _ _ Hsetup), Hmulti.
    pose proof (for_each_Exit before after node probe st sk sf c Hb Hn) as E.
    split; [exact E|].
    change (exit_status (fst (for_each (before ++ node :: after) probe st)) = c).
    rewrite E. reflexivity.
  - intros before r sk H. rewrite <- Hmulti.
    refine (keeps_for_each before probe _ _ _ _ H).
    intros v. apply keeps_queryHost.
  - intros node sk s1 ce Hm Hname Hacq Hnone.
    destruct (queryHost_after_acquire _ _ _ _ _ _ _ _ Hacq) as [E Hmode].
    destruct (queryHost_lookup_not_found fl node _ _ ce s1 Hname Hnone) as (es & Pes & Qes & L).
    exists es. unfold probe. rewrite E, L, Hmode, Hm. auto.
  - intros node sk s1 ce before v after x Hname Hacq Hsplit Hfirst Hmatch Hvalue.
    destruct (queryHost_after_acquire _ _ _ _ _ _ _ _ Hacq) as [E _].
    destruct (queryHost_lookup_found fl node _ _ ce before after v x s1
                Hname Hsplit Hfirst Hmatch Hvalue) as (r & sf & Hr & Hl & _).
    exists r, sf. unfold probe. rewrite E. auto.
Qed.

End Targets08.

Lemma single_target_counter_not_found_witness :
  exit_status
    (fst (V08.main Sample.S08.world (Sample.S08.flags "10.0.0.1" EmptyString "Nope" "600" "800")
            Sample.start)) = 3.
Proof.
  pose (W := Sample.S08.world).
  pose (fl := Sample.S08.flags "10.0.0.1" EmptyString "Nope" "600" "800").
  pose (st := snd (V08.main_setup W fl Sample.start)).
  pose (st1 := snd (V08.queryHost_acquire W fl "10.0.0.1" "10.0.0.1" "Memory" "Nope" "Memory" st)).
  destruct (single_target_counter_not_found W fl Sample.start st st1 "Memory" [EmptyString]
              Sample.S08.snapshot1) as (st2 & _ & H & _).
  - vm_compute. reflexivity.
  - vm_compute. reflexivity.
  - discriminate.
  - vm_compute. reflexivity.
  - repeat constructor; discriminate.
  - exact H.
Defined.

(** C3, the claim as it stands fails. With the nodes [10.0.0.1,10.0.0.2],
    where [UsedMB] is 512 on the first and 900 on the second, and the
    ranges 600 and 800: the run prints the line of the first node and
    exits with 0 (OK); the second node is not probed (no cache file is
    written for it), though a run on it alone exits with 2 (CRITICAL).
    And when no node has the counter, nothing is reported and the exit
    status is 0, not 3. *)
Lemma multi_target_not_worst :
  let W := Sample.S08.world in
  let fl := Sample.S08.flags EmptyString "10.0.0.1,10.0.0.2" "UsedMB" "600" "800" in
  let run := V08.main W fl Sample.start in
  exit_status (fst run) = 0
  /\ printed (st_trace (snd run))
     = ["OK - UC Perfmon,Memory,UsedMB=512|UsedMB=512;600;800;;" +:+ nl]
  /\ st_files (snd run) !! V08.saveStruct_filename W fl "10.0.0.2" "Memory" = None
  /\ exit_status
       (fst (V08.main W (Sample.S08.flags "10.0.0.2" EmptyString "UsedMB" "600" "800") Sample.start)) = 2
  /\ (let none := V08.main W (Sample.S08.flags EmptyString "10.0.0.1,10.0.0.2" "Nope" "600" "800")
                    Sample.start in
      exit_status (fst none) = 0 /\ printed (st_trace (snd none)) = []).
Proof. repeat split; vm_compute; reflexivity. Qed.

Lemma multi_target_run_witness :
  exit_status
    (fst (V08.main Sample.S08.world
            (Sample.S08.flags EmptyString "10.0.0.9,10.0.0.2" "UsedMB" "600" "800") Sample.start)) = 3.
Proof.
  pose (W := Sample.S08.world).
  pose (fl := Sample.S08.flags EmptyString "10.0.0.9,10.0.0.2" "UsedMB" "600" "800").
  pose (st := snd (V08.main_setup W fl Sample.start)).
  destruct (multi_target_run W fl Sample.start st "Memory" ["10.0.0.9"; "10.0.0.2"])
    as (H & _).
  - vm_compute. reflexivity.
  - vm_compute. reflexivity.
  - refine (proj2 (H [] "10.0.0.9" ["10.0.0.2"] st
                     (snd (V08.queryHost W fl "10.0.0.1" "10.0.0.9" "Memory" "UsedMB" "Memory" st))
                     3 _ _ _)).
    + reflexivity.
    + reflexivity.
    + vm_compute. reflexivity.
Defined.

(** ** Release 0.8: the cache *)


Section Cache08.

Variable W : World V08.CounterEnvelope V08.ListCounterEnvelope.
Variable fl : Flags.


(** A save that reports success has written the encoding of the envelope,
    stamped with the time of the write, and nothing else. *)
Lemma saveStruct_true (ip object : string) (e : V08.CounterEnvelope) (st st1 : State) :
  V08.saveStruct W fl ip object e st = (Ret true, st1) ->
  exists data,
    json_Marshal W e = Some data
    /\ st1 = mk_State (<[V08.saveStruct_filename W fl ip object := mk_File data (st_clock st)]>
                         (st_files st))
               (st_clock st) (st_trace st) (st_log_dest st)
               (st_usePersistData st) (st_returnVal st) (st_multipeNodes st).
Proof.
  unfold V08.saveStruct. destruct (json_Marshal W e) as [data|].
  - destruct (ioutil_WriteFile_ok W _).
    + intros [= <-]. exists data. split; reflexivity.
    + rewrite (bind_Ret _ _ _ _ _ (debugPrintf_eq _ _ _ _ _)). discriminate.
  - rewrite (bind_Ret _ _ _ _ _ (debugPrintf_eq _ _ _ _ _)). discriminate.
Qed.

(** A load of a file that is there: it is served unless it is older than
    the maximal age, cannot be read or cannot be decoded. *)
Lemma loadStruct_present (ip object : string) (age : Z) (o : V08.CounterEnvelope)
    (st : State) (fs : File) :
  st_files st !! V08.loadStruct_filename W fl ip object = Some fs ->
  fst (V08.loadStruct W fl ip object age o st)
  = Ret (if st_clock st - file_mtime fs >? age then (false, o)
         else if negb (ioutil_ReadFile_ok W (V08.loadStruct_filename W fl ip object))
              then (false, o)
              else let '(o', ok) := json_Unmarshal W (file_data fs) o in (ok, o')).
Proof.
  intros H. unfold V08.loadStruct. unfold get at 1. unfold bind at 1. cbv beta iota. rewrite H.
  rewrite (bind_Ret _ _ _ _ _ (debugPrintf_eq _ _ _ _ _)).
  change (st_clock (add_events st _)) with (st_clock st).
  destruct (_ >? age); [reflexivity|].
  destruct (negb _).
  { rewrite (bind_Ret _ _ _ _ _ (debugPrintf_eq _ _ _ _ _)). reflexivity. }
  destruct (json_Unmarshal W (file_data fs) o) as [o' [|]]; [reflexivity|].
  rewrite (bind_Ret _ _ _ _ _ (debugPrintf_eq _ _ _ _ _)). reflexivity.
Qed.

(** A load after a save under the same file name, [d] seconds later. *)
Lemma load_after_save (ip object1 object2 : string) (e o : V08.CounterEnvelope)
    (st st1 : State) (d age : Z) :
  V08.saveStruct_filename W fl ip object1 = V08.loadStruct_filename W fl ip object2 ->
  V08.saveStruct W fl ip object1 e st = (Ret true, st1) ->
  (forall data, json_Marshal W e = Some data -> json_Unmarshal W data o = (e, true)) ->
  ioutil_ReadFile_ok W (V08.loadStruct_filename W fl ip object2) = true ->
  d <= age ->
  fst (V08.loadStruct W fl ip object2 age o (later d st1)) = Ret (true, e).
Proof.
  intros Hf Hs Hj Hr Hd.
  apply saveStruct_true in Hs as (data & Hm & ->).
  rewrite (loadStruct_present ip object2 age o _ (mk_File data (st_clock st))).
  - cbn [later st_clock file_mtime file_data]. rewrite Hr, (Hj _ Hm).
    replace (st_clock st + d - st_clock st >? age) with false; [reflexivity|].
    symmetry. rewrite Z.gtb_ltb. apply Z.ltb_ge. lia.
  - cbn [later st_files]. rewrite Hf. apply lookup_insert_eq.
Qed.

End Cache08.

(** C5, the claim as it stands fails: a cache entry written in the current
    second is there, and a load with maximal age 0 serves it. *)
Lemma load_age_zero_hits :
  let W := Sample.S08.world in
  let fl := Sample.S08.flags "10.0.0.1" EmptyString "UsedMB" "600" "800" in
  let st1 := snd (V08.saveStruct W fl "10.0.0.1" "Memory" Sample.S08.snapshot1 Sample.start) in
  st_files st1 !! V08.loadStruct_filename W fl "10.0.0.1" "Memory"
  = Some (mk_File (Sample.S08.json_text Sample.S08.snapshot1) 1000)
  /\ st_clock st1 = 1000
  /\ fst (V08.loadStruct W fl "10.0.0.1" "Memory" 0 V08.new_CounterEnvelope st1)
     = Ret (true, Sample.S08.snapshot1).
Proof. repeat split; vm_compute; reflexivity. Qed.

(** C5, amended. A save that succeeds, followed [d] seconds later by a
    load whose maximal age is at least [d], yields the envelope that was
    saved, for an envelope the JSON decoder gives back from its encoding
    and a file that can be read. A load with maximal age 0 misses every
    entry whose modification time is before the current second; it serves
    an entry written in the current second. *)
Theorem cache_round_trip (W : World V08.CounterEnvelope V08.ListCounterEnvelope) (fl : Flags)
    (ip object : string) (e o : V08.CounterEnvelope) (st st1 : State) (d age : Z)
    (Hsave : V08.saveStruct W fl ip object e st = (Ret true, st1))
    (Hjson : forall data, json_Marshal W e = Some data -> json_Unmarshal W data o = (e, true))
    (Hread : ioutil_ReadFile_ok W (V08.loadStruct_filename W fl ip object) = true)
    (Hage : d <= age) :
  fst (V08.loadStruct W fl ip object age o (later d st1)) = Ret (true, e)
  /\ fst (V08.loadStruct W fl ip object 0 o st1) = Ret (true, e)
  /\ (forall st' fs,
        st_files st' !! V08.loadStruct_filename W fl ip object = Some fs ->
        file_mtime fs < st_clock st' ->
        fst (V08.loadStruct W fl ip object 0 o st') = Ret (false, o)).
Proof.
  split; [|split].
  - apply (load_after_save W fl ip object object e o st st1 d age); auto.
  - assert (E : later 0 st1 = st1) by (destruct st1; unfold later; simpl; rewrite Z.add_0_r; reflexivity).
    rewrite <- E at 1.
    apply (load_after_save W fl ip object object e o st st1 0 0); auto. lia.
  - intros st' fs Hfs Hold. rewrite (loadStruct_present W fl ip object 0 o st' fs Hfs).
    replace (st_clock st' - file_mtime fs >? 0) with true; [reflexivity|].
    symmetry. rewrite Z.gtb_ltb. apply Z.ltb_lt. lia.
Qed.

Lemma cache_round_trip_witness :
  fst (V08.loadStruct Sample.S08.world (Sample.S08.flags "10.0.0.1" EmptyString "UsedMB" "600" "800")
         "10.0.0.1" "Memory" 180 V08.new_CounterEnvelope
         (later 5 (snd (V08.saveStruct Sample.S08.world
                          (Sample.S08.flags "10.0.0.1" EmptyString "UsedMB" "600" "800")
                          "10.0.0.1" "Memory" Sample.S08.snapshot1 Sample.start))))
  = Ret (true, Sample.S08.snapshot1).
Proof.
  refine (proj1 (cache_round_trip Sample.S08.world
                   (Sample.S08.flags "10.0.0.1" EmptyString "UsedMB" "600" "800")
                   "10.0.0.1" "Memory" Sample.S08.snapshot1 V08.new_CounterEnvelope
                   Sample.start _ 5 180 _ _ _ _)).
  - vm_compute. reflexivity.
  - intros data [= <-]. vm_compute. reflexivity.
  - reflexivity.
  - lia.
Defined.



(** ** The run without a counter name *)

Lemma for_each_print {A} (l : list A) (line : A -> string) (st : State) :
  for_each l (fun v => fmt_Printf (line v)) st
  = (Ret tt, add_events st (map (fun v => EvPrint (line v)) l)).
Proof.
  revert st. induction l as [|v l IH]; intros st; simpl.
  - rewrite add_events_nil. reflexivity.
  - unfold fmt_Printf at 1. rewrite (bind_Ret _ _ _ _ _ (emit_eq _ _)), IH, add_events_app.
    reflexivity.
Qed.

Lemma length_Repeat_space (n : nat) : String.length (strings_Repeat " " n) = n.
Proof.
  induction n as [|n IH]; [reflexivity|].
  cbn [strings_Repeat]. rewrite length_app_string, IH. reflexivity.
Qed.

Lemma fold_longest_ge (l : list V03.Item) (a : nat) :
  let step := fun (max_len : nat) (v : V03.Item) =>
    if (max_len <? String.length (V03.Name v))%nat then String.length (V03.Name v) else max_len in
  (a <= fold_left step l a)%nat
  /\ Forall (fun v => (String.length (V03.Name v) <= fold_left step l a)%nat) l.
Proof.
  intros step. revert a. induction l as [|v l IH]; intros a; simpl; [split; [lia|constructor]|].
  destruct (IH (step a v)) as [H1 H2].
  assert (Hs : (a <= step a v /\ String.length (V03.Name v) <= step a v)%nat).
  { unfold step. destruct (Nat.ltb_spec a (String.length (V03.Name v))); lia. }
  split; [lia|]. constructor; [lia | exact H2].
Qed.

Lemma longest_name_ge (l : list V03.Item) :
  Forall (fun v => (String.length (V03.Name v) <= V03.longest_name l)%nat) l.
Proof. apply (fold_longest_ge l 0). Qed.

Lemma snapshot_line_padded (width : nat) (v : V03.Item) :
  V03.snapshot_line width v
  = "Name: " +:+ padded_name width v +:+ "Value: " +:+ V03.Value v +:+ nl.
Proof.
  unfold V03.snapshot_line, padded_name, concat_strings.
  rewrite app_empty_r, !app_assoc_string. reflexivity.
Qed.

Lemma length_padded_name (width : nat) (v : V03.Item) :
  (String.length (V03.Name v) <= width)%nat ->
  String.length (padded_name width v) = (width + 3)%nat.
Proof.
  intros H. unfold padded_name. rewrite length_app_string, length_Repeat_space. lia.
Qed.

Lemma main_lookup_listing (fl : Flags) (envelope : V03.Envelope) (l : list V03.Item)
    (st : State) :
  counterName fl = EmptyString -> V03.items envelope = Some l ->
  V03.main_lookup fl envelope st
  = (Ret tt,
     add_events st
       (map (fun v => EvPrint ("Name: " +:+ padded_name (V03.longest_name l) v
                               +:+ "Value: " +:+ V03.Value v +:+ nl)) l)).
Proof.
  intros Hc Hl. unfold V03.main_lookup. rewrite Hc, Hl. cbn [String.length Nat.ltb Nat.leb or_panic].
  erewrite bind_Ret by reflexivity. rewrite for_each_print. f_equal. f_equal.
  apply map_ext. intros v. rewrite snapshot_line_padded. reflexivity.
Qed.

Lemma queryHost_lookup_no_name (fl : Flags) (node objectInstance : string)
    (ce : V08.CounterEnvelope) (st : State) :
  V08.queryHost_lookup fl node EmptyString objectInstance ce st = (Ret tt, st).
Proof. reflexivity. Qed.

(** C8, the claim as it stands fails. Release 0.3 prints the samples in
    the order of the snapshot: [UsedMB] before [% Mem Used], though the
    second name sorts before the first. Release 0.8 prints nothing for a
    snapshot of two samples. *)
Lemma snapshot_listing_not_sorted :
  printed (st_trace (snd (V03.main Sample.S03.world
                            (Sample.S03.flags "10.0.0.1" EmptyString "600" "800") Sample.start)))
  = ["Name: \\10.0.0.1\Memory\UsedMB       Value: 512" +:+ nl;
     "Name: \\10.0.0.1\Memory\% Mem Used   Value: 37" +:+ nl]
  /\ String.ltb "\\10.0.0.1\Memory\% Mem Used" "\\10.0.0.1\Memory\UsedMB" = true
  /\ (let run := V08.main Sample.S08.world (Sample.S08.flags "10.0.0.1" EmptyString EmptyString "600" "800")
                   Sample.start in
      fst run = Ret tt /\ printed (st_trace (snd run)) = []
      /\ fst (V08.loadStruct Sample.S08.world (Sample.S08.flags "10.0.0.1" EmptyString EmptyString "600" "800")
                "10.0.0.1" "Memory" 180 V08.new_CounterEnvelope (snd run))
         = Ret (true, Sample.S08.snapshot1)).
Proof. repeat split; vm_compute; reflexivity. Qed.

(** C8, amended. When no counter name is asked for, no threshold is
    evaluated and the process ends with exit status 0, in both releases.
    Release 0.3 prints every sample of the snapshot in the order of the
    snapshot, one line each, [Name: ] and the name padded with spaces to
    the longest name plus three, then [Value: ] and the value: the values
    start in one column. *)
Theorem snapshot_listing :
  (forall (W : World V03.Envelope V03.ListCounterEnvelope) (fl : Flags) (st0 st1 : State)
          (envelope : V03.Envelope) (l : list V03.Item),
     counterName fl = EmptyString ->
     V03.main_acquire W fl st0 = (Ret envelope, st1) ->
     V03.items envelope = Some l ->
     exists st2,
       V03.main W fl st0 = (Ret tt, st2)
       /\ exit_status (fst (V03.main W fl st0)) = 0
       /\ st_trace st2
          = st_trace st1
            ++ map (fun v => EvPrint ("Name: " +:+ padded_name (V03.longest_name l) v
                                      +:+ "Value: " +:+ V03.Value v +:+ nl)) l
       /\ Forall (fun v => String.length (padded_name (V03.longest_name l) v)
                           = (V03.longest_name l + 3)%nat) l)
  /\ (forall (W : World V08.CounterEnvelope V08.ListCounterEnvelope) (fl : Flags)
             (st0 st st1 : State) (object : string) (nodes : list string)
             (ce : V08.CounterEnvelope),
        counterName fl = EmptyString ->
        V08.main_setup W fl st0 = (Ret (object, nodes), st) ->
        st_multipeNodes st = false ->
        V08.queryHost_acquire W fl (ipAddr fl) (nodeIpAddr fl) object (counterName fl)
          (objectInstance fl) st = (Ret ce, st1) ->
        fst (V08.main W fl st0) = Ret tt /\ exit_status (fst (V08.main W fl st0)) = 0).
Proof.
  split.
  - intros W fl st0 st1 envelope l Hc Ha Hl.
    unfold V03.main. rewrite (bind_Ret _ _ _ _ _ Ha), (main_lookup_listing fl _ l _ Hc Hl).
    eexists. split; [reflexivity|]. split; [reflexivity|]. split; [reflexivity|].
    eapply Forall_impl; [apply longest_name_ge|].
    intros v Hv. apply length_padded_name. exact Hv.
  - intros W fl st0 st st1 object nodes ce Hc Hs Hm Ha.
    rewrite (main_after_setup W fl _ _ _ _ Hs), Hm.
    destruct (queryHost_after_acquire W fl _ _ _ _ _ _ _ _ Ha) as [-> _].
    rewrite Hc, queryHost_lookup_no_name. split; reflexivity.
Qed.

Lemma snapshot_listing_witness :
  exit_status (fst (V03.main Sample.S03.world (Sample.S03.flags "10.0.0.1" EmptyString "600" "800")
                      Sample.start)) = 0
  /\ exit_status (fst (V08.main Sample.S08.world (Sample.S08.flags "10.0.0.1" EmptyString EmptyString "600" "800")
                         Sample.start)) = 0.
Proof.
  destruct snapshot_listing as [H03 H08]. split.
  - destruct (H03 Sample.S03.world (Sample.S03.flags "10.0.0.1" EmptyString "600" "800") Sample.start
                (snd (V03.main_acquire Sample.S03.world
                        (Sample.S03.flags "10.0.0.1" EmptyString "600" "800") Sample.start))
                Sample.S03.snapshot1
                [Sample.S03.item "\\10.0.0.1\Memory\UsedMB" "512";
                 Sample.S03.item "\\10.0.0.1\Memory\% Mem Used" "37"])
      as (st2 & _ & H & _).
    + reflexivity.
    + vm_compute. reflexivity.
    + reflexivity.
    + exact H.
  - pose (W := Sample.S08.world).
    pose (fl := Sample.S08.flags "10.0.0.1" EmptyString EmptyString "600" "800").
    pose (st := snd (V08.main_setup W fl Sample.start)).
    refine (proj2 (H08 W fl Sample.start st
                     (snd (V08.queryHost_acquire W fl "10.0.0.1" "10.0.0.1" "Memory" EmptyString "Memory" st))
                     "Memory" [EmptyString] Sample.S08.snapshot1 _ _ _ _)).
    + reflexivity.
    + vm_compute. reflexivity.
    + vm_compute. reflexivity.
    + vm_compute. reflexivity.
Defined.

(** * Further properties *)

(** ** Threshold ranges: values and forms at the edges *)

Lemma SFcompare_swap (a b : float64) :
  SFcompare b a = option_map CompOpp (SFcompare a b).
Proof.
  destruct a as [sa|sa| |sa ma ea], b as [sb|sb| |sb mb eb]; simpl;
    try reflexivity; try (destruct sa; reflexivity); try (destruct sb; reflexivity);
    try (destruct sa, sb; reflexivity).
  destruct sa, sb; try reflexivity.
  - rewrite (Z.compare_antisym ea eb). destruct (ea ?= eb) eqn:E; simpl; try reflexivity.
    f_equal. f_equal. rewrite (Pos.compare_cont_antisym ma mb Eq). reflexivity.
  - rewrite (Z.compare_antisym ea eb). destruct (ea ?= eb) eqn:E; simpl; try reflexivity.
    f_equal. rewrite (Pos.compare_cont_antisym ma mb Eq). reflexivity.
Qed.

Lemma SFcompare_defined (a b : float64) :
  is_nan a = false -> is_nan b = false -> exists c, SFcompare a b = Some c.
Proof. destruct a, b; try discriminate; intros _ _; eexists; reflexivity. Qed.

(** On numbers, [>=] is the negation of [<] and [<=] the negation of [>]. *)
Lemma f64_ge_not_lt (a b : float64) :
  is_nan a = false -> is_nan b = false -> f64_ge a b = negb (f64_lt a b).
Proof.
  intros Ha Hb. unfold f64_ge, f64_lt, SFleb, SFltb. rewrite (SFcompare_swap a b).
  destruct (SFcompare_defined a b Ha Hb) as [c ->]. destruct c; reflexivity.
Qed.

Lemma f64_le_not_gt (a b : float64) :
  is_nan a = false -> is_nan b = false -> f64_le a b = negb (f64_gt a b).
Proof.
  intros Ha Hb. unfold f64_le, f64_gt, SFleb, SFltb. rewrite (SFcompare_swap a b).
  destruct (SFcompare_defined a b Ha Hb) as [c ->]. destruct c; reflexivity.
Qed.

Lemma f64_nan_compares (b : float64) :
  f64_lt S754_nan b = false /\ f64_gt S754_nan b = false
  /\ f64_le S754_nan b = false /\ f64_ge S754_nan b = false.
Proof. destruct b; repeat split; reflexivity. Qed.

(** X1. A counter value that is not a number, as [strconv.ParseFloat]
    returns for the text [NaN], fires no range of the five forms [N],
    [N:], [~:N], [N:M] and [@N:M], whatever the bounds are: every
    comparison with it is false. With two plain thresholds the status is 0
    (OK). *)
Theorem nan_value_never_alerts (X Y : string)
    (HX : byte_free ":" X = true) (HY : byte_free ":" Y = true) (HYne : Y <> EmptyString) :
  strconv_ParseFloat "NaN" = (S754_nan, None)
  /\ generateAlert S754_nan X = Some false
  /\ generateAlert S754_nan (X +:+ ":") = Some false
  /\ generateAlert S754_nan ("~:" +:+ Y) = Some false
  /\ generateAlert S754_nan ("@" +:+ X +:+ ":" +:+ Y) = Some false
  /\ (digits_dots X = true -> digits_dots Y = true ->
      generateAlert S754_nan (X +:+ ":" +:+ Y) = Some false)
  /\ getNagiosReturnVal S754_nan X Y = Some 0.
Proof.
  assert (P : forall Z0, byte_free ":" Z0 = true -> generateAlert S754_nan Z0 = Some false).
  { intros Z0 H. rewrite (generateAlert_plain _ _ H).
    destruct (f64_nan_compares (bound Z0)) as (_ & -> & _). reflexivity. }
  split; [vm_compute; reflexivity|]. split; [apply P; exact HX|].
  split; [rewrite (generateAlert_lower _ _ HX); reflexivity|].
  split.
  { rewrite (generateAlert_upper _ _ HYne HY).
    destruct (f64_nan_compares (bound Y)) as (_ & -> & _). reflexivity. }
  split.
  { rewrite (generateAlert_inverted _ _ _ HX HYne HY).
    destruct (f64_nan_compares (bound X)) as (_ & _ & _ & ->). reflexivity. }
  split.
  { intros DX DY. rewrite (generateAlert_range _ _ _ DX DY).
    destruct (f64_nan_compares (bound Y)) as (_ & -> & _). reflexivity. }
  unfold getNagiosReturnVal. rewrite (P _ HX), (P _ HY). reflexivity.
Qed.

Lemma nan_value_never_alerts_witness :
  getNagiosReturnVal (fst (strconv_ParseFloat "NaN")) "600" "800" = Some 0.
Proof.
  destruct (nan_value_never_alerts "600" "800") as (E & _ & _ & _ & _ & _ & H).
  - reflexivity.
  - reflexivity.
  - discriminate.
  - rewrite E. exact H.
Defined.

(** X2. A plain range [N] of digits and dots is the range [0:N]: it
    fires for a value below zero or above [N]. The range [~:N] differs
    from it by the values below zero only. *)
Theorem plain_range_is_zero_to_N (v : float64) (N : string)
    (HN : digits_dots N = true) :
  generateAlert v N = generateAlert v ("0:" +:+ N)
  /\ generateAlert v N = Some (f64_lt v f64_zero || f64_gt v (bound N))
  /\ generateAlert v ("~:" +:+ N) = Some (f64_gt v (bound N)).
Proof.
  pose proof (digits_dots_free_colon _ HN) as F.
  pose proof (digits_dots_nonempty _ HN) as Ne.
  rewrite (generateAlert_plain _ _ F), (generateAlert_upper _ _ Ne F).
  split; [|split; reflexivity].
  change ("0:" +:+ N) with ("0" +:+ ":" +:+ N).
  rewrite (generateAlert_range v "0" N eq_refl HN).
  replace (bound "0") with f64_zero by (vm_compute; reflexivity). reflexivity.
Qed.

Lemma plain_range_is_zero_to_N_witness :
  generateAlert (f64_lit "-1") "10" = generateAlert (f64_lit "-1") "0:10"
  /\ generateAlert (f64_lit "-1") "10" = Some true
  /\ generateAlert (f64_lit "-1") "~:10" = Some false.
Proof.
  destruct (plain_range_is_zero_to_N (f64_lit "-1") "10" eq_refl) as (H1 & H2 & H3).
  split; [exact H1|].
  split; [etransitivity; [exact H2|] | etransitivity; [exact H3|]]; vm_compute; reflexivity.
Defined.

(** X3. For bounds of digits and dots, and when the value and the two
    bounds are numbers, the range [@N:M] fires exactly when the range
    [N:M] does not. *)
Theorem inverted_range_is_complement (v : float64) (X Y : string)
    (HX : digits_dots X = true) (HY : digits_dots Y = true)
    (Hv : is_nan v = false) (Hx : is_nan (bound X) = false) (Hy : is_nan (bound Y) = false) :
  generateAlert v ("@" +:+ X +:+ ":" +:+ Y)
  = option_map negb (generateAlert v (X +:+ ":" +:+ Y)).
Proof.
  pose proof (digits_dots_free_colon _ HX) as FX.
  pose proof (digits_dots_free_colon _ HY) as FY.
  pose proof (digits_dots_nonempty _ HY) as Ne.
  rewrite (generateAlert_inverted _ _ _ FX Ne FY), (generateAlert_range _ _ _ HX HY).
  rewrite (f64_ge_not_lt _ _ Hv Hx), (f64_le_not_gt _ _ Hv Hy). simpl.
  rewrite negb_orb. reflexivity.
Qed.

Lemma inverted_range_is_complement_witness :
  generateAlert (f64_lit "15") "@10:20" = Some true
  /\ generateAlert (f64_lit "15") "10:20" = Some false.
Proof.
  pose proof (inverted_range_is_complement (f64_lit "15") "10" "20"
                eq_refl eq_refl eq_refl eq_refl eq_refl) as H.
  change ("@" +:+ "10" +:+ ":" +:+ "20") with "@10:20" in H.
  change ("10" +:+ ":" +:+ "20") with "10:20" in H.
  assert (E : generateAlert (f64_lit "15") "10:20" = Some false) by (vm_compute; reflexivity).
  split; [etransitivity; [exact H|]; rewrite E; reflexivity | exact E].
Defined.

(** ** Names: the object, the name looked up, the printed line *)

Lemma Index_absent (s : string) (c : ascii) :
  byte_free c s = true -> strings_Index s c = -1.
Proof.
  induction s as [|a s IH]; [reflexivity|]. simpl. intros [Ha Hs]%andb_prop.
  apply negb_true_iff in Ha. rewrite Ha, (IH Hs). reflexivity.
Qed.

Lemma Index_nonneg_or_absent (s : string) (c : ascii) :
  strings_Index s c = -1 \/ 0 <= strings_Index s c.
Proof.
  induction s as [|a s IH]; [left; reflexivity|]. simpl.
  destruct (Ascii.eqb a c); [right; lia|].
  destruct (Z.ltb_spec (strings_Index s c) 0); [left; reflexivity | right; lia].
Qed.

(** The index of the first occurrence is the length of the prefix before
    it. *)
Lemma Index_first (pre rest : string) (c : ascii) :
  byte_free c pre = true ->
  strings_Index (pre +:+ String c rest) c = Z.of_nat (String.length pre).
Proof.
  induction pre as [|a pre IH]; intros H.
  - rewrite app_empty_l. simpl. rewrite Ascii.eqb_refl. reflexivity.
  - simpl in H. apply andb_prop in H as [Ha Hp]. apply negb_true_iff in Ha.
    rewrite app_String. cbn [strings_Index String.length]. rewrite Ha, (IH Hp).
    destruct (Z.ltb_spec (Z.of_nat (String.length pre)) 0); lia.
Qed.

Lemma string_take_app (pre rest : string) :
  string_take (String.length pre) (pre +:+ rest) = pre.
Proof.
  induction pre as [|a pre IH]; [destruct rest; reflexivity|].
  rewrite app_String. simpl. rewrite IH. reflexivity.
Qed.

(** A string is free of a byte, or splits at its first occurrence. *)
Lemma first_occurrence (s : string) (c : ascii) :
  byte_free c s = true
  \/ exists pre rest, s = pre +:+ String c rest /\ byte_free c pre = true.
Proof.
  induction s as [|a s IH]; [left; reflexivity|].
  destruct (Ascii.eqb a c) eqn:E.
  - right. apply Ascii.eqb_eq in E as ->. exists EmptyString, s. split; reflexivity.
  - destruct IH as [H|(pre & rest & -> & H)].
    + left. simpl. rewrite E, H. reflexivity.
    + right. exists (String a pre), rest. split; [rewrite app_String; reflexivity|].
      simpl. rewrite E, H. reflexivity.
Qed.

Lemma object_of_free (s : string) : byte_free "(" s = true -> object_of s = s.
Proof. intros H. unfold object_of. rewrite (Index_absent _ _ H). reflexivity. Qed.

Lemma object_of_instances (o i : string) :
  byte_free "(" o = true -> object_of (o +:+ String "(" i) = o.
Proof.
  intros H. unfold object_of. rewrite (Index_first _ _ _ H).
  replace (negb (Z.of_nat (String.length o) =? -1)) with true
    by (symmetry; apply negb_true_iff, Z.eqb_neq; lia).
  rewrite Nat2Z.id. apply string_take_app.
Qed.

(** X4. The object [main] hands to [queryHost] is the argument of [-o] up
    to its first opening parenthesis: it has no parenthesis, and what it
    leaves out is nothing or starts with one. An argument without a
    parenthesis is the object; an object followed by instance names in
    parentheses gives the object, whatever the instances. *)
Theorem object_of_prefix (s : string) :
  byte_free "(" (object_of s) = true
  /\ (exists rest, s = object_of s +:+ rest
                   /\ (rest = EmptyString \/ exists r, rest = String "(" r))
  /\ (byte_free "(" s = true -> object_of s = s)
  /\ (forall o i, byte_free "(" o = true -> object_of (o +:+ String "(" i) = o).
Proof.
  split; [|split; [|split; [apply object_of_free | apply object_of_instances]]].
  - destruct (first_occurrence s "(") as [H|(pre & rest & -> & H)].
    + rewrite (object_of_free _ H). exact H.
    + rewrite (object_of_instances _ _ H). exact H.
  - destruct (first_occurrence s "(") as [H|(pre & rest & -> & H)].
    + exists EmptyString. rewrite (object_of_free _ H), app_empty_r. auto.
    + exists (String "(" rest). rewrite (object_of_instances _ _ H). eauto.
Qed.

(** X5. The name looked up is always a fully-qualified one, for a node
    and an [-o] argument without a newline: a name that is not qualified
    is qualified by the synthesis, and looking up the result leaves it as
    it is, whatever node and object come with it. *)
Theorem lookup_name_is_qualified (node counter objectInstance : string)
    (Hnode : byte_free "010" node = true)
    (Hobject : byte_free "010" objectInstance = true) :
  isFullQualified (V08.lookup_fullCounterName node counter objectInstance) = true
  /\ forall node' objectInstance',
       V08.lookup_fullCounterName node'
         (V08.lookup_fullCounterName node counter objectInstance) objectInstance'
       = V08.lookup_fullCounterName node counter objectInstance.
Proof.
  assert (Q : isFullQualified (V08.lookup_fullCounterName node counter objectInstance) = true).
  { unfold V08.lookup_fullCounterName. destruct (isFullQualified counter) eqn:E; [exact E|].
    apply isFullQualified_spec. exists node, objectInstance, counter.
    split; [|split; assumption].
    unfold sprintf_fullCounterName, concat_strings. rewrite app_empty_r. reflexivity. }
  split; [exact Q|]. intros node' oi'.
  unfold V08.lookup_fullCounterName at 1. rewrite Q. reflexivity.
Qed.

Lemma lookup_name_is_qualified_witness :
  isFullQualified (V08.lookup_fullCounterName "10.0.0.1" "UsedMB" "Process(tomcat)") = true.
Proof.
  exact (proj1 (lookup_name_is_qualified "10.0.0.1" "UsedMB" "Process(tomcat)" eq_refl eq_refl)).
Defined.

Lemma byte_free_escape_byte (b c : ascii) :
  (b = "%" \/ b = "<" \/ b = ">" \/ b = "'" \/ b = "034")%char ->
  byte_free b (escape_byte c) = true.
Proof.
  intros Hb. unfold escape_byte.
  repeat match goal with
         | |- context [if Ascii.eqb c ?a then _ else _] =>
             let E := fresh "E" in
             destruct (Ascii.eqb c a) eqn:E;
             [destruct Hb as [->|[->|[->|[->| ->]]]]; reflexivity|]
         end.
  destruct Hb as [->|[->|[->|[->| ->]]]]; simpl;
    match goal with E : Ascii.eqb c ?a = false |- context [Ascii.eqb c ?a] => rewrite E end;
    reflexivity.
Qed.

Lemma length_escape_byte (c : ascii) : (1 <= String.length (escape_byte c))%nat.
Proof.
  unfold escape_byte.
  repeat match goal with
         | |- context [if Ascii.eqb c ?a then _ else _] => destruct (Ascii.eqb c a)
         end; simpl; lia.
Qed.

(** X6. The three escaping steps leave no percent sign, no angle bracket
    and no quote of either kind in the line, whatever the object, the
    counter, the value and the thresholds are; the line is never shorter
    than the text it is made from. *)
Theorem escaped_output_charset (s : string) :
  byte_free "%" (escape_output s) = true
  /\ byte_free "<" (escape_output s) = true
  /\ byte_free ">" (escape_output s) = true
  /\ byte_free "'" (escape_output s) = true
  /\ byte_free "034" (escape_output s) = true
  /\ (String.length s <= String.length (escape_output s))%nat.
Proof.
  rewrite escape_output_bytes.
  assert (F : forall b, (b = "%" \/ b = "<" \/ b = ">" \/ b = "'" \/ b = "034")%char ->
                        byte_free b (escape_bytes s) = true).
  { intros b Hb. induction s as [|c s IH]; [reflexivity|].
    cbn [escape_bytes]. rewrite byte_free_app, IH, (byte_free_escape_byte b c Hb). reflexivity. }
  repeat (split; [apply F; tauto|]).
  clear F. induction s as [|c s IH]; [simpl; lia|].
  cbn [escape_bytes String.length]. rewrite length_app_string.
  pose proof (length_escape_byte c). lia.
Qed.

(** ** The cache: what a load and a save do and leave alone *)

Lemma app_inv_head_string (a x y : string) : a +:+ x = a +:+ y -> x = y.
Proof.
  induction a as [|c a IH]; [rewrite !app_empty_l; auto|].
  rewrite !app_String. intros [= H]. apply IH. exact H.
Qed.

Lemma Replace_space_byte (c : ascii) (s : string) :
  strings_Replace (String c s) " " "_"
  = String (if Ascii.eqb c " " then "_"%char else c) (strings_Replace s " " "_").
Proof. simpl. destruct (Ascii.eqb c " "); reflexivity. Qed.

(** On names without an underscore, replacing the spaces loses nothing. *)
Lemma Replace_space_inj (a b : string) :
  byte_free "_" a = true -> byte_free "_" b = true ->
  strings_Replace a " " "_" = strings_Replace b " " "_" -> a = b.
Proof.
  revert b. induction a as [|x a IH]; intros [|y b] Ha Hb H; try reflexivity;
    try (rewrite Replace_space_byte in H; discriminate).
  rewrite !Replace_space_byte in H. injection H as Hc Hs.
  simpl in Ha, Hb. apply andb_prop in Ha as [Hx Ha], Hb as [Hy Hb].
  apply negb_true_iff in Hx, Hy. rewrite (IH b Ha Hb Hs). f_equal.
  destruct (Ascii.eqb x " ") eqn:Ex, (Ascii.eqb y " ") eqn:Ey.
  - apply Ascii.eqb_eq in Ex, Ey. congruence.
  - subst y. rewrite Ascii.eqb_refl in Hy. discriminate.
  - subst x. rewrite Ascii.eqb_refl in Hx. discriminate.
  - exact Hc.
Qed.

Section CacheMore08.

Variable W : World V08.CounterEnvelope V08.ListCounterEnvelope.
Variable fl : Flags.

Lemma filename_inj (ip object1 object2 : string) :
  V08.saveStruct_filename W fl ip object1 = V08.saveStruct_filename W fl ip object2 ->
  strings_Replace object1 " " "_" = strings_Replace object2 " " "_".
Proof.
  unfold V08.saveStruct_filename, concat_strings. intros H.
  do 6 apply app_inv_head_string in H. rewrite !app_empty_r in H. exact H.
Qed.

(** A load returns, after log events only. *)
Lemma loadStruct_run (ip object : string) (age : Z) (o : V08.CounterEnvelope) (st : State) :
  exists es,
    printed es = []
    /\ V08.loadStruct W fl ip object age o st
       = (Ret (load_result W fl ip object age o st), add_events st es).
Proof.
  unfold V08.loadStruct, load_result. unfold get at 1. unfold bind at 1. cbv beta iota.
  destruct (st_files st !! V08.loadStruct_filename W fl ip object) as [fs|].
  2: { exists []. rewrite add_events_nil. split; reflexivity. }
  rewrite (bind_Ret _ _ _ _ _ (debugPrintf_eq _ _ _ _ _)).
  change (st_clock (add_events st _)) with (st_clock st).
  set (e1 := if (3 =? 1) || (3 <=? debug fl) then _ else _).
  assert (P1 : printed e1 = []) by (subst e1; destruct (_ || _); reflexivity).
  destruct (st_clock st - file_mtime fs >? age); [exists e1; split; [exact P1 | reflexivity]|].
  destruct (negb _).
  { rewrite (bind_Ret _ _ _ _ _ (debugPrintf_eq _ _ _ _ _)), add_events_app.
    eexists. split; [|reflexivity]. rewrite printed_app, P1. reflexivity. }
  destruct (json_Unmarshal W (file_data fs) o) as [o' [|]].
  - exists e1. split; [exact P1 | reflexivity].
  - rewrite (bind_Ret _ _ _ _ _ (debugPrintf_eq _ _ _ _ _)), add_events_app.
    eexists. split; [|reflexivity]. rewrite printed_app, P1. reflexivity.
Qed.

Lemma load_result_hit (ip object : string) (age : Z) (o ce : V08.CounterEnvelope)
    (st : State) (fs : File) :
  st_files st !! V08.loadStruct_filename W fl ip object = Some fs ->
  st_clock st - file_mtime fs <= age ->
  ioutil_ReadFile_ok W (V08.loadStruct_filename W fl ip object) = true ->
  json_Unmarshal W (file_data fs) o = (ce, true) ->
  load_result W fl ip object age o st = (true, ce).
Proof.
  intros Hf Ha Hr Hj. unfold load_result. rewrite Hf, Hr, Hj.
  replace (st_clock st - file_mtime fs >? age) with false; [reflexivity|].
  symmetry. rewrite Z.gtb_ltb. apply Z.ltb_ge. lia.
Qed.

(** X7. A load never exits, prints nothing with [fmt.Printf] and leaves
    the files, the clock and the package variables as they are: it only
    logs. It reports a hit exactly when the file of the key is there, is
    not older than the maximal age, can be read and decodes; the structure
    of a hit is the decoded one. *)
Theorem loadStruct_outcome (ip object : string) (age : Z) (o : V08.CounterEnvelope)
    (st : State) :
  exists b o' es,
    V08.loadStruct W fl ip object age o st = (Ret (b, o'), add_events st es)
    /\ printed es = []
    /\ (b = true
        <-> exists fs,
              st_files st !! V08.loadStruct_filename W fl ip object = Some fs
              /\ st_clock st - file_mtime fs <= age
              /\ ioutil_ReadFile_ok W (V08.loadStruct_filename W fl ip object) = true
              /\ json_Unmarshal W (file_data fs) o = (o', true)).
Proof.
  unfold V08.loadStruct. unfold get at 1. unfold bind at 1. cbv beta iota.
  destruct (st_files st !! V08.loadStruct_filename W fl ip object) as [fs|] eqn:L.
  2: { exists false, o, []. rewrite add_events_nil. split; [reflexivity|].
       split; [reflexivity|]. split; [discriminate|]. intros (fs & [=] & _). }
  rewrite (bind_Ret _ _ _ _ _ (debugPrintf_eq _ _ _ _ _)).
  change (st_clock (add_events st _)) with (st_clock st).
  set (e1 := if (3 =? 1) || (3 <=? debug fl) then _ else _).
  assert (P1 : printed e1 = []) by (subst e1; destruct (_ || _); reflexivity).
  destruct (st_clock st - file_mtime fs >? age) eqn:G.
  { exists false, o, e1. split; [reflexivity|]. split; [exact P1|].
    split; [discriminate|]. intros (fs' & [= <-] & Hage & _).
    rewrite Z.gtb_ltb in G. apply Z.ltb_lt in G. lia. }
  destruct (ioutil_ReadFile_ok W (V08.loadStruct_filename W fl ip object)) eqn:R;
    cbn [negb].
  2: { rewrite (bind_Ret _ _ _ _ _ (debugPrintf_eq _ _ _ _ _)), add_events_app.
       eexists false, o, _. split; [reflexivity|].
       split; [rewrite printed_app, P1; reflexivity|].
       split; [discriminate|]. intros (_ & _ & _ & [=] & _). }
  destruct (json_Unmarshal W (file_data fs) o) as [o' [|]] eqn:J.
  - exists true, o', e1. split; [reflexivity|]. split; [exact P1|].
    split; [|reflexivity]. intros _. exists fs. split; [reflexivity|].
    split; [|split; [reflexivity | exact J]].
    rewrite Z.gtb_ltb in G. apply Z.ltb_ge in G. lia.
  - rewrite (bind_Ret _ _ _ _ _ (debugPrintf_eq _ _ _ _ _)), add_events_app.
    eexists false, o', _. split; [reflexivity|].
    split; [rewrite printed_app, P1; reflexivity|].
    split; [discriminate|]. intros (fs' & [= <-] & _ & _ & J'). congruence.
Qed.

(** A save returns; what it leaves. *)
Lemma saveStruct_run (ip object : string) (e : V08.CounterEnvelope) (st : State) :
  exists b st',
    V08.saveStruct W fl ip object e st = (Ret b, st')
    /\ printed (st_trace st') = printed (st_trace st)
    /\ st_clock st' = st_clock st
    /\ (b = true
        <-> is_Some (json_Marshal W e)
            /\ ioutil_WriteFile_ok W (V08.saveStruct_filename W fl ip object) = true)
    /\ (b = true ->
        exists data,
          json_Marshal W e = Some data
          /\ st_files st'
             = <[V08.saveStruct_filename W fl ip object := mk_File data (st_clock st)]>
                 (st_files st))
    /\ (b = false -> st_files st' = st_files st)
    /\ (forall f, f <> V08.saveStruct_filename W fl ip object ->
                  st_files st' !! f = st_files st !! f).
Proof.
  unfold V08.saveStruct.
  destruct (json_Marshal W e) as [data|] eqn:Hm.
  - destruct (ioutil_WriteFile_ok W (V08.saveStruct_filename W fl ip object)) eqn:Hw.
    + eexists true, _. split; [reflexivity|]. cbn [st_trace st_clock st_files].
      split; [reflexivity|]. split; [reflexivity|].
      split; [split; [intros _; split; [eexists|]; reflexivity | reflexivity]|].
      split; [intros _; exists data; split; reflexivity|].
      split; [discriminate|]. intros f Hf. apply lookup_insert_ne. congruence.
    + rewrite (bind_Ret _ _ _ _ _ (debugPrintf_eq _ _ _ _ _)).
      eexists false, _. split; [reflexivity|]. cbn [add_events st_trace st_clock st_files].
      split; [rewrite printed_app; destruct (_ || _); simpl; rewrite app_nil_r; reflexivity|].
      split; [reflexivity|].
      split; [split; [discriminate | intros [_ [=]]]|].
      split; [discriminate|]. split; reflexivity.
  - rewrite (bind_Ret _ _ _ _ _ (debugPrintf_eq _ _ _ _ _)).
    eexists false, _. split; [reflexivity|]. cbn [add_events st_trace st_clock st_files].
    split; [rewrite printed_app; destruct (_ || _); simpl; rewrite app_nil_r; reflexivity|].
    split; [reflexivity|].
    split; [split; [discriminate | intros [[x [=]] _]]|].
    split; [discriminate|]. split; reflexivity.
Qed.


(** X9. Among object names without an underscore the cache key loses
    nothing: for one target, two such names get the same file name only
    when they are the same name. *)
Theorem cache_key_injective (ip object1 object2 : string)
    (H1 : byte_free "_" object1 = true) (H2 : byte_free "_" object2 = true) :
  V08.saveStruct_filename W fl ip object1 = V08.saveStruct_filename W fl ip object2
  <-> object1 = object2.
Proof.
  split; [|intros ->; reflexivity].
  intros H. apply (Replace_space_inj _ _ H1 H2), filename_inj with (ip := ip). exact H.
Qed.

End CacheMore08.

Lemma cache_key_injective_witness :
  V08.saveStruct_filename Sample.S08.world Sample.default_Flags "10.0.0.1" "Cisco CallManager"
  = V08.saveStruct_filename Sample.S08.world Sample.default_Flags "10.0.0.1" "Cisco Phones"
  <-> "Cisco CallManager" = "Cisco Phones".
Proof.
  apply (cache_key_injective Sample.S08.world Sample.default_Flags "10.0.0.1"
           "Cisco CallManager" "Cisco Phones").
  - reflexivity.
  - reflexivity.
Defined.

Section Cache03.

Variable W : World V03.Envelope V03.ListCounterEnvelope.
Variable fl : Flags.

(** What a load of release 0.3 returns, from the file of its key and the
    clock. *)
Lemma loadStruct03_result (ip object : string) (age : Z) (o : V03.Envelope) (st : State) :
  fst (V03.loadStruct W fl ip object age o st)
  = Ret (let filename :=
           concat_strings [os_TempDir W; V03.tmpSubdir; Z_to_string (os_Getuid W); "_";
                           ip; "_"; object] in
         match st_files st !! filename with
         | None => (false, o)
         | Some fs =>
             if st_clock st - file_mtime fs >? age then (false, o)
             else if negb (ioutil_ReadFile_ok W filename) then (false, o)
                  else let '(o', ok) := json_Unmarshal W (file_data fs) o in (ok, o')
         end).
Proof.
  unfold V03.loadStruct. unfold get at 1. unfold bind at 1. cbv beta iota zeta.
  destruct (st_files st !! _) as [fs|]; [|reflexivity].
  rewrite (bind_Ret _ _ _ _ _ (debugPrintf_eq _ _ _ _ _)).
  change (st_clock (add_events st _)) with (st_clock st).
  destruct (_ >? age); [reflexivity|].
  destruct (negb _).
  { rewrite (bind_Ret _ _ _ _ _ (debugPrintf_eq _ _ _ _ _)). reflexivity. }
  destruct (json_Unmarshal W (file_data fs) o) as [o' [|]]; [reflexivity|].
  rewrite (bind_Ret _ _ _ _ _ (debugPrintf_eq _ _ _ _ _)). reflexivity.
Qed.

(** What a save of release 0.3 leaves: the clock, and every file but the
    one of its key. *)
Lemma saveStruct03_frame (ip object : string) (e : V03.Envelope) (st st1 : State) (b : bool) :
  V03.saveStruct W fl ip object e st = (Ret b, st1) ->
  st_clock st1 = st_clock st
  /\ forall f,
       f <> concat_strings [os_TempDir W; V03.tmpSubdir; Z_to_string (os_Getuid W); "_";
                            ip; "_"; object] ->
       st_files st1 !! f = st_files st !! f.
Proof.
  unfold V03.saveStruct. destruct (json_Marshal W e) as [data|].
  - cbv zeta. destruct (ioutil_WriteFile_ok W _).
    + intros [= _ <-]. split; [reflexivity|]. intros f Hf. cbn [st_files].
      apply lookup_insert_ne. intros E. apply Hf. symmetry. exact E.
    + rewrite (bind_Ret _ _ _ _ _ (debugPrintf_eq _ _ _ _ _)). intros [= _ <-].
      split; reflexivity.
  - rewrite (bind_Ret _ _ _ _ _ (debugPrintf_eq _ _ _ _ _)). intros [= _ <-].
    split; reflexivity.
Qed.

(** X10. Release 0.3 puts the object name into the file name as it is,
    spaces included: for one target, a save for one object changes nothing
    for a load of any other object, which returns what it returned before
    the save. *)
Theorem cache03_objects_apart (ip object1 object2 : string) (e o : V03.Envelope)
    (st st1 : State) (b : bool) (age : Z)
    (Hother : object1 <> object2)
    (Hsave : V03.saveStruct W fl ip object1 e st = (Ret b, st1)) :
  fst (V03.loadStruct W fl ip object2 age o st1)
  = fst (V03.loadStruct W fl ip object2 age o st).
Proof.
  destruct (saveStruct03_frame _ _ _ _ _ _ Hsave) as [Hc Hf].
  rewrite !loadStruct03_result. cbv zeta. rewrite Hc, Hf; [reflexivity|].
  unfold concat_strings. intros H. do 6 apply app_inv_head_string in H.
  rewrite !app_empty_r in H. congruence.
Qed.

End Cache03.

Lemma cache03_objects_apart_witness :
  let W := Sample.S03.world in
  let fl := Sample.S03.flags "10.0.0.1" "UsedMB" "600" "800" in
  fst (V03.loadStruct W fl "10.0.0.1" "Cisco_CallManager" 180 V03.new_Envelope
         (snd (V03.saveStruct W fl "10.0.0.1" "Cisco CallManager" Sample.S03.snapshot1
                 Sample.start)))
  = Ret (false, V03.new_Envelope).
Proof.
  intros W fl.
  rewrite (cache03_objects_apart W fl "10.0.0.1" "Cisco CallManager" "Cisco_CallManager"
             Sample.S03.snapshot1 V03.new_Envelope Sample.start _ true 180).
  - reflexivity.
  - discriminate.
  - vm_compute. reflexivity.
Defined.

(** ** What a computation preserves, how it ends, what it prints *)

Lemma preserves_ret {A B} (f : State -> B) (a : A) : preserves f (ret a).
Proof. intros st r st' [= _ <-]. reflexivity. Qed.

Lemma preserves_bind {A B C} (f : State -> C) (m : M A) (k : A -> M B) :
  preserves f m -> (forall a, preserves f (k a)) -> preserves f (bind m k).
Proof.
  intros Hm Hk st r st' H. unfold bind in H.
  destruct (m st) as [[a|c|] s1] eqn:E.
  - rewrite (Hk a _ _ _ H). apply (Hm _ _ _ E).
  - injection H as _ <-. apply (Hm _ _ _ E).
  - injection H as _ <-. apply (Hm _ _ _ E).
Qed.

Lemma preserves_for_each {A B} (f : State -> B) (l : list A) (body : A -> M unit) :
  (forall v, preserves f (body v)) -> preserves f (for_each l body).
Proof.
  intros H. induction l as [|v l IH]; simpl; [apply preserves_ret|].
  apply preserves_bind; [apply H | intros _; exact IH].
Qed.

Lemma preserves_if {A B} (f : State -> B) (b : bool) (m1 m2 : M A) :
  preserves f m1 -> preserves f m2 -> preserves f (if b then m1 else m2).
Proof. destruct b; auto. Qed.

Lemma preserves_or_panic {A B} (f : State -> B) (o : option A) : preserves f (or_panic o).
Proof. destruct o; intros st r st' [= _ <-]; reflexivity. Qed.

Lemma preserves_debugPrintf {B} (f : State -> B) (fl : Flags) (level : Z) (format : string)
    (a : list LogArg) :
  (forall st es, f (add_events st es) = f st) -> preserves f (debugPrintf fl level format a).
Proof. intros Hf st r st' H. rewrite debugPrintf_eq in H. injection H as _ <-. apply Hf. Qed.

(** Breaks a computation into its steps; a step that writes nothing but
    the trace or a package variable is settled by evaluation. *)
Ltac preserves_steps :=
  repeat first
    [ assumption
    | match goal with H : _ |- _ => solve [apply H] end
    | apply preserves_ret
    | apply preserves_or_panic
    | apply preserves_debugPrintf; intros; reflexivity
    | solve [intros ? ? ? [= _ <-]; reflexivity]
    | apply preserves_bind; [|intros ?]
    | apply preserves_for_each; intros ?
    | apply preserves_if
    | match goal with
      | |- preserves _ (match ?x with _ => _ end) => destruct x
      | |- preserves _ (let '(_, _) := ?x in _) => destruct x
      end ].








Lemma never_os_Exit {A} (c : Z) : never_returns (@os_Exit A c).
Proof. intros st a st' [=]. Qed.

Lemma never_bind {A B} (m : M A) (k : A -> M B) :
  (forall a, never_returns (k a)) -> never_returns (bind m k).
Proof.
  intros Hk st b st' H. unfold bind in H.
  destruct (m st) as [[a|c|] s1]; try discriminate. exact (Hk a _ _ _ H).
Qed.

Lemma silent_never {A} (m : M A) : never_returns m -> returns_silent m.
Proof. intros H st a st' E. destruct (H _ _ _ E). Qed.

Lemma silent_ret {A} (a : A) : returns_silent (ret a).
Proof. intros st a' st' [= _ <-]. reflexivity. Qed.

Lemma silent_bind {A B} (m : M A) (k : A -> M B) :
  returns_silent m -> (forall a, returns_silent (k a)) -> returns_silent (bind m k).
Proof.
  intros Hm Hk st b st' H. unfold bind in H.
  destruct (m st) as [[a|c|] s1] eqn:E; try discriminate.
  rewrite (Hk a _ _ _ H). apply (Hm _ _ _ E).
Qed.

Lemma silent_for_each {A} (l : list A) (body : A -> M unit) :
  (forall v, returns_silent (body v)) -> returns_silent (for_each l body).
Proof.
  intros H. induction l as [|v l IH]; simpl; [apply silent_ret|].
  apply silent_bind; [apply H | intros _; exact IH].
Qed.

Lemma silent_if {A} (b : bool) (m1 m2 : M A) :
  returns_silent m1 -> returns_silent m2 -> returns_silent (if b then m1 else m2).
Proof. destruct b; auto. Qed.

Lemma silent_or_panic {A} (o : option A) : returns_silent (or_panic o).
Proof. destruct o; intros st a' st' [= _ <-]. reflexivity. Qed.

Lemma silent_debugPrintf (fl : Flags) (level : Z) (format : string) (a : list LogArg) :
  returns_silent (debugPrintf fl level format a).
Proof.
  intros st x st' H. rewrite debugPrintf_eq in H. injection H as _ <-.
  cbn [add_events st_trace]. rewrite printed_app.
  destruct (_ || _); simpl; rewrite app_nil_r; reflexivity.
Qed.

(** A call of [fmt.Printf] is followed by an exit wherever release 0.8
    makes one: the steps after it never return. *)
Ltac never_steps :=
  repeat first
    [ apply never_os_Exit
    | apply never_bind; intros ? ].

Ltac silent_steps :=
  repeat first
    [ assumption
    | match goal with H : _ |- _ => solve [apply H] end
    | apply silent_ret
    | apply silent_or_panic
    | apply silent_debugPrintf
    | solve [apply silent_never; never_steps]
    | solve [intros ? ? ? [= _ <-]; reflexivity]
    | apply silent_bind; [|intros ?]
    | apply silent_for_each; intros ?
    | apply silent_if
    | match goal with
      | |- returns_silent (match ?x with _ => _ end) => destruct x
      | |- returns_silent (let '(_, _) := ?x in _) => destruct x
      end ].

(** ** Release 0.8: a probe, from the cache or from the service *)

Lemma bind_assoc {A B C} (m : M A) (k : A -> M B) (h : B -> M C) (st : State) :
  bind (bind m k) h st = bind m (fun a => bind (k a) h) st.
Proof. unfold bind. destruct (m st) as [[a|c|] s1]; reflexivity. Qed.

(** A loop whose body only logs only logs. *)
Lemma for_each_logs {A} (l : list A) (body : A -> M unit) :
  (forall v st, exists es, printed es = [] /\ body v st = (Ret tt, add_events st es)) ->
  forall st, exists es, printed es = [] /\ for_each l body st = (Ret tt, add_events st es).
Proof.
  intros H. induction l as [|v l IH]; intros st; simpl.
  - exists []. rewrite add_events_nil. split; reflexivity.
  - destruct (H v st) as (e1 & P1 & E1). destruct (IH (add_events st e1)) as (e2 & P2 & E2).
    exists (e1 ++ e2).
    rewrite (bind_Ret _ _ _ _ _ E1), E2, add_events_app, printed_app, P1, P2.
    split; reflexivity.
Qed.

Lemma printed_debug (b : bool) (e : Event) :
  match e with EvLog _ _ _ => True | EvPrint _ => False end ->
  printed (if b then [e] else []) = [].
Proof. destruct b, e; simpl; intros H; try reflexivity; destruct H. Qed.


(** A probe that finds its snapshot in the cache, outside list mode, ends
    with it after one more log call. *)
Lemma acquire_after_hit (W : World V08.CounterEnvelope V08.ListCounterEnvelope) (fl : Flags)
    (ip node object counter objectInstance : string) (st s1 : State)
    (ce : V08.CounterEnvelope) :
  V08.queryHost_cache W fl ip node object counter objectInstance st = (Ret ce, s1) ->
  st_usePersistData s1 = true -> showCounters fl = false ->
  V08.queryHost_acquire W fl ip node object counter objectInstance st
  = (Ret ce,
     add_events s1
       (if (3 =? 1) || (3 <=? debug fl)
        then [EvLog (st_log_dest s1) ("use persistence: %v" +:+ nl) [LB true]] else [])).
Proof.
  intros E Hp Hl. unfold V08.queryHost_acquire. rewrite (bind_Ret _ _ _ _ _ E).
  unfold get at 1. unfold bind at 1. cbv beta iota.
  rewrite (bind_Ret _ _ _ _ _ (debugPrintf_eq _ _ _ _ _)), Hp, Hl. reflexivity.
Qed.

Section Probe08.

Variable W : World V08.CounterEnvelope V08.ListCounterEnvelope.
Variable fl : Flags.

(** The start of a probe: the cache is consulted, [usePersistData] says
    whether it served, and nothing but log events is emitted. *)
Lemma queryHost_cache_run (ip node object counter objectInstance : string) (st : State) :
  exists es,
    printed es = []
    /\ V08.queryHost_cache W fl ip node object counter objectInstance st
       = (Ret (snd (load_result W fl node object (maxCacheAge fl) V08.new_CounterEnvelope st)),
          with_usePersistData
            (fst (load_result W fl node object (maxCacheAge fl) V08.new_CounterEnvelope st))
            (add_events st es)).
Proof.
  unfold V08.queryHost_cache.
  do 3 rewrite (bind_Ret _ _ _ _ _ (debugPrintf_eq _ _ _ _ _)).
  rewrite !add_events_app.
  match goal with |- context [add_events st ?e] => set (e0 := e) end.
  assert (P0 : printed e0 = []).
  { subst e0. rewrite !printed_app. destruct (_ || _); reflexivity. }
  destruct (loadStruct_run W fl node object (maxCacheAge fl) V08.new_CounterEnvelope
              (add_events st e0)) as (e1 & P1 & E1).
  rewrite (bind_Ret _ _ _ _ _ E1), add_events_app.
  change (load_result W fl node object (maxCacheAge fl) V08.new_CounterEnvelope
            (add_events st e0))
    with (load_result W fl node object (maxCacheAge fl) V08.new_CounterEnvelope st).
  destruct (load_result W fl node object (maxCacheAge fl) V08.new_CounterEnvelope st)
    as [[|] ce]; cbn [negb fst snd]; rewrite !bind_assoc.
  - rewrite (bind_Ret _ _ _ _ _ (debugPrintf_eq _ _ _ _ _)), add_events_app, !bind_assoc.
    match goal with
    | |- context [bind (for_each ?l ?body) _ ?s] =>
        assert (HL : forall v s0, exists es,
                       printed es = [] /\ body v s0 = (Ret tt, add_events s0 es));
        [|destruct (for_each_logs l body HL s) as (e2 & P2 & E2)]
    end.
    { intros v s. cbv beta. destruct (String.eqb _ _).
      - eexists. split; [|apply debugPrintf_eq]. destruct (_ || _); reflexivity.
      - exists []. rewrite add_events_nil. split; reflexivity. }
    rewrite (bind_Ret _ _ _ _ _ E2), add_events_app.
    eexists. split; [|reflexivity].
    rewrite !printed_app, P0, P1, P2. destruct (_ || _); reflexivity.
  - rewrite (bind_Ret _ _ _ _ _ (debugPrintf_eq _ _ _ _ _)), add_events_app.
    eexists. split; [|reflexivity].
    rewrite !printed_app, P0, P1. destruct (_ || _); reflexivity.
Qed.

(** After the cache: the service is asked on a miss and in list mode,
    and only then. *)
Lemma queryHost_acquire_run (ip node object counter objectInstance : string) (st : State) :
  exists es,
    printed es = []
    /\ V08.queryHost_acquire W fl ip node object counter objectInstance st
       = let r := load_result W fl node object (maxCacheAge fl) V08.new_CounterEnvelope st in
         let s := with_usePersistData (fst r) (add_events st es) in
         if negb (fst r) || showCounters fl
         then V08.queryHost_fetch W fl ip node object s
         else (Ret (snd r), s).
Proof.
  destruct (queryHost_cache_run ip node object counter objectInstance st) as (e0 & P0 & E0).
  unfold V08.queryHost_acquire. rewrite (bind_Ret _ _ _ _ _ E0).
  unfold get at 1. unfold bind at 1. cbv beta iota.
  rewrite (bind_Ret _ _ _ _ _ (debugPrintf_eq _ _ _ _ _)).
  cbn [with_usePersistData st_usePersistData st_log_dest add_events].
  eexists (e0 ++ _). split.
  2: { cbv zeta. destruct (negb _ || showCounters fl);
         unfold with_usePersistData, add_events; cbn [st_files st_clock st_trace st_log_dest
           st_usePersistData st_returnVal st_multipeNodes]; rewrite <- app_assoc; reflexivity. }
  rewrite printed_app, P0. destruct (_ || _); reflexivity.
Qed.





Lemma fetch_collected (ip node object body : string) (ce : V08.CounterEnvelope) (st : State) :
  showCounters fl = false ->
  http_Do W (perfmon_request W fl ip (Req_PerfmonCollectCounterData node object)) = Some body ->
  xml_Unmarshal W body V08.new_CounterEnvelope = (ce, true) ->
  exists es,
    printed es = []
    /\ V08.queryHost_fetch W fl ip node object st
       = bind (V08.saveStruct W fl node object ce) (fun _ => ret ce) (add_events st es).
Proof.
  intros Hl H Hx. unfold perfmon_request in H. unfold V08.queryHost_fetch. cbv zeta.
  do 3 rewrite (bind_Ret _ _ _ _ _ (debugPrintf_eq _ _ _ _ _)).
  rewrite !add_events_app, Hl, H.
  rewrite (bind_Ret _ _ _ _ _ (debugPrintf_eq _ _ _ _ _)), add_events_app, Hx. cbn [negb].
  eexists. split; [|reflexivity].
  rewrite !printed_app. destruct (_ || _); reflexivity.
Qed.

End Probe08.

(** A probe that finds its snapshot in the cache, whatever the service. *)
Lemma acquire_hit (W : World V08.CounterEnvelope V08.ListCounterEnvelope) (fl : Flags)
    (ip node object counter objectInstance : string) (st : State)
    (fs : File) (ce : V08.CounterEnvelope) :
  st_files st !! V08.loadStruct_filename W fl node object = Some fs ->
  st_clock st - file_mtime fs <= maxCacheAge fl ->
  ioutil_ReadFile_ok W (V08.loadStruct_filename W fl node object) = true ->
  json_Unmarshal W (file_data fs) V08.new_CounterEnvelope = (ce, true) ->
  showCounters fl = false ->
  exists es,
    printed es = []
    /\ forall service,
         V08.queryHost_acquire (with_http_Do service W) fl ip node object counter
           objectInstance st
         = (Ret ce, with_usePersistData true (add_events st es)).
Proof.
  intros Hfile Hfresh Hread Hjson Hcollect.
  destruct (queryHost_cache_run W fl ip node object counter objectInstance st)
    as (e0 & P0 & E0).
  rewrite (load_result_hit W fl _ _ _ _ ce st fs Hfile Hfresh Hread Hjson) in E0.
  cbn [fst snd] in E0.
  eexists (e0 ++ _). split.
  2: { intros service.
       rewrite (acquire_after_hit (with_http_Do service W) fl _ _ _ _ _ _ _ _ E0 eq_refl Hcollect).
       unfold with_usePersistData, add_events.
       cbn [st_files st_clock st_trace st_log_dest st_usePersistData st_returnVal
            st_multipeNodes]. rewrite <- app_assoc. reflexivity. }
  rewrite printed_app, P0. destruct (_ || _); reflexivity.
Qed.

Lemma with_http_Do_same {E L} (W : World E L) : with_http_Do (http_Do W) W = W.
Proof. destruct W. reflexivity. Qed.

Section ProbeRuns08.

Variable W : World V08.CounterEnvelope V08.ListCounterEnvelope.
Variable fl : Flags.

(** X11. A probe outside list mode whose cache entry is there, not older
    than the maximal age, readable and decodable is served from it: the
    snapshot is the decoded entry, nothing is printed with [fmt.Printf],
    no file is touched, and the remote service has no part in it (with any
    other service the probe is the same). *)
Theorem cache_hit_no_request (ip node object counter objectInstance : string) (st : State)
    (fs : File) (ce : V08.CounterEnvelope)
    (Hfile : st_files st !! V08.loadStruct_filename W fl node object = Some fs)
    (Hfresh : st_clock st - file_mtime fs <= maxCacheAge fl)
    (Hread : ioutil_ReadFile_ok W (V08.loadStruct_filename W fl node object) = true)
    (Hjson : json_Unmarshal W (file_data fs) V08.new_CounterEnvelope = (ce, true))
    (Hcollect : showCounters fl = false) :
  exists es,
    printed es = []
    /\ V08.queryHost_acquire W fl ip node object counter objectInstance st
       = (Ret ce, with_usePersistData true (add_events st es))
    /\ forall service,
         V08.queryHost_acquire (with_http_Do service W) fl ip node object counter
           objectInstance st
         = V08.queryHost_acquire W fl ip node object counter objectInstance st.
Proof.
  destruct (acquire_hit W fl ip node object counter objectInstance st fs ce
              Hfile Hfresh Hread Hjson Hcollect) as (es & P & A).
  pose proof (A (http_Do W)) as A0. rewrite with_http_Do_same in A0.
  exists es. split; [exact P|]. split; [exact A0|].
  intros service. rewrite A, A0. reflexivity.
Qed.

(** X12. A probe that misses the cache asks the service, and when the
    answer decodes and the save succeeds, any later probe for the same
    node and object is served from the cache with the same snapshot, as
    long as the files are the same and no more than the maximal age has
    passed, whatever the service does then. *)
Theorem second_probe_from_cache (ip node object counter objectInstance body data : string)
    (st : State) (ce : V08.CounterEnvelope)
    (Hcollect : showCounters fl = false)
    (Hmiss : fst (load_result W fl node object (maxCacheAge fl) V08.new_CounterEnvelope st)
             = false)
    (Hhttp : http_Do W (perfmon_request W fl ip (Req_PerfmonCollectCounterData node object))
             = Some body)
    (Hxml : xml_Unmarshal W body V08.new_CounterEnvelope = (ce, true))
    (Hmarshal : json_Marshal W ce = Some data)
    (Hwrite : ioutil_WriteFile_ok W (V08.saveStruct_filename W fl node object) = true)
    (Hjson : json_Unmarshal W data V08.new_CounterEnvelope = (ce, true))
    (Hread : ioutil_ReadFile_ok W (V08.loadStruct_filename W fl node object) = true) :
  exists st1,
    V08.queryHost_acquire W fl ip node object counter objectInstance st = (Ret ce, st1)
    /\ st_usePersistData st1 = false
    /\ st_files st1
       = <[V08.saveStruct_filename W fl node object := mk_File data (st_clock st)]> (st_files st)
    /\ forall st2 service,
         st_files st2 = st_files st1 ->
         st_clock st2 - st_clock st <= maxCacheAge fl ->
         exists es,
           printed es = []
           /\ V08.queryHost_acquire (with_http_Do service W) fl ip node object counter
                objectInstance st2
              = (Ret ce, with_usePersistData true (add_events st2 es)).
Proof.
  destruct (queryHost_acquire_run W fl ip node object counter objectInstance st)
    as (e0 & P0 & A). cbv zeta in A. rewrite Hmiss in A. cbn [negb orb] in A.
  destruct (fetch_collected W fl ip node object body ce
              (with_usePersistData false (add_events st e0)) Hcollect Hhttp Hxml)
    as (e1 & P1 & F).
  rewrite F in A. clear F.
  unfold V08.saveStruct in A. rewrite Hmarshal, Hwrite in A.
  eexists. split; [exact A|]. cbn [st_usePersistData st_files st_clock with_usePersistData
                                   add_events].
  split; [reflexivity|]. split; [reflexivity|].
  intros st2 service Hfiles Hclock.
  destruct (acquire_hit W fl ip node object counter objectInstance st2
              (mk_File data (st_clock st)) ce) as (es & P & H); try assumption.
  - rewrite Hfiles. apply lookup_insert_eq.
  - exists es. split; [exact P | apply H].
Qed.




End ProbeRuns08.

Lemma cache_hit_no_request_witness :
  let W := Sample.S08.world in
  let fl := Sample.S08.flags "10.0.0.1" EmptyString "UsedMB" "600" "800" in
  let st := later 5 (snd (V08.saveStruct W fl "10.0.0.1" "Memory" Sample.S08.snapshot1
                            Sample.start)) in
  fst (V08.queryHost_acquire (with_http_Do (fun _ => None) W) fl "10.0.0.1" "10.0.0.1"
         "Memory" "UsedMB" "Memory" st)
  = Ret Sample.S08.snapshot1.
Proof.
  intros W fl st.
  destruct (cache_hit_no_request W fl "10.0.0.1" "10.0.0.1" "Memory" "UsedMB" "Memory" st
              (mk_File (Sample.S08.json_text Sample.S08.snapshot1) 1000) Sample.S08.snapshot1)
    as (es & _ & A & H).
  - vm_compute. reflexivity.
  - vm_compute. discriminate.
  - reflexivity.
  - vm_compute. reflexivity.
  - reflexivity.
  - rewrite H, A. reflexivity.
Defined.

Lemma second_probe_from_cache_witness :
  let W := Sample.S08.world in
  let fl := Sample.S08.flags "10.0.0.1" EmptyString "UsedMB" "600" "800" in
  let st1 := snd (V08.queryHost_acquire W fl "10.0.0.1" "10.0.0.1" "Memory" "UsedMB" "Memory"
                    Sample.start) in
  fst (V08.queryHost_acquire (with_http_Do (fun _ => None) W) fl "10.0.0.1" "10.0.0.1"
         "Memory" "UsedMB" "Memory" (mk_State (st_files st1) 1060 [] Stderr false 0 false))
  = Ret Sample.S08.snapshot1.
Proof.
  intros W fl.
  destruct (second_probe_from_cache W fl "10.0.0.1" "10.0.0.1" "Memory" "UsedMB" "Memory"
              "response of 10.0.0.1" (Sample.S08.json_text Sample.S08.snapshot1)
              Sample.start Sample.S08.snapshot1) as (st1 & A & _ & _ & H).
  - reflexivity.
  - vm_compute. reflexivity.
  - vm_compute. reflexivity.
  - vm_compute. reflexivity.
  - reflexivity.
  - reflexivity.
  - vm_compute. reflexivity.
  - reflexivity.
  - rewrite A. cbn [snd].
    destruct (H (mk_State (st_files st1) 1060 [] Stderr false 0 false) (fun _ => None))
      as (es & _ & E).
    + reflexivity.
    + vm_compute. discriminate.
    + rewrite E. reflexivity.
Defined.




(** ** Release 0.8: how a run ends *)

Section Ends08.

Variable W : World V08.CounterEnvelope V08.ListCounterEnvelope.
Variable fl : Flags.

Lemma queryHost_match_bad_value (counter objectInstance full : string) (v : V08.CounterInfo)
    (e : NumError) (st : State) :
  V08.Text (V08.ci_Name v) = full ->
  snd (strconv_ParseFloat (V08.Text (V08.ci_Value v))) = Some e ->
  V08.queryHost_match fl counter objectInstance full v st
  = (Exit 3,
     add_events st
       [EvLog (st_log_dest st) ("Counter value string to float64 convert error: %s" +:+ nl)
          [LOpaque]]).
Proof.
  intros Hn Hp. unfold V08.queryHost_match. rewrite Hn, String.eqb_refl.
  destruct (strconv_ParseFloat (V08.Text (V08.ci_Value v))) as [x err].
  cbn [snd] in Hp. subst err.
  rewrite (bind_Ret _ _ _ _ _ (debugPrintf_eq _ _ _ _ _)). reflexivity.
Qed.

(** X16. When the first sample with the name looked up has a value that
    [strconv.ParseFloat] rejects, as a syntax error or as out of range,
    the lookup ends the process with status 3 in either mode: no status
    line is printed with [fmt.Printf], the error is logged at level 1,
    and the samples after it are not looked at. *)
Theorem value_not_a_number (node counter objectInstance : string)
    (ce : V08.CounterEnvelope) (before after : list V08.CounterInfo) (v : V08.CounterInfo)
    (e : NumError) (st : State)
    (Hname : counter <> EmptyString)
    (Hsplit : V08.counters ce = before ++ v :: after)
    (Hfirst : no_counter_named (V08.lookup_fullCounterName node counter objectInstance) before)
    (Hmatch : V08.Text (V08.ci_Name v) = V08.lookup_fullCounterName node counter objectInstance)
    (Hvalue : snd (strconv_ParseFloat (V08.Text (V08.ci_Value v))) = Some e) :
  exists es,
    printed es = []
    /\ V08.queryHost_lookup fl node counter objectInstance ce st
       = (Exit 3,
          add_events st
            (es ++ [EvLog (st_log_dest st)
                      ("Counter value string to float64 convert error: %s" +:+ nl) [LOpaque]])).
Proof.
  unfold V08.queryHost_lookup.
  destruct counter as [|c0 counter]; [contradiction|].
  change (0 <? String.length (String c0 counter))%nat with true. cbv iota.
  set (full := V08.lookup_fullCounterName node (String c0 counter) objectInstance) in *.
  do 2 rewrite (bind_Ret _ _ _ _ _ (debugPrintf_eq _ _ _ _ _)).
  rewrite add_events_app. set (es := _ ++ _).
  exists es. split; [subst es; destruct (_ || _); reflexivity|].
  rewrite <- (add_events_app st es [_]).
  change (st_log_dest st) with (st_log_dest (add_events st es)).
  apply bind_Exit. rewrite Hsplit.
  apply (for_each_Exit before after v _ _ (add_events st es) _ 3).
  - apply for_each_no_counter. exact Hfirst.
  - apply (queryHost_match_bad_value _ _ _ _ e); assumption.
Qed.

(** Whatever returns to its caller has printed nothing: each call of
    [fmt.Printf] in release 0.8 is followed by an exit. *)
Lemma silent_saveStruct (ip object : string) (o : V08.CounterEnvelope) :
  returns_silent (V08.saveStruct W fl ip object o).
Proof. unfold V08.saveStruct. silent_steps. Qed.

Lemma silent_loadStruct (ip object : string) (age : Z) (o : V08.CounterEnvelope) :
  returns_silent (V08.loadStruct W fl ip object age o).
Proof. unfold V08.loadStruct. silent_steps. Qed.

Lemma silent_queryHost_fetch (ip node object : string) :
  returns_silent (V08.queryHost_fetch W fl ip node object).
Proof. unfold V08.queryHost_fetch. pose proof silent_saveStruct. silent_steps. Qed.

Lemma silent_queryHost_cache (ip node object counter objectInstance : string) :
  returns_silent (V08.queryHost_cache W fl ip node object counter objectInstance).
Proof. unfold V08.queryHost_cache. pose proof silent_loadStruct. silent_steps. Qed.

Lemma silent_queryHost_acquire (ip node object counter objectInstance : string) :
  returns_silent (V08.queryHost_acquire W fl ip node object counter objectInstance).
Proof.
  unfold V08.queryHost_acquire.
  pose proof silent_queryHost_cache. pose proof silent_queryHost_fetch. silent_steps.
Qed.

Lemma silent_queryHost_match (counter objectInstance full : string) (v : V08.CounterInfo) :
  returns_silent (V08.queryHost_match fl counter objectInstance full v).
Proof. unfold V08.queryHost_match. silent_steps. Qed.

Lemma silent_queryHost_lookup (node counter objectInstance : string) (ce : V08.CounterEnvelope) :
  returns_silent (V08.queryHost_lookup fl node counter objectInstance ce).
Proof. unfold V08.queryHost_lookup. pose proof silent_queryHost_match. silent_steps. Qed.

Lemma silent_queryHost (ip node object counter objectInstance : string) :
  returns_silent (V08.queryHost W fl ip node object counter objectInstance).
Proof.
  unfold V08.queryHost.
  pose proof silent_queryHost_acquire. pose proof silent_queryHost_lookup. silent_steps.
Qed.

Lemma silent_main_setup : returns_silent (V08.main_setup W fl).
Proof. unfold V08.main_setup. silent_steps. Qed.

Lemma silent_main : returns_silent (V08.main W fl).
Proof.
  unfold V08.main. pose proof silent_main_setup. pose proof silent_queryHost. silent_steps.
Qed.

(** X17. A run of release 0.8 that reaches the end of [main], and so
    ends with status 0, has printed nothing with [fmt.Printf]: every
    line the release prints is followed by an exit. It is so for a probe
    too: a call of [queryHost] that returns has printed nothing. *)
Theorem normal_end_is_silent (st0 st2 : State)
    (Hend : V08.main W fl st0 = (Ret tt, st2)) :
  exit_status (fst (V08.main W fl st0)) = 0
  /\ printed (st_trace st2) = printed (st_trace st0)
  /\ forall ip node object counter objectInstance st st',
       V08.queryHost W fl ip node object counter objectInstance st = (Ret tt, st') ->
       printed (st_trace st') = printed (st_trace st).
Proof.
  split; [rewrite Hend; reflexivity|]. split; [exact (silent_main _ _ _ Hend)|].
  intros ip node object counter objectInstance st st' H. exact (silent_queryHost _ _ _ _ _ _ _ _ H).
Qed.













Lemma Split_count (s : string) (sep : ascii) :
  (1 <? length (strings_Split s sep))%nat = negb (byte_free sep s).
Proof.
  destruct (first_occurrence s sep) as [H|(pre & rest & -> & H)].
  - rewrite (Split_free _ _ H), H. reflexivity.
  - rewrite (Split_app _ _ _ H), byte_free_app, H.
    destruct (Split_cons rest sep) as (h & t & ->).
    simpl. rewrite Ascii.eqb_refl. reflexivity.
Qed.

(** X20. Several targets are probed exactly when the argument of [-M]
    has a comma. An argument of [-M] without a comma is not used: the run
    probes the node of [-N], once, and its end is the end of that probe.
    After the setup the log calls write to standard output. *)
Theorem main_target_mode (st0 st : State) (object : string) (nodes : list string)
    (Hsetup : V08.main_setup W fl st0 = (Ret (object, nodes), st)) :
  st_multipeNodes st = negb (byte_free "," (nodesIpAddrs fl))
  /\ (byte_free "," (nodesIpAddrs fl) = true ->
      V08.main W fl st0
      = V08.queryHost W fl (ipAddr fl) (nodeIpAddr fl) (object_of (objectInstance fl))
          (counterName fl) (objectInstance fl) st)
  /\ (byte_free "," (nodesIpAddrs fl) = false ->
      V08.main W fl st0
      = for_each (strings_Split (nodesIpAddrs fl) ",")
          (fun node =>
             V08.queryHost W fl (ipAddr fl) node (object_of (objectInstance fl))
               (counterName fl) (objectInstance fl)) st)
  /\ st_log_dest st = Stdout.
Proof.
  pose proof (main_after_setup W fl _ _ _ _ Hsetup) as M.
  destruct (main_setup_Ret W fl _ _ _ _ Hsetup) as (-> & -> & Hm).
  rewrite Split_count in Hm. split; [exact Hm|].
  split; [|split].
  - intros H. rewrite M, Hm, H. reflexivity.
  - intros H. rewrite M, Hm, H. reflexivity.
  - clear M Hm. unfold V08.main_setup in Hsetup.
    destruct (negb (os_OpenFile_ok W (logFileName fl))).
    { rewrite (bind_Ret _ _ _ _ _ (debugPrintf_eq _ _ _ _ _)) in Hsetup. discriminate. }
    do 3 (erewrite bind_Ret in Hsetup by reflexivity).
    destruct (showVersion fl).
    { erewrite bind_Ret in Hsetup by reflexivity. discriminate. }
    erewrite bind_Ret in Hsetup by reflexivity.
    assert (P : preserves st_log_dest
                  (bind (if (1 <? length (strings_Split (nodesIpAddrs fl) ","))%nat
                         then bind (set_multipeNodes true)
                                (fun _ => debugPrintf fl 3 ("multiple nodes: %v" +:+ nl) [LOpaque])
                         else ret tt)
                     (fun _ => bind get (fun st1 =>
                        bind (debugPrintf fl 3 ("use multipe nodes: %v" +:+ nl)
                                [LB (st_multipeNodes st1)])
                          (fun _ => ret (object_of (objectInstance fl),
                                         strings_Split (nodesIpAddrs fl) ",")))))).
    { preserves_steps. }
    rewrite (P _ _ _ Hsetup). reflexivity.
Qed.

End Ends08.

Lemma value_not_a_number_witness :
  fst (V08.queryHost_lookup (Sample.S08.flags "10.0.0.1" EmptyString "UsedMB" "600" "800")
         "10.0.0.1" "UsedMB" "Memory"
         (Sample.S08.envelope [Sample.S08.counter "\\10.0.0.1\Memory\UsedMB" "1e999"])
         Sample.start)
  = Exit 3.
Proof.
  destruct (value_not_a_number (Sample.S08.flags "10.0.0.1" EmptyString "UsedMB" "600" "800")
              "10.0.0.1" "UsedMB" "Memory"
              (Sample.S08.envelope [Sample.S08.counter "\\10.0.0.1\Memory\UsedMB" "1e999"])
              [] [] (Sample.S08.counter "\\10.0.0.1\Memory\UsedMB" "1e999") ErrRange
              Sample.start) as (es & _ & E).
  - discriminate.
  - reflexivity.
  - constructor.
  - reflexivity.
  - vm_compute. reflexivity.
  - rewrite E. reflexivity.
Defined.

Lemma normal_end_is_silent_witness :
  let run := V08.main Sample.S08.world
               (Sample.S08.flags EmptyString "10.0.0.1,10.0.0.2" "Nope" "600" "800")
               Sample.start in
  exit_status (fst run) = 0 /\ printed (st_trace (snd run)) = [].
Proof.
  intros run.
  destruct (normal_end_is_silent Sample.S08.world
              (Sample.S08.flags EmptyString "10.0.0.1,10.0.0.2" "Nope" "600" "800")
              Sample.start (snd run)) as (H1 & H2 & _).
  - vm_compute. reflexivity.
  - split; [exact H1 | exact H2].
Defined.


Lemma main_target_mode_witness :
  let fl := Sample.S08.flags "10.0.0.1" "10.0.0.2" "UsedMB" "600" "800" in
  printed (st_trace (snd (V08.main Sample.S08.world fl Sample.start)))
  = ["OK - UC Perfmon,Memory,UsedMB=512|UsedMB=512;600;800;;" +:+ nl].
Proof.
  intros fl.
  destruct (main_target_mode Sample.S08.world fl Sample.start
              (snd (V08.main_setup Sample.S08.world fl Sample.start)) "Memory" ["10.0.0.2"])
    as (_ & H & _).
  - vm_compute. reflexivity.
  - rewrite (H eq_refl). vm_compute. reflexivity.
Defined.

(** ** Release 0.8: where the log calls go *)

Lemma logs_ret {A} (d : Dest) (a : A) : logs_to d (ret a).
Proof.
  intros st r st' Hd [= _ <-]. split; [exact Hd|].
  exists []. rewrite app_nil_r. split; [reflexivity | constructor].
Qed.

Lemma logs_bind {A B} (d : Dest) (m : M A) (k : A -> M B) :
  logs_to d m -> (forall a, logs_to d (k a)) -> logs_to d (bind m k).
Proof.
  intros Hm Hk st r st' Hd H. unfold bind in H.
  destruct (m st) as [[a|c|] s1] eqn:E.
  - destruct (Hm _ _ _ Hd E) as (D1 & e1 & T1 & F1).
    destruct (Hk a _ _ _ D1 H) as (D2 & e2 & T2 & F2).
    split; [exact D2|]. exists (e1 ++ e2).
    split; [rewrite T2, T1, app_assoc; reflexivity | apply Forall_app; split; assumption].
  - injection H as _ <-. apply (Hm _ _ _ Hd E).
  - injection H as _ <-. apply (Hm _ _ _ Hd E).
Qed.

Lemma logs_for_each {A} (d : Dest) (l : list A) (body : A -> M unit) :
  (forall v, logs_to d (body v)) -> logs_to d (for_each l body).
Proof.
  intros H. induction l as [|v l IH]; simpl; [apply logs_ret|].
  apply logs_bind; [apply H | intros _; exact IH].
Qed.

Lemma logs_if {A} (d : Dest) (b : bool) (m1 m2 : M A) :
  logs_to d m1 -> logs_to d m2 -> logs_to d (if b then m1 else m2).
Proof. destruct b; auto. Qed.

Lemma logs_or_panic {A} (d : Dest) (o : option A) : logs_to d (or_panic o).
Proof.
  destruct o; intros st r st' Hd [= _ <-]; (split; [exact Hd|]);
    exists []; rewrite app_nil_r; (split; [reflexivity | constructor]).
Qed.

Lemma logs_debugPrintf (d : Dest) (fl : Flags) (level : Z) (format : string)
    (a : list LogArg) :
  logs_to d (debugPrintf fl level format a).
Proof.
  intros st r st' Hd H. rewrite debugPrintf_eq in H. injection H as _ <-.
  split; [exact Hd|]. eexists. split; [reflexivity|].
  destruct (_ || _); repeat constructor. exact Hd.
Qed.

Lemma logs_fmt_Printf (d : Dest) (s : string) : logs_to d (fmt_Printf s).
Proof.
  intros st r st' Hd [= _ <-]. split; [exact Hd|].
  eexists. split; [reflexivity|]. repeat constructor.
Qed.

Ltac logs_steps :=
  repeat first
    [ assumption
    | match goal with H : _ |- _ => solve [apply H] end
    | apply logs_ret
    | apply logs_or_panic
    | apply logs_debugPrintf
    | apply logs_fmt_Printf
    | solve [intros ? ? ? ? [= _ <-]; split; [assumption|];
             exists []; rewrite app_nil_r; split; [reflexivity | constructor]]
    | apply logs_bind; [|intros ?]
    | apply logs_for_each; intros ?
    | apply logs_if
    | match goal with
      | |- logs_to _ (match ?x with _ => _ end) => destruct x
      | |- logs_to _ (let '(_, _) := ?x in _) => destruct x
      end ].

Section Logs08.

Variable W : World V08.CounterEnvelope V08.ListCounterEnvelope.
Variable fl : Flags.
Variable d : Dest.

Lemma logs_saveStruct (ip object : string) (o : V08.CounterEnvelope) :
  logs_to d (V08.saveStruct W fl ip object o).
Proof. unfold V08.saveStruct. logs_steps. Qed.

Lemma logs_loadStruct (ip object : string) (age : Z) (o : V08.CounterEnvelope) :
  logs_to d (V08.loadStruct W fl ip object age o).
Proof. unfold V08.loadStruct. logs_steps. Qed.

Lemma logs_queryHost (ip node object counter objectInstance : string) :
  logs_to d (V08.queryHost W fl ip node object counter objectInstance).
Proof.
  unfold V08.queryHost, V08.queryHost_acquire, V08.queryHost_cache, V08.queryHost_fetch,
    V08.queryHost_lookup, V08.queryHost_match.
  pose proof logs_saveStruct. pose proof logs_loadStruct. logs_steps.
Qed.

End Logs08.

(** X21. Once the setup of [main] is done, the logger writes to standard
    output and stays there: every log call of the probes that follow, at
    whatever level, goes to standard output, among the lines of
    [fmt.Printf]; none goes to the log file that was opened. *)
Theorem log_calls_go_to_stdout (W : World V08.CounterEnvelope V08.ListCounterEnvelope)
    (fl : Flags) (st0 st st2 : State) (object : string) (nodes : list string)
    (r : Result unit)
    (Hsetup : V08.main_setup W fl st0 = (Ret (object, nodes), st))
    (Hrun : V08.main W fl st0 = (r, st2)) :
  st_log_dest st = Stdout
  /\ st_log_dest st2 = Stdout
  /\ exists es, st_trace st2 = st_trace st ++ es /\ Forall (event_to Stdout) es.
Proof.
  assert (D : st_log_dest st = Stdout).
  { unfold V08.main_setup in Hsetup.
    destruct (negb (os_OpenFile_ok W (logFileName fl))).
    { rewrite (bind_Ret _ _ _ _ _ (debugPrintf_eq _ _ _ _ _)) in Hsetup. discriminate. }
    do 3 (erewrite bind_Ret in Hsetup by reflexivity).
    destruct (showVersion fl).
    { erewrite bind_Ret in Hsetup by reflexivity. discriminate. }
    erewrite bind_Ret in Hsetup by reflexivity.
    assert (P : logs_to Stdout
                  (bind (if (1 <? length (strings_Split (nodesIpAddrs fl) ","))%nat
                         then bind (set_multipeNodes true)
                                (fun _ => debugPrintf fl 3 ("multiple nodes: %v" +:+ nl) [LOpaque])
                         else ret tt)
                     (fun _ => bind get (fun st1 =>
                        bind (debugPrintf fl 3 ("use multipe nodes: %v" +:+ nl)
                                [LB (st_multipeNodes st1)])
                          (fun _ => ret (object_of (objectInstance fl),
                                         strings_Split (nodesIpAddrs fl) ",")))))).
    { logs_steps. }
    refine (proj1 (P _ _ _ _ Hsetup)). reflexivity. }
  split; [exact D|].
  rewrite (main_after_setup W fl _ _ _ _ Hsetup) in Hrun.
  destruct (st_multipeNodes st).
  - refine (logs_for_each Stdout nodes _ _ _ _ _ D Hrun).
    intros v. apply logs_queryHost.
  - exact (logs_queryHost W fl Stdout _ _ _ _ _ _ _ _ D Hrun).
Qed.

Lemma log_calls_go_to_stdout_witness :
  let fl := mk_Flags "10.0.0.1" "10.0.0.9" EmptyString EmptyString EmptyString "Memory"
              "UsedMB" 3 "1" "1" false false 180 "9.0" "/var/log/check_cisco_uc_perf.log"
              "/tmp/check_cisco_uc_perf/" in
  let run := V08.main Sample.S08.world fl Sample.start in
  st_log_dest Sample.start = Stderr
  /\ st_log_dest (snd run) = Stdout
  /\ exists es,
       st_trace (snd run)
       = st_trace (snd (V08.main_setup Sample.S08.world fl Sample.start)) ++ es
       /\ Forall (event_to Stdout) es.
Proof.
  intros fl run. split; [reflexivity|].
  refine (proj2 (log_calls_go_to_stdout Sample.S08.world fl Sample.start
                   (snd (V08.main_setup Sample.S08.world fl Sample.start))
                   (snd run) "Memory" [EmptyString] (Exit 3) _ _)).
  - vm_compute. reflexivity.
  - vm_compute. reflexivity.
Defined.

(** ** Release 0.8: what a probe leaves alone *)

Section Frame08.

Variable W : World V08.CounterEnvelope V08.ListCounterEnvelope.
Variable fl : Flags.

Lemma saveStruct_other_file (ip object f : string) (o : V08.CounterEnvelope) :
  f <> V08.saveStruct_filename W fl ip object ->
  preserves (fun st => st_files st !! f) (V08.saveStruct W fl ip object o).
Proof.
  intros Hf st r st' H.
  destruct (saveStruct_run W fl ip object o st) as (b & s1 & S & _ & _ & _ & _ & _ & Hframe).
  rewrite S in H. injection H as _ <-. apply Hframe. exact Hf.
Qed.

Lemma queryHost_other_file (ip node object counter objectInstance f : string) :
  f <> V08.saveStruct_filename W fl node object ->
  preserves (fun st => st_files st !! f)
    (V08.queryHost W fl ip node object counter objectInstance).
Proof.
  intros Hf. pose proof (saveStruct_other_file node object f) as S.
  unfold V08.queryHost, V08.queryHost_acquire, V08.queryHost_cache, V08.queryHost_fetch,
    V08.queryHost_lookup, V08.queryHost_match, V08.loadStruct.
  preserves_steps; apply S; exact Hf.
Qed.

Lemma queryHost_clock (ip node object counter objectInstance : string) :
  preserves st_clock (V08.queryHost W fl ip node object counter objectInstance).
Proof.
  unfold V08.queryHost, V08.queryHost_acquire, V08.queryHost_cache, V08.queryHost_fetch,
    V08.queryHost_lookup, V08.queryHost_match, V08.loadStruct, V08.saveStruct.
  preserves_steps.
Qed.

Lemma queryHost_log_dest (ip node object counter objectInstance : string) :
  preserves st_log_dest (V08.queryHost W fl ip node object counter objectInstance).
Proof.
  unfold V08.queryHost, V08.queryHost_acquire, V08.queryHost_cache, V08.queryHost_fetch,
    V08.queryHost_lookup, V08.queryHost_match, V08.loadStruct, V08.saveStruct.
  preserves_steps.
Qed.

(** X22. However a probe ends, it has changed no file but the cache file
    of its node and object: every other file, the cache files of other
    nodes and objects among them, is as it was. It has not moved the
    clock, nor set the mode of the run or the destination of the logger. *)
Theorem probe_touches_one_file (ip node object counter objectInstance : string)
    (st st' : State) (r : Result unit)
    (Hrun : V08.queryHost W fl ip node object counter objectInstance st = (r, st')) :
  (forall f, f <> V08.saveStruct_filename W fl node object ->
             st_files st' !! f = st_files st !! f)
  /\ st_clock st' = st_clock st
  /\ st_multipeNodes st' = st_multipeNodes st
  /\ st_log_dest st' = st_log_dest st.
Proof.
  split; [|split; [|split]].
  - intros f Hf. exact (queryHost_other_file _ _ _ _ _ f Hf _ _ _ Hrun).
  - exact (queryHost_clock _ _ _ _ _ _ _ _ Hrun).
  - exact (keeps_queryHost W fl _ _ _ _ _ _ _ _ Hrun).
  - exact (queryHost_log_dest _ _ _ _ _ _ _ _ Hrun).
Qed.

End Frame08.

Lemma probe_touches_one_file_witness :
  let W := Sample.S08.world in
  let fl := Sample.S08.flags "10.0.0.1" EmptyString "UsedMB" "600" "800" in
  let st := snd (V08.saveStruct W fl "10.0.0.2" "Memory" Sample.S08.snapshot2 Sample.start) in
  st_files (snd (V08.queryHost W fl "10.0.0.1" "10.0.0.1" "Memory" "UsedMB" "Memory" st))
    !! V08.saveStruct_filename W fl "10.0.0.2" "Memory"
  = Some (mk_File (Sample.S08.json_text Sample.S08.snapshot2) 1000).
Proof.
  intros W fl st.
  destruct (probe_touches_one_file W fl "10.0.0.1" "10.0.0.1" "Memory" "UsedMB" "Memory" st
              (snd (V08.queryHost W fl "10.0.0.1" "10.0.0.1" "Memory" "UsedMB" "Memory" st))
              (Exit 0)) as (H & _).
  - vm_compute. reflexivity.
  - rewrite H.
    + vm_compute. reflexivity.
    + vm_compute. discriminate.
Defined.

(** ** Release 0.3: the lookup *)

Section Lookup03.

Variable fl : Flags.

Lemma main_match_other (full : string) (v : V03.Item) (st : State) :
  V03.Name v <> full -> V03.main_match fl full v st = (Ret tt, st).
Proof.
  intros H. unfold V03.main_match. apply String.eqb_neq in H. rewrite H. reflexivity.
Qed.

Lemma main_match_found (full : string) (v : V03.Item) (x : float64) (st : State) :
  V03.Name v = full ->
  strconv_ParseFloat (V03.Value v) = (x, None) ->
  exists r st',
    getNagiosReturnVal x (warningThreshold fl) (criticalThreshold fl) = Some r
    /\ V03.main_match fl full v st = (Exit r, st')
    /\ printed (st_trace st')
       = printed (st_trace st)
         ++ [escape_output
               (sprintf_nagiosOutput (returnValText r) V03.outputPrefix (objectInstance fl)
                  (counterName fl) (V03.Value v) (warningThreshold fl) (criticalThreshold fl))
             +:+ nl].
Proof.
  intros Hn Hp. unfold V03.main_match.
  rewrite Hn, String.eqb_refl, Hp. cbv iota beta.
  rewrite getNagiosReturnVal_fires.
  set (r := if fires x (criticalThreshold fl) then 2
            else if fires x (warningThreshold fl) then 1 else 0).
  exists r. cbn [or_panic].
  erewrite bind_Ret by reflexivity.
  rewrite (bind_Ret _ _ _ _ _ (debugPrintf_eq _ _ _ _ _)).
  unfold fmt_Printf. erewrite bind_Ret by apply emit_eq.
  eexists. split; [reflexivity|]. split; [reflexivity|].
  cbn [add_events st_trace]. rewrite !printed_app.
  destruct (_ || _); rewrite ?app_nil_r; reflexivity.
Qed.

(** X23. Release 0.3 reads the samples through two pointers. When one
    of them is nil, as in an envelope that no answer has filled, the
    lookup panics, with or without a counter name: nothing is printed
    with [fmt.Printf], and the process ends with the status 2 of a Go
    panic. *)
Theorem lookup03_nil_body_panics (envelope : V03.Envelope) (st : State)
    (Hnil : V03.items envelope = None) :
  exists es,
    printed es = []
    /\ V03.main_lookup fl envelope st = (Panic, add_events st es)
    /\ exit_status (fst (V03.main_lookup fl envelope st)) = 2.
Proof.
  unfold V03.main_lookup. rewrite Hnil.
  destruct (0 <? String.length (counterName fl))%nat.
  - rewrite (bind_Ret _ _ _ _ _ (debugPrintf_eq _ _ _ _ _)).
    eexists. split; [|split; reflexivity]. destruct (_ || _); reflexivity.
  - exists []. rewrite add_events_nil. split; [|split]; reflexivity.
Qed.

(** X24. The lookup of release 0.3 for a counter name that is asked
    for. When no sample has the name looked up, the line
    [UNKNOWN - Counter not found: ] with the name is printed and the
    process exits with status 3. At the first sample with the name, when
    its value parses, the status line is printed, with the prefix
    [CUCM Perfmon] and escaped as in release 0.8, and the process exits
    with the status the line names. *)
Theorem lookup03_outcome (envelope : V03.Envelope) (l : list V03.Item) (st : State)
    (Hname : counterName fl <> EmptyString)
    (Hitems : V03.items envelope = Some l) :
  let full := V08.lookup_fullCounterName (nodeIpAddr fl) (counterName fl) (objectInstance fl) in
  (no_item_named full l ->
   exists st',
     V03.main_lookup fl envelope st = (Exit 3, st')
     /\ printed (st_trace st') = printed (st_trace st) ++ [not_found_message full])
  /\ (forall before v after x,
        l = before ++ v :: after ->
        no_item_named full before ->
        V03.Name v = full ->
        strconv_ParseFloat (V03.Value v) = (x, None) ->
        exists r st',
          getNagiosReturnVal x (warningThreshold fl) (criticalThreshold fl) = Some r
          /\ V03.main_lookup fl envelope st = (Exit r, st')
          /\ printed (st_trace st')
             = printed (st_trace st)
               ++ [escape_bytes
                     (status_line (returnValText r) "CUCM Perfmon" (objectInstance fl)
                        (counterName fl) (V03.Value v) (warningThreshold fl)
                        (criticalThreshold fl)) +:+ nl]).
Proof.
  intros full.
  assert (Hnone : forall k s, no_item_named full k ->
                    for_each k (V03.main_match fl full) s = (Ret tt, s)).
  { intros k s H. apply for_each_Ret. eapply Forall_impl; [exact H|].
    intros v Hv. apply main_match_other. exact Hv. }
  assert (Hstart : V03.main_lookup fl envelope st
                   = bind (for_each l (V03.main_match fl full))
                       (fun _ => bind (fmt_Printf (concat_strings
                                         [returnValText 3; " - Counter not found: "; full; nl]))
                                   (fun _ => os_Exit 3))
                       (add_events st
                          (if (3 =? 1) || (3 <=? debug fl)
                           then [EvLog (st_log_dest st) ("fullCounterName: >>%s<<" +:+ nl)
                                   [LS full]]
                           else []))).
  { unfold V03.main_lookup. destruct (counterName fl) as [|c0 counter] eqn:Ec; [contradiction|].
    change (0 <? String.length (String c0 counter))%nat with true. cbv iota.
    rewrite (bind_Ret _ _ _ _ _ (debugPrintf_eq _ _ _ _ _)), Hitems. cbn [or_panic].
    erewrite bind_Ret by reflexivity. subst full. unfold V08.lookup_fullCounterName.
    rewrite ?Ec. reflexivity. }
  rewrite Hstart. set (e0 := if (3 =? 1) || (3 <=? debug fl) then _ else _).
  assert (P0 : printed e0 = []) by (subst e0; destruct (_ || _); reflexivity).
  split.
  - intros Hn. rewrite (bind_Ret _ _ _ _ _ (Hnone _ _ Hn)).
    unfold fmt_Printf. rewrite (bind_Ret _ _ _ _ _ (emit_eq _ _)).
    eexists. split; [reflexivity|].
    cbn [add_events st_trace]. rewrite !printed_app, P0, app_nil_r. reflexivity.
  - intros before v after x -> Hfirst Hmatch Hvalue.
    destruct (main_match_found full v x (add_events st e0) Hmatch Hvalue)
      as (r & st' & Hr & Hm & Ht).
    exists r, st'. split; [exact Hr|]. split.
    + apply bind_Exit.
      apply (for_each_Exit before after v _ _ (add_events st e0) st' r);
        [apply Hnone; exact Hfirst | exact Hm].
    + rewrite Ht. cbn [add_events st_trace].
      rewrite printed_app, P0, app_nil_r, escape_output_bytes, sprintf_nagiosOutput_line.
      reflexivity.
Qed.

End Lookup03.

Lemma lookup03_nil_body_panics_witness :
  fst (V03.main_lookup (Sample.S03.flags "10.0.0.1" "UsedMB" "600" "800") V03.new_Envelope
         Sample.start)
  = Panic.
Proof.
  destruct (lookup03_nil_body_panics (Sample.S03.flags "10.0.0.1" "UsedMB" "600" "800")
              V03.new_Envelope Sample.start eq_refl) as (es & _ & E & _).
  rewrite E. reflexivity.
Defined.

Lemma lookup03_outcome_witness :
  let run := fun counter =>
    V03.main_lookup (Sample.S03.flags "10.0.0.1" counter "600" "800") Sample.S03.snapshot1
      Sample.start in
  printed (st_trace (snd (run "Nope")))
  = ["UNKNOWN - Counter not found: \\10.0.0.1\Memory\Nope" +:+ nl]
  /\ printed (st_trace (snd (run "UsedMB")))
     = ["OK - CUCM Perfmon,Memory,UsedMB=512|UsedMB=512;600;800;;" +:+ nl].
Proof.
  intros run. split.
  - destruct (lookup03_outcome (Sample.S03.flags "10.0.0.1" "Nope" "600" "800")
                Sample.S03.snapshot1
                [Sample.S03.item "\\10.0.0.1\Memory\UsedMB" "512";
                 Sample.S03.item "\\10.0.0.1\Memory\% Mem Used" "37"] Sample.start) as [H _].
    + discriminate.
    + reflexivity.
    + destruct H as (st' & E & P).
      * repeat constructor; discriminate.
      * subst run. cbv beta. rewrite E. cbn [snd]. rewrite P. reflexivity.
  - destruct (lookup03_outcome (Sample.S03.flags "10.0.0.1" "UsedMB" "600" "800")
                Sample.S03.snapshot1
                [Sample.S03.item "\\10.0.0.1\Memory\UsedMB" "512";
                 Sample.S03.item "\\10.0.0.1\Memory\% Mem Used" "37"] Sample.start) as [_ H].
    + discriminate.
    + reflexivity.
    + destruct (H [] (Sample.S03.item "\\10.0.0.1\Memory\UsedMB" "512")
                  [Sample.S03.item "\\10.0.0.1\Memory\% Mem Used" "37"] (f64_lit "512"))
        as (r & st' & Hr & E & P).
      * reflexivity.
      * constructor.
      * reflexivity.
      * reflexivity.
      * subst run. cbv beta. rewrite E. cbn [snd]. rewrite P.
        assert (R : r = 0) by (vm_compute in Hr; congruence). rewrite R. reflexivity.
Defined.

(** X25. Release 0.3 opens its log file before the flags are parsed,
    when the debug level is still 0: a log file that cannot be opened ends
    the run with status 3 and leaves no trace at all, neither a line of
    [fmt.Printf] nor a log call, whatever [-d] asks for. *)
Theorem main03_log_file_failure (W : World V03.Envelope V03.ListCounterEnvelope) (fl : Flags)
    (st : State)
    (Hopen : os_OpenFile_ok W "/var/log/check_cucm_perf.log" = false) :
  V03.main W fl st = (Exit 3, st)
  /\ exit_status (fst (V03.main W fl st)) = 3.
Proof.
  assert (E : V03.main W fl st = (Exit 3, st)).
  { unfold V03.main. apply bind_Exit. unfold V03.main_acquire. rewrite Hopen. reflexivity. }
  split; [exact E | rewrite E; reflexivity].
Qed.

Lemma main03_log_file_failure_witness :
  let W := mk_World V03.Envelope V03.ListCounterEnvelope
             1001 "/tmp" "check_cucm_perf"
             (fun _ => false) (fun _ => true) (fun _ => true)
             (fun e => Some (Sample.S03.json_text e)) Sample.S03.sample_json_Unmarshal
             Sample.sample_xml_Marshal Sample.S03.sample_xml_Unmarshal
             (fun _ o => (o, false)) Sample.sample_http_Do in
  let fl := mk_Flags "10.0.0.1" "10.0.0.1" EmptyString EmptyString EmptyString "Memory"
              "UsedMB" 3 "600" "800" false false 180 "9.0" EmptyString EmptyString in
  st_trace (snd (V03.main W fl Sample.start)) = [].
Proof.
  intros W fl. rewrite (proj1 (main03_log_file_failure W fl Sample.start eq_refl)).
  reflexivity.
Defined.
